(** * Timesheet form: state store and entry grid

    A shallow embedding of [static/js/timesheet/state.js] (the
    [TimesheetState] singleton) and [static/js/timesheet/entries.js] (the
    [EntriesModule] grid), followed by the properties of the two modules.

    - A JavaScript string is held as the bytes of its UTF-8 form, so an
      ASCII character is one [ascii] and any other character two to four
      of them.
    - JavaScript numbers are IEEE 754 binary64 values.  They are modelled by
      [spec_float] with precision 53 and maximal exponent 1024, so every
      arithmetic step rounds exactly as the engine does.
    - The DOM is modelled by the elements the code reads and writes: the
      rows of [#entries-body] with their seven hour inputs, the total
      cells, the hour type selector and the add controls.  A row is built
      from markup into which the hour type, the dates and the day values
      are written without escaping; the rows of the model are those the
      markup parses to when these texts are plain ([plain_splices]), and
      the statements about the content of a built row assume it.
    - [TimesheetState] is a record; its methods are functions on a [World]
      that also holds the document, the console and the trace of listener
      calls. *)

From Stdlib Require Import ZArith List String Ascii Bool Lia DecimalString.
From Stdlib Require Import Floats.SpecFloat.
From stdpp Require Import gmap strings list.

Local Open Scope string_scope.
Local Open Scope Z_scope.

(* ================================================================== *)
(** * Part I: definitions *)
(* ================================================================== *)

(** ** JavaScript numbers and the library functions the modules call *)

Module JS.

Definition number := spec_float.

Definition prec : Z := 53.
Definition emax : Z := 1024.

Definition NaN : number := S754_nan.
Definition pos_zero : number := S754_zero false.

Definition add : number -> number -> number := SFadd prec emax.
Definition mul : number -> number -> number := SFmul prec emax.
Definition div : number -> number -> number := SFdiv prec emax.

(** [x < y] and [x > y] on numbers; both are false when an operand is NaN. *)
Definition lt (x y : number) : bool := SFltb x y.
Definition gt (x y : number) : bool := SFltb y x.

(** The number with integer value [z] (exact below 2^53). *)
Definition of_Z (z : Z) : number := binary_normalize prec emax z 0 false.

(** The number [k / 2]: hours are counted in half hours. *)
Definition half (k : Z) : number := binary_normalize prec emax k (-1) false.

Definition is_nan (x : number) : bool :=
  match x with S754_nan => true | _ => false end.

Definition is_zero (x : number) : bool :=
  match x with S754_zero _ => true | _ => false end.

Definition is_finite (x : number) : bool :=
  match x with S754_zero _ | S754_finite _ _ _ => true | _ => false end.

(** ToBoolean on a number: NaN, +0 and -0 are falsy. *)
Definition truthy (x : number) : bool := negb (is_nan x || is_zero x).

(** [x || 0] for a number [x]. *)
Definition or_zero (x : number) : number := if truthy x then x else pos_zero.

Definition eqb (x y : number) : bool :=
  match x, y with
  | S754_zero a, S754_zero b => Bool.eqb a b
  | S754_infinity a, S754_infinity b => Bool.eqb a b
  | S754_nan, S754_nan => true
  | S754_finite a m e, S754_finite b n f =>
      Bool.eqb a b && Pos.eqb m n && Z.eqb e f
  | _, _ => false
  end.

(** *** Decimal literals

    [of_decimal neg n e10] is the binary64 value nearest to
    [(-1)^neg * n * 10^e10] (ties to even), which is how a decimal literal
    is read. *)
Definition of_decimal (neg : bool) (n : Z) (e10 : Z) : number :=
  match n with
  | Zpos p =>
      if 0 <=? e10
      then binary_round prec emax neg (p * Z.to_pos (10 ^ e10))%positive 0
      else div (S754_finite neg p 0)
               (S754_finite false (Z.to_pos (10 ^ (- e10))) 0)
  | _ => S754_zero neg
  end.

Definition is_digit (c : ascii) : bool :=
  let n := Z.of_N (N_of_ascii c) in (48 <=? n) && (n <=? 57).

Definition digit_val (c : ascii) : Z := Z.of_N (N_of_ascii c) - 48.

(** White space that [parseFloat] skips: the white space and line
    terminators of the language.  Those of one byte are TAB, LF, VT, FF, CR
    and SP. *)
Definition is_white (c : ascii) : bool :=
  let n := Z.of_N (N_of_ascii c) in ((9 <=? n) && (n <=? 13)) || (n =? 32).

(** U+00A0, as the two bytes C2 A0. *)
Definition is_white2 (c1 c2 : ascii) : bool :=
  (Z.of_N (N_of_ascii c1) =? 194) && (Z.of_N (N_of_ascii c2) =? 160).

(** U+1680, U+2000 to U+200A, U+2028, U+2029, U+202F, U+205F, U+3000 and
    U+FEFF, each of three bytes. *)
Definition is_white3 (c1 c2 c3 : ascii) : bool :=
  let a := Z.of_N (N_of_ascii c1) in
  let b := Z.of_N (N_of_ascii c2) in
  let c := Z.of_N (N_of_ascii c3) in
  ((a =? 225) && (b =? 154) && (c =? 128))
  || ((a =? 226) && (b =? 128)
      && (((128 <=? c) && (c <=? 138)) || (c =? 168) || (c =? 169) || (c =? 175)))
  || ((a =? 226) && (b =? 129) && (c =? 159))
  || ((a =? 227) && (b =? 128) && (c =? 128))
  || ((a =? 239) && (b =? 187) && (c =? 191)).

Fixpoint skip_white (l : list ascii) : list ascii :=
  match l with
  | c1 :: l1 =>
      if is_white c1 then skip_white l1
      else
        match l1 with
        | c2 :: l2 =>
            if is_white2 c1 c2 then skip_white l2
            else
              match l2 with
              | c3 :: l3 => if is_white3 c1 c2 c3 then skip_white l3 else l
              | [] => l
              end
        | [] => l
        end
  | [] => []
  end.

(** Reads a run of decimal digits: the value accumulated on [acc], the
    number of digits read, and the rest of the input. *)
Fixpoint take_digits (l : list ascii) (acc cnt : Z) : Z * Z * list ascii :=
  match l with
  | c :: l' =>
      if is_digit c then take_digits l' (10 * acc + digit_val c) (cnt + 1)
      else (acc, cnt, l)
  | [] => (acc, cnt, [])
  end.

Definition is_exp_mark (c : ascii) : bool :=
  let n := Z.of_N (N_of_ascii c) in (n =? 101) || (n =? 69).

(** The exponent part [e[+-]digits], when the input starts with one;
    otherwise the exponent is 0 and nothing is consumed. *)
Definition take_exponent (l : list ascii) : Z :=
  match l with
  | c :: l' =>
      if is_exp_mark c then
        let '(neg, l'') :=
          match l' with
          | "-"%char :: r => (true, r)
          | "+"%char :: r => (false, r)
          | _ => (false, l')
          end in
        let '(v, cnt, _) := take_digits l'' 0 0 in
        if 0 <? cnt then (if neg then - v else v) else 0
      else 0
  | [] => 0
  end.

Definition starts_with (p : string) (l : list ascii) : bool :=
  let q := list_ascii_of_string p in
  if decide (take (length q) l = q) then true else false.

(** The longest prefix that is an unsigned decimal literal, read as a
    number; NaN when there is none. *)
Definition parse_unsigned (neg : bool) (l : list ascii) : number :=
  if starts_with "Infinity" l then S754_infinity neg else
  let '(ip, ni, r1) := take_digits l 0 0 in
  match r1 with
  | "."%char :: r2 =>
      let '(m, nf, r3) := take_digits r2 ip 0 in
      if (0 <? ni) || (0 <? nf)
      then of_decimal neg m (take_exponent r3 - nf)
      else NaN
  | _ =>
      if 0 <? ni then of_decimal neg ip (take_exponent r1) else NaN
  end.

(** The global [parseFloat] applied to a string. *)
Definition parseFloat (s : string) : number :=
  match skip_white (list_ascii_of_string s) with
  | "-"%char :: l => parse_unsigned true l
  | "+"%char :: l => parse_unsigned false l
  | l => parse_unsigned false l
  end.

(** *** Printing *)

Definition digits_of (n : Z) : string := NilZero.string_of_uint (N.to_uint (Z.to_N n)).

Fixpoint zeros (n : nat) : string :=
  match n with O => "" | S n' => String "0" (zeros n') end.

(** A positive finite value [m * 2^e] as a fraction. *)
Definition fraction (m : positive) (e : Z) : Z * Z :=
  if 0 <=? e then (Zpos m * 2 ^ e, 1) else (Zpos m, 2 ^ (- e)).

(** [Number.prototype.toFixed(1)] on the magnitude [num / den]: the integer
    [n] with [n / 10] nearest to the value, the larger one on a tie, printed
    with a point before its last digit. *)
Definition fixed1_digits (num den : Z) : string :=
  let n := (20 * num + den) / (2 * den) in
  (digits_of (n / 10) ++ "." ++ digits_of (n mod 10))%string.

(** The least [n], from [n0] on, with [num / den < 10^n]; [scale] is
    [10^|n0|] and follows [n] along. *)
Fixpoint magnitude_from (fuel : nat) (num den n scale : Z) : Z :=
  match fuel with
  | O => n
  | S f =>
      let below := if n <=? 0 then num * scale <? den else num <? den * scale in
      if below then n
      else magnitude_from f num den (n + 1) (if n <? 0 then scale / 10 else scale * 10)
  end.

(** The least [n] with [num / den < 10^n], for a positive binary64 value
    (all of which lie between 10^-324 and 10^309). *)
Definition magnitude (num den : Z) : Z :=
  magnitude_from 640 num den (-324) (10 ^ 324).

(** The digits of Number::toString: the shortest decimal [s * 10^(n - k)],
    [k] the number of digits of [s], that reads back as [x]; among the
    candidates of that length the one nearest to [x], the even one on a
    tie.  [fuel] bounds the lengths tried; 17 digits always suffice. *)
Fixpoint shortest_from (fuel : nat) (x : number) (num den n0 k : Z) : Z * Z :=
  match fuel with
  | O => (0, n0)
  | S f =>
      let j := n0 - k in
      let N := if 0 <=? j then num else num * 10 ^ (- j) in
      let D := if 0 <=? j then den * 10 ^ j else den in
      let lo := N / D in
      let hi := lo + 1 in
      let ok_lo := eqb (of_decimal false lo j) x in
      let ok_hi := eqb (of_decimal false hi j) x in
      let nearer_lo :=
        match 2 * (N mod D) ?= D with
        | Lt => true
        | Gt => false
        | Eq => Z.even lo
        end in
      let pick :=
        if ok_lo && ok_hi then Some (if nearer_lo then lo else hi)
        else if ok_lo then Some lo
        else if ok_hi then Some hi
        else None in
      match pick with
      | Some s => if s =? 10 ^ k then (10 ^ (k - 1), n0 + 1) else (s, n0)
      | None => shortest_from f x num den n0 (k + 1)
      end
  end.

Definition shortest (x : number) (num den : Z) : Z * Z :=
  shortest_from 17 x num den (magnitude num den) 1.

(** The layout Number::toString gives the digits [s] with point position [n]. *)
Definition layout (s n : Z) : string :=
  let ds := digits_of s in
  let k := Z.of_nat (String.length ds) in
  if (k <=? n) && (n <=? 21) then
    (ds ++ zeros (Z.to_nat (n - k)))%string
  else if (0 <? n) && (n <=? 21) then
    (substring 0 (Z.to_nat n) ds ++ "."
       ++ substring (Z.to_nat n) (Z.to_nat (k - n)) ds)%string
  else if (-6 <? n) && (n <=? 0) then
    ("0." ++ zeros (Z.to_nat (- n)) ++ ds)%string
  else
    let e := n - 1 in
    let sign := if e <? 0 then "-" else "+" in
    let es := (sign ++ digits_of (Z.abs e))%string in
    if k =? 1 then (ds ++ "e" ++ es)%string
    else (substring 0 1 ds ++ "."
            ++ substring 1 (Z.to_nat (k - 1)) ds ++ "e" ++ es)%string.

(** Number::toString (radix 10), as used when a number is assigned to
    [input.value] or spliced into a template. *)
Definition toString (x : number) : string :=
  match x with
  | S754_nan => "NaN"
  | S754_zero _ => "0"
  | S754_infinity s => if s then "-Infinity" else "Infinity"
  | S754_finite s m e =>
      let '(num, den) := fraction m e in
      let '(d, n) := shortest (S754_finite false m e) num den in
      ((if s then "-" else "") ++ layout d n)%string
  end.

(** [x.toFixed(1)]. *)
Definition toFixed1 (x : number) : string :=
  match x with
  | S754_nan => "NaN"
  | S754_zero _ => "0.0"
  | S754_infinity _ => toString x
  | S754_finite s m e =>
      let '(num, den) := fraction m e in
      if 10 ^ 21 * den <=? num then toString x
      else ((if s then "-" else "") ++ fixed1_digits num den)%string
  end.

(** *** Math *)

(** [Math.max(a, b)]: NaN when an operand is NaN; +0 is larger than -0. *)
Definition Math_max (a b : number) : number :=
  if is_nan a || is_nan b then NaN
  else if lt a b then b
  else if lt b a then a
  else match a, b with
       | S754_zero true, S754_zero false => b
       | _, _ => a
       end.

(** [Math.min(a, b)]: NaN when an operand is NaN; -0 is smaller than +0. *)
Definition Math_min (a b : number) : number :=
  if is_nan a || is_nan b then NaN
  else if lt b a then b
  else if lt a b then a
  else match a, b with
       | S754_zero false, S754_zero true => b
       | _, _ => a
       end.

(** [Math.round(x)]: the integer nearest to [x], the larger one on a tie;
    a result of zero keeps the sign of [x]. *)
Definition Math_round (x : number) : number :=
  match x with
  | S754_finite s m e =>
      if 0 <=? e then x
      else
        let d := 2 ^ (- e) in
        let n := ((if s then - (2 * Zpos m) else 2 * Zpos m) + d) / (2 * d) in
        binary_normalize prec emax n 0 s
  | _ => x
  end.

End JS.

(** ** Values, records and events *)

(** The JavaScript values that occur in a day field or an amount. *)
Inductive value :=
  | VUndefined
  | VNull
  | VNum (n : JS.number)
  | VStr (s : string).

(** ToString on such a value. *)
Definition value_to_string (v : value) : string :=
  match v with
  | VUndefined => "undefined"
  | VNull => "null"
  | VNum n => JS.toString n
  | VStr s => s
  end.

(** ToBoolean on such a value. *)
Definition value_truthy (v : value) : bool :=
  match v with
  | VUndefined | VNull => false
  | VNum n => JS.truthy n
  | VStr s => negb (String.eqb s "")
  end.

(** [parseFloat(v)]: the argument is converted to a string first. *)
Definition parseFloat_value (v : value) : JS.number :=
  JS.parseFloat (value_to_string v).

(** [v > 0]; [undefined] converts to NaN, [null] to +0. *)
Definition value_gt_zero (v : value) : bool :=
  match v with
  | VNum n => JS.gt n JS.pos_zero
  | VStr s => JS.gt (JS.parseFloat s) JS.pos_zero
  | VUndefined | VNull => false
  end.

(** The property names that every object literal inherits from
    [Object.prototype]. *)
Definition Object_prototype : list string :=
  ["constructor"; "__defineGetter__"; "__defineSetter__"; "hasOwnProperty";
   "__lookupGetter__"; "__lookupSetter__"; "isPrototypeOf";
   "propertyIsEnumerable"; "toString"; "valueOf"; "__proto__"; "toLocaleString"].

Definition inherited (name : string) : bool :=
  existsb (String.eqb name) Object_prototype.

(** What [obj[key]] yields on an object literal: the value of an own
    property, the member of [Object.prototype] of that name, or
    [undefined]. *)
Inductive Lookup :=
  | Own (v : value)
  | Inherited (name : string)
  | Missing.

(** A text shown on the page: a string, or the text the engine gives for
    the member of [Object.prototype] of that name (for the functions among
    them it is implementation-defined). *)
Inductive Text :=
  | Chars (s : string)
  | MemberText (name : string).

Definition lookup_text (l : Lookup) : Text :=
  match l with
  | Own v => Chars (value_to_string v)
  | Inherited name => MemberText name
  | Missing => Chars "undefined"
  end.

(** How a call ends: it returns a result, or it throws the named error
    before it has written anything. *)
Inductive Completion (A : Type) :=
  | Normal (a : A)
  | Throw (error : string).

Arguments Normal {A} a.
Arguments Throw {A} error.

(** The characters that end or alter a double-quoted attribute value when
    markup is parsed: the quotation mark, the ampersand, NUL and CR. *)
Definition markup_char (c : ascii) : bool :=
  let n := Z.of_N (N_of_ascii c) in (n =? 34) || (n =? 38) || (n =? 0) || (n =? 13).

(** A text that, spliced between the quotation marks of an attribute,
    parses back as that attribute's value and nothing else. *)
Definition plain (s : string) : bool :=
  forallb (fun c => negb (markup_char c)) (list_ascii_of_string s).

(** An entry object [{hour_type, sun, ..., sat}]: the hour type and the
    properties set on it, keyed by day name.  A day that was never set
    reads [undefined]. *)
Record Entry := {
  hour_type : string;
  day_fields : gmap string value;
}.

Definition entry_get (e : Entry) (day : string) : value :=
  default VUndefined (day_fields e !! day).

Definition entry_set (e : Entry) (day : string) (v : value) : Entry :=
  {| hour_type := hour_type e; day_fields := <[day := v]> (day_fields e) |}.

Record ReimbursementItem := {
  item_id : string;
  item_description : string;
  item_amount : value;
  item_category : string;
}.

(** The record the API delivers (the argument of [loadTimesheet]).  A
    field that may be missing is an option. *)
Record Timesheet := {
  ts_id : option string;
  week_start : option string;
  status : string;
  pay_period_confirmed : option bool;
  entries : option (list Entry);
  reimbursement_items : option (list ReimbursementItem);
}.

(** The events of the store that concern the week, the dirty flag and the
    hour types, each with the data object it carries.  (The methods that
    edit single reimbursement items, and their events, are not embedded.) *)
Inductive Event :=
  | EvInit (weekStart : option string)
  | EvTimesheetLoaded (timesheet : Timesheet)
  | EvChanged (hasChanges : bool)
  | EvHourTypeAdded (hourType : string)
  | EvHourTypeRemoved (hourType : string).

Definition event_name (ev : Event) : string :=
  match ev with
  | EvInit _ => "init"
  | EvTimesheetLoaded _ => "timesheetLoaded"
  | EvChanged _ => "changed"
  | EvHourTypeAdded _ => "hourTypeAdded"
  | EvHourTypeRemoved _ => "hourTypeRemoved"
  end.

(** A listener is a function value; [on] and the unsubscribe closure
    compare listeners by identity, which [cb_id] stands for.  Calling a
    listener is recorded in the trace of the world; [cb_throws] tells
    whether the call raises.  What else a listener does is outside the
    model. *)
Record Callback := {
  cb_id : nat;
  cb_throws : bool;
}.

Definition same_callback (a b : Callback) : bool := Nat.eqb (cb_id a) (cb_id b).

Inductive ConsoleEntry :=
  | ConsoleLog (msg : string)
  | ConsoleWarn (msg : string)
  | ConsoleError (msg : string).

(** ** The document *)

(** An [<input type="number" class="hour-input">] of a row. *)
Record HourInput := {
  in_value : string;
  in_day : string;
  in_date : string;
  in_holiday : bool;
  in_readonly : bool;
  in_readonly_field : bool;
}.

(** A [<tr class="entry-row">] of [#entries-body]: its id, its
    [data-hour-type], the label, the remove button (its [display] style,
    when the button exists), the hour inputs in document order and the
    text of the [.row-total] cell. *)
Record EntryRow := {
  row_id : string;
  row_hourType : string;
  row_label : Text;
  row_removeBtn : option string;
  row_inputs : list HourInput;
  row_total : string;
}.

Record SelectOption := {
  opt_value : string;
  opt_text : Text;
  opt_hidden : bool;
}.

Record Selector := {
  sel_options : list SelectOption;
  sel_value : string;
}.

(** The elements of the page that the two modules look up.  An element
    that may be missing from the page is an option; [col_totals] maps a
    day to the text of [#col-total-<day>] when that cell exists. *)
Record Document := {
  timesheet_form : bool;
  entries_body : option (list EntryRow);
  hour_type_selector : option Selector;
  add_row_controls : option string;
  col_totals : gmap string string;
  grand_total : option string;
}.

(** ** Collaborators declared outside the two modules *)

(** [UserInfo] of app.js, when it is defined. *)
Record UserInfoT := {
  role : string;
}.

(** The functions of [DateUtils] that the grid calls.  The holiday
    calendar and the dates of a week are supplied from outside. *)
Record DateUtilsT := {
  getWeekDates : option string -> list string;
  isHoliday : string -> bool;
  getHolidayName : string -> string;
}.

(** Modelled from the spec: [DateUtils.DAYS], which is declared outside the
    given sources.  The week is the fixed window Sun...Sat and, lower-cased,
    its names are the day keys [sun..sat] of a record. *)
Definition DateUtils_DAYS : list string :=
  ["Sun"; "Mon"; "Tue"; "Wed"; "Thu"; "Fri"; "Sat"].

Definition lower_ascii (c : ascii) : ascii :=
  let n := N_of_ascii c in
  if ((65 <=? n) && (n <=? 90))%N then ascii_of_N (n + 32) else c.

Fixpoint toLowerCase (s : string) : string :=
  match s with
  | EmptyString => EmptyString
  | String c s' => String (lower_ascii c) (toLowerCase s')
  end.

(** The literal [['sun', 'mon', 'tue', 'wed', 'thu', 'fri', 'sat']]. *)
Definition days : list string :=
  ["sun"; "mon"; "tue"; "wed"; "thu"; "fri"; "sat"].

(** ** state.js: the store *)

Record TimesheetStateT := {
  currentTimesheet : option Timesheet;
  currentWeekStart : option string;
  addedHourTypes : gset string;
  reimbursementItems : list ReimbursementItem;
  hasUnsavedChanges : bool;
  _form : bool;
  _entriesBody : bool;
  _listeners : gmap string (list Callback);
}.

(** Everything the methods read or write: the store, the page, the
    console, the ambient globals, and two traces kept for the statements
    below, the events passed to [emit] and the listener calls made, both
    oldest first. *)
Record World := {
  TimesheetState : TimesheetStateT;
  document : Document;
  console : list ConsoleEntry;
  UserInfo : option UserInfoT;
  DateUtils : DateUtilsT;
  emitted : list Event;
  calls : list (Callback * Event);
}.

Definition with_state (f : TimesheetStateT -> TimesheetStateT) (w : World) : World :=
  {| TimesheetState := f (TimesheetState w); document := document w;
     console := console w; UserInfo := UserInfo w; DateUtils := DateUtils w;
     emitted := emitted w; calls := calls w |}.

Definition with_document (f : Document -> Document) (w : World) : World :=
  {| TimesheetState := TimesheetState w; document := f (document w);
     console := console w; UserInfo := UserInfo w; DateUtils := DateUtils w;
     emitted := emitted w; calls := calls w |}.

Definition console_push (c : ConsoleEntry) (w : World) : World :=
  {| TimesheetState := TimesheetState w; document := document w;
     console := (console w ++ [c])%list; UserInfo := UserInfo w;
     DateUtils := DateUtils w; emitted := emitted w; calls := calls w |}.

Definition record_emit (ev : Event) (w : World) : World :=
  {| TimesheetState := TimesheetState w; document := document w;
     console := console w; UserInfo := UserInfo w; DateUtils := DateUtils w;
     emitted := (emitted w ++ [ev])%list; calls := calls w |}.

Definition record_call (cb : Callback) (ev : Event) (w : World) : World :=
  {| TimesheetState := TimesheetState w; document := document w;
     console := console w; UserInfo := UserInfo w; DateUtils := DateUtils w;
     emitted := emitted w; calls := (calls w ++ [(cb, ev)])%list |}.

Module State.

(** [emit(event, data)]: every listener registered for the event name is
    called in registration order; a listener that raises is logged and
    the loop goes on. *)
Definition call_listener (ev : Event) (w : World) (cb : Callback) : World :=
  let w' := record_call cb ev w in
  if cb_throws cb
  then console_push (ConsoleError ("Error in " ++ event_name ev ++ " listener:")) w'
  else w'.

Definition emit (ev : Event) (w : World) : World :=
  let listeners := default [] (_listeners (TimesheetState w) !! event_name ev) in
  fold_left (call_listener ev) listeners (record_emit ev w).

Definition set_listeners (event : string) (l : list Callback) (w : World) : World :=
  with_state (fun st =>
    {| currentTimesheet := currentTimesheet st;
       currentWeekStart := currentWeekStart st;
       addedHourTypes := addedHourTypes st;
       reimbursementItems := reimbursementItems st;
       hasUnsavedChanges := hasUnsavedChanges st;
       _form := _form st; _entriesBody := _entriesBody st;
       _listeners := <[event := l]> (_listeners st) |}) w.

(** [on(event, callback)]; the function it returns is [unsubscribe].
    [_listeners] is an object literal: for an event name that it only
    inherits from [Object.prototype], [this._listeners[event]] is that
    member, which is truthy and has no [push], so the call throws a
    TypeError and registers nothing. *)
Definition on (event : string) (callback : Callback) (w : World) : Completion World :=
  match _listeners (TimesheetState w) !! event with
  | Some l => Normal (set_listeners event (l ++ [callback])%list w)
  | None =>
      if inherited event then Throw "TypeError"
      else Normal (set_listeners event [callback] w)
  end.

(** The closure returned by [on(event, callback)].  Its body reads
    [this._listeners[event]], which is always present once [on] has
    returned. *)
Definition unsubscribe (event : string) (callback : Callback) (w : World) : World :=
  with_state (fun st =>
    {| currentTimesheet := currentTimesheet st;
       currentWeekStart := currentWeekStart st;
       addedHourTypes := addedHourTypes st;
       reimbursementItems := reimbursementItems st;
       hasUnsavedChanges := hasUnsavedChanges st;
       _form := _form st; _entriesBody := _entriesBody st;
       _listeners :=
         <[event := List.filter (fun cb => negb (same_callback cb callback))
                      (default [] (_listeners st !! event))]>
           (_listeners st) |}) w.

Definition _cacheDOMReferences (w : World) : World :=
  with_state (fun st =>
    {| currentTimesheet := currentTimesheet st;
       currentWeekStart := currentWeekStart st;
       addedHourTypes := addedHourTypes st;
       reimbursementItems := reimbursementItems st;
       hasUnsavedChanges := hasUnsavedChanges st;
       _form := timesheet_form (document w);
       _entriesBody := bool_decide (is_Some (entries_body (document w)));
       _listeners := _listeners st |}) w.

(** [init(weekStart = null)]. *)
Definition init (weekStart : option string) (w : World) : World :=
  let w1 := with_state (fun st =>
    {| currentTimesheet := None;
       currentWeekStart := weekStart;
       addedHourTypes := ∅;
       reimbursementItems := [];
       hasUnsavedChanges := false;
       _form := _form st; _entriesBody := _entriesBody st;
       _listeners := _listeners st |}) w in
  emit (EvInit weekStart) (_cacheDOMReferences w1).

(** [loadTimesheet(timesheet)]. *)
Definition loadTimesheet (timesheet : Timesheet) (w : World) : World :=
  let w1 := with_state (fun st =>
    {| currentTimesheet := Some timesheet;
       currentWeekStart := week_start timesheet;
       addedHourTypes :=
         match entries timesheet with
         | Some es => fold_left (fun acc e => acc ∪ {[hour_type e]}) es ∅
         | None => ∅
         end;
       reimbursementItems := default [] (reimbursement_items timesheet);
       hasUnsavedChanges := false;
       _form := _form st; _entriesBody := _entriesBody st;
       _listeners := _listeners st |}) w in
  emit (EvTimesheetLoaded timesheet) w1.

(** [this.currentTimesheet.pay_period_confirmed || false]. *)
Definition payPeriodConfirmed (t : Timesheet) : bool :=
  default false (pay_period_confirmed t).

(** [isEditable()]. *)
Definition isEditable (w : World) : bool :=
  match currentTimesheet (TimesheetState w) with
  | None => true
  | Some t =>
      if payPeriodConfirmed t then false
      else String.eqb (status t) "NEW" || String.eqb (status t) "NEEDS_APPROVAL"
  end.

(** [getTimesheetId()]: an empty id is falsy and reads as [null]. *)
Definition getTimesheetId (w : World) : option string :=
  match currentTimesheet (TimesheetState w) with
  | Some t =>
      match ts_id t with
      | Some i => if String.eqb i "" then None else Some i
      | None => None
      end
  | None => None
  end.

Definition set_hasUnsavedChanges (b : bool) (w : World) : World :=
  with_state (fun st =>
    {| currentTimesheet := currentTimesheet st;
       currentWeekStart := currentWeekStart st;
       addedHourTypes := addedHourTypes st;
       reimbursementItems := reimbursementItems st;
       hasUnsavedChanges := b;
       _form := _form st; _entriesBody := _entriesBody st;
       _listeners := _listeners st |}) w.

Definition set_addedHourTypes (f : gset string -> gset string) (w : World) : World :=
  with_state (fun st =>
    {| currentTimesheet := currentTimesheet st;
       currentWeekStart := currentWeekStart st;
       addedHourTypes := f (addedHourTypes st);
       reimbursementItems := reimbursementItems st;
       hasUnsavedChanges := hasUnsavedChanges st;
       _form := _form st; _entriesBody := _entriesBody st;
       _listeners := _listeners st |}) w.

(** [markChanged()]. *)
Definition markChanged (w : World) : World :=
  if negb (hasUnsavedChanges (TimesheetState w))
  then emit (EvChanged true) (set_hasUnsavedChanges true w)
  else w.

(** [clearChanges()]. *)
Definition clearChanges (w : World) : World :=
  emit (EvChanged false) (set_hasUnsavedChanges false w).

(** [addHourType(hourType)]. *)
Definition addHourType (hourType : string) (w : World) : World :=
  let w1 := set_addedHourTypes (fun s => s ∪ {[hourType]}) w in
  emit (EvHourTypeAdded hourType) (markChanged w1).

(** [removeHourType(hourType)]. *)
Definition removeHourType (hourType : string) (w : World) : World :=
  let w1 := set_addedHourTypes (fun s => s ∖ {[hourType]}) w in
  emit (EvHourTypeRemoved hourType) (markChanged w1).

(** [hasHourType(hourType)]. *)
Definition hasHourType (hourType : string) (w : World) : bool :=
  bool_decide (hourType ∈ addedHourTypes (TimesheetState w)).

(** [getReimbursementTotal()]. *)
Definition getReimbursementTotal (w : World) : JS.number :=
  fold_left
    (fun sum item => JS.add sum (JS.or_zero (parseFloat_value (item_amount item))))
    (reimbursementItems (TimesheetState w)) JS.pos_zero.

End State.

(** ** entries.js: the grid *)

Module Entries.

(** [HOUR_TYPES[hourType]], spliced into the row template. *)
Definition HOUR_TYPES (hourType : string) : Lookup :=
  if String.eqb hourType "Work" then Own (VStr "Work")
  else if String.eqb hourType "Training" then Own (VStr "Training")
  else if String.eqb hourType "Field" then Own (VStr "Field")
  else if String.eqb hourType "Holiday" then Own (VStr "Holiday")
  else if inherited hourType then Inherited hourType
  else Missing.

Definition ALL_HOUR_TYPES : list string := ["Work"; "Training"; "Field"; "Holiday"].

Definition TRAINEE_HOUR_TYPES : list string := ["Training"].

(** [getAvailableHourTypes()]. *)
Definition getAvailableHourTypes (w : World) : list string :=
  let isTrainee :=
    match UserInfo w with
    | Some u => String.eqb (role u) "trainee"
    | None => false
    end in
  if isTrainee then TRAINEE_HOUR_TYPES else ALL_HOUR_TYPES.

Definition set_selector (sel : Selector) (w : World) : World :=
  with_document (fun d =>
    {| timesheet_form := timesheet_form d; entries_body := entries_body d;
       hour_type_selector := Some sel; add_row_controls := add_row_controls d;
       col_totals := col_totals d; grand_total := grand_total d |}) w.

Definition set_entries_body (rows : list EntryRow) (w : World) : World :=
  with_document (fun d =>
    {| timesheet_form := timesheet_form d; entries_body := Some rows;
       hour_type_selector := hour_type_selector d;
       add_row_controls := add_row_controls d;
       col_totals := col_totals d; grand_total := grand_total d |}) w.

Definition set_add_row_controls (display : string) (w : World) : World :=
  with_document (fun d =>
    {| timesheet_form := timesheet_form d; entries_body := entries_body d;
       hour_type_selector := hour_type_selector d;
       add_row_controls := Some display;
       col_totals := col_totals d; grand_total := grand_total d |}) w.

Definition set_col_totals (f : gmap string string -> gmap string string) (w : World) : World :=
  with_document (fun d =>
    {| timesheet_form := timesheet_form d; entries_body := entries_body d;
       hour_type_selector := hour_type_selector d;
       add_row_controls := add_row_controls d;
       col_totals := f (col_totals d); grand_total := grand_total d |}) w.

Definition set_grand_total (text : string) (w : World) : World :=
  with_document (fun d =>
    {| timesheet_form := timesheet_form d; entries_body := entries_body d;
       hour_type_selector := hour_type_selector d;
       add_row_controls := add_row_controls d;
       col_totals := col_totals d; grand_total := Some text |}) w.

(** [populateSelector()]. *)
Definition populateSelector (w : World) : World :=
  match hour_type_selector (document w) with
  | None => w
  | Some _ =>
      let placeholder :=
        {| opt_value := ""; opt_text := Chars "Select hour type..."; opt_hidden := false |} in
      let offered :=
        List.filter (fun hourType => negb (State.hasHourType hourType w))
          (getAvailableHourTypes w) in
      let options :=
        List.map (fun hourType =>
          {| opt_value := hourType;
             opt_text := lookup_text (HOUR_TYPES hourType);
             opt_hidden := false |}) offered in
      set_selector {| sel_options := placeholder :: options; sel_value := "" |} w
  end.

(** [updateSelectorOptions()]. *)
Definition updateSelectorOptions (w : World) : World :=
  match hour_type_selector (document w) with
  | None => w
  | Some sel =>
      let options :=
        List.map (fun o =>
          if negb (String.eqb (opt_value o) "")
          then {| opt_value := opt_value o; opt_text := opt_text o;
                  opt_hidden := State.hasHourType (opt_value o) w |}
          else o) (sel_options sel) in
      set_selector {| sel_options := options; sel_value := "" |} w
  end.

(** [_checkAllTypesAdded()]. *)
Definition _checkAllTypesAdded (w : World) : World :=
  match add_row_controls (document w) with
  | None => w
  | Some _ =>
      let allAdded :=
        forallb (fun type => State.hasHourType type w) (getAvailableHourTypes w) in
      set_add_row_controls (if allAdded then "none" else "flex") w
  end.

(** The value an [<input type="number">] holds after its value is set to
    [s]: [s] when it is a valid floating-point number that reads as a
    finite number, else the empty string.  [valid_number] is the syntax. *)
Definition valid_number_tail (l : list ascii) : bool :=
  match l with
  | [] => true
  | c :: l' =>
      JS.is_exp_mark c &&
      (let l'' :=
         match l' with
         | "-"%char :: r => r
         | "+"%char :: r => r
         | _ => l'
         end in
       let '(_, cnt, rest) := JS.take_digits l'' 0 0 in
       (0 <? cnt) && bool_decide (rest = []))
  end.

Definition valid_number (s : string) : bool :=
  let l := list_ascii_of_string s in
  let l := match l with "-"%char :: r => r | _ => l end in
  let '(_, ni, r1) := JS.take_digits l 0 0 in
  match r1 with
  | "."%char :: r2 =>
      let '(_, nf, r3) := JS.take_digits r2 0 0 in
      (0 <? nf) && valid_number_tail r3
  | _ => (0 <? ni) && valid_number_tail r1
  end.

Definition sanitize (s : string) : string :=
  if valid_number s && JS.is_finite (JS.parseFloat s) then s else "".

(** The day name of column [i]: [DateUtils.DAYS[i].toLowerCase()]. *)
Definition dayName (i : nat) : string :=
  toLowerCase (default "undefined" (DateUtils_DAYS !! i)).

(** The texts that the template splices into the attributes of the input
    of column [i]: [dates[i]] and [existingData?.[dayName] || '']. *)
Definition date_text (w : World) (i : nat) : string :=
  let dates := getWeekDates (DateUtils w) (currentWeekStart (TimesheetState w)) in
  default "undefined" (dates !! i).

Definition day_text (existingData : option Entry) (i : nat) : string :=
  match existingData with
  | Some e => if value_truthy (entry_get e (dayName i))
              then value_to_string (entry_get e (dayName i)) else ""
  | None => ""
  end.

(** The template writes the hour type, the date and the day value between
    quotation marks without escaping them.  When all of them are [plain],
    the markup parses to the seven inputs with the attributes as written;
    this is the case that [build_input] and [_buildRowHTML] describe. *)
Definition plain_splices (hourType : string) (existingData : option Entry) (w : World) : bool :=
  plain hourType
  && forallb (fun i => plain (date_text w i) && plain (day_text existingData i)) (seq 0 7).

(** The [<td>] with the hour input of column [i] in [_buildRowHTML]. *)
Definition build_input (w : World) (existingData : option Entry) (i : nat) : HourInput :=
  let isEditable := State.isEditable w in
  let dateStr := date_text w i in
  let v := day_text existingData i in
  {| in_value := sanitize v;
     in_day := dayName i;
     in_date := dateStr;
     in_holiday := isHoliday (DateUtils w) dateStr;
     in_readonly := negb isEditable;
     in_readonly_field := negb isEditable |}.

(** [_buildRowHTML(hourType, existingData)], as the row the markup denotes
    once it is assigned to [row.innerHTML], for splices that are plain
    (see [plain_splices]). *)
Definition _buildRowHTML (hourType : string) (existingData : option Entry) (w : World) : EntryRow :=
  let isEditable := State.isEditable w in
  let total :=
    match existingData with
    | Some e =>
        fold_left
          (fun sum day => JS.add sum (JS.or_zero (parseFloat_value (entry_get e day))))
          days JS.pos_zero
    | None => JS.pos_zero
    end in
  {| row_id := "row-" ++ hourType;
     row_hourType := hourType;
     row_label := lookup_text (HOUR_TYPES hourType);
     row_removeBtn := if isEditable then Some "" else None;
     row_inputs := List.map (build_input w existingData) (seq 0 7);
     row_total := JS.toFixed1 total |}.

(** [addRow(hourType, existingData = null)]. *)
Definition addRow (hourType : string) (existingData : option Entry) (w : World) : World :=
  if State.hasHourType hourType w then
    console_push (ConsoleWarn ("Hour type " ++ hourType ++ " already added")) w
  else
    match entries_body (document w) with
    | None => w
    | Some _ =>
        let w1 := State.addHourType hourType w in
        let row := _buildRowHTML hourType existingData w1 in
        let w2 := set_entries_body (default [] (entries_body (document w1)) ++ [row])%list w1 in
        _checkAllTypesAdded (updateSelectorOptions w2)
    end.

(** The row [document.getElementById(`row-${hourType}`)] finds: the first
    one with that id. *)
Definition find_row (hourType : string) (w : World) : option EntryRow :=
  List.find (fun r => String.eqb (row_id r) ("row-" ++ hourType))
    (default [] (entries_body (document w))).

Fixpoint remove_first {A} (p : A -> bool) (l : list A) : list A :=
  match l with
  | [] => []
  | x :: l' => if p x then l' else x :: remove_first p l'
  end.

Fixpoint update_first {A} (p : A -> bool) (f : A -> A) (l : list A) : list A :=
  match l with
  | [] => []
  | x :: l' => if p x then f x :: l' else x :: update_first p f l'
  end.

(** [removeRow(hourType)]. *)
Definition removeRow (hourType : string) (w : World) : World :=
  match find_row hourType w with
  | Some _ =>
      let rows :=
        remove_first (fun r => String.eqb (row_id r) ("row-" ++ hourType))
          (default [] (entries_body (document w))) in
      let w1 := set_entries_body rows w in
      let w2 := State.removeHourType hourType w1 in
      _checkAllTypesAdded (updateSelectorOptions w2)
  | None => w
  end.

(** The hours an input counts for: [parseFloat(input.value) || 0]. *)
Definition input_hours (i : HourInput) : JS.number :=
  JS.or_zero (JS.parseFloat (in_value i)).

(** The total [updateRowTotal] computes over the inputs of a row. *)
Definition rowTotal (r : EntryRow) : JS.number :=
  fold_left (fun total i => JS.add total (input_hours i)) (row_inputs r) JS.pos_zero.

(** [tbody.querySelectorAll(`input[data-day="${day}"]`)]. *)
Definition day_inputs (day : string) (rows : list EntryRow) : list HourInput :=
  List.filter (fun i => String.eqb (in_day i) day) (concat (List.map row_inputs rows)).

(** The total [updateColumnTotals] computes for a day. *)
Definition columnTotal (day : string) (rows : list EntryRow) : JS.number :=
  fold_left (fun columnTotal i => JS.add columnTotal (input_hours i))
    (day_inputs day rows) JS.pos_zero.

(** The total [updateGrandTotal] computes: it reads the text of the
    [.row-total] cells. *)
Definition grandTotal (rows : list EntryRow) : JS.number :=
  fold_left
    (fun grandTotal r => JS.add grandTotal (JS.or_zero (JS.parseFloat (row_total r))))
    rows JS.pos_zero.

(** [updateColumnTotals()]. *)
Definition updateColumnTotals (w : World) : World :=
  match entries_body (document w) with
  | None => w
  | Some rows =>
      fold_left
        (fun w' day =>
           match col_totals (document w') !! day with
           | Some _ =>
               set_col_totals (<[day := JS.toFixed1 (columnTotal day rows)]>) w'
           | None => w'
           end) days w
  end.

(** [updateGrandTotal()]. *)
Definition updateGrandTotal (w : World) : World :=
  match entries_body (document w) with
  | None => w
  | Some rows =>
      match grand_total (document w) with
      | Some _ => set_grand_total (JS.toFixed1 (grandTotal rows)) w
      | None => w
      end
  end.

Definition set_row_total (text : string) (r : EntryRow) : EntryRow :=
  {| row_id := row_id r; row_hourType := row_hourType r; row_label := row_label r;
     row_removeBtn := row_removeBtn r; row_inputs := row_inputs r;
     row_total := text |}.

(** [updateRowTotal(hourType)]. *)
Definition updateRowTotal (hourType : string) (w : World) : World :=
  match find_row hourType w with
  | None => w
  | Some row =>
      let rows :=
        update_first (fun r => String.eqb (row_id r) ("row-" ++ hourType))
          (set_row_total (JS.toFixed1 (rowTotal row)))
          (default [] (entries_body (document w))) in
      updateGrandTotal (updateColumnTotals (set_entries_body rows w))
  end.

(** The entry [collectEntries] builds from a row. *)
Definition row_entry (r : EntryRow) : Entry :=
  fold_left (fun entry i => entry_set entry (in_day i) (VNum (input_hours i)))
    (row_inputs r) {| hour_type := row_hourType r; day_fields := ∅ |}.

Definition hasHours (entry : Entry) : bool :=
  existsb (fun day => value_gt_zero (entry_get entry day)) days.

(** [collectEntries()]. *)
Definition collectEntries (w : World) : list Entry :=
  match entries_body (document w) with
  | None => []
  | Some rows => List.filter hasHours (List.map row_entry rows)
  end.

(** [hasFieldHours()]. *)
Definition hasFieldHours (w : World) : bool :=
  if negb (State.hasHourType "Field" w) then false
  else match find_row "Field" w with
       | None => false
       | Some row => JS.gt (rowTotal row) JS.pos_zero
       end.

(** [clearAll()]. *)
Definition clearAll (w : World) : World :=
  let w1 := match entries_body (document w) with
            | Some _ => set_entries_body [] w
            | None => w
            end in
  let w2 := populateSelector (State.set_addedHourTypes (fun _ => ∅) w1) in
  match add_row_controls (document w2) with
  | Some _ => set_add_row_controls "flex" w2
  | None => w2
  end.

(** [setReadOnly(readonly)]. *)
Definition setReadOnly (readonly : bool) (w : World) : World :=
  match entries_body (document w) with
  | None => w
  | Some rows =>
      let rows' :=
        List.map (fun r =>
          {| row_id := row_id r; row_hourType := row_hourType r;
             row_label := row_label r;
             row_removeBtn :=
               match row_removeBtn r with
               | Some _ => Some (if readonly then "none" else "inline-block")
               | None => None
               end;
             row_inputs :=
               List.map (fun i =>
                 {| in_value := in_value i; in_day := in_day i;
                    in_date := in_date i; in_holiday := in_holiday i;
                    in_readonly := readonly; in_readonly_field := readonly |})
                 (row_inputs r);
             row_total := row_total r |}) rows in
      let w1 := set_entries_body rows' w in
      match add_row_controls (document w1) with
      | Some _ => set_add_row_controls (if readonly then "none" else "flex") w1
      | None => w1
      end
  end.

(** *** The listeners installed by [_setupRowHandlers] and [setupAddButton]

    An hour input is addressed by the position [r] of its row in
    [#entries-body] and its position [i] in the row. *)

Definition get_input (r i : nat) (w : World) : option HourInput :=
  match default [] (entries_body (document w)) !! r with
  | Some row => row_inputs row !! i
  | None => None
  end.

Definition set_value (v : string) (i : HourInput) : HourInput :=
  {| in_value := sanitize v; in_day := in_day i; in_date := in_date i;
     in_holiday := in_holiday i; in_readonly := in_readonly i;
     in_readonly_field := in_readonly_field i |}.

(** [input.value = v] on the input at [(r, i)]. *)
Definition set_input_value (r i : nat) (v : string) (w : World) : World :=
  match entries_body (document w) with
  | None => w
  | Some rows =>
      set_entries_body
        (alter (fun row =>
           {| row_id := row_id row; row_hourType := row_hourType row;
              row_label := row_label row; row_removeBtn := row_removeBtn row;
              row_inputs := alter (set_value v) i (row_inputs row);
              row_total := row_total row |}) r rows) w
  end.

(** [_checkHolidayInput(input)]. *)
Definition _checkHolidayInput (input : HourInput) (w : World) : World :=
  let dateStr := in_date input in
  if String.eqb dateStr "" || negb (isHoliday (DateUtils w) dateStr) then w
  else
    let value := input_hours input in
    if JS.gt value JS.pos_zero then
      let holidayName := getHolidayName (DateUtils w) dateStr in
      console_push (ConsoleLog ("Note: Entering hours on " ++ holidayName)) w
    else w.

(** The ['input'] listener of the input at [(r, i)] in the row of [hourType]. *)
Definition on_input (hourType : string) (r i : nat) (w : World) : World :=
  let w1 := State.markChanged (updateRowTotal hourType w) in
  match get_input r i w1 with
  | Some input => _checkHolidayInput input w1
  | None => w1
  end.

(** The number the ['change'] listener computes from the text of the input:
    [parseFloat(input.value) || 0], clamped to [0, 24], then rounded to a
    multiple of 0.5. *)
Definition clamp (value : JS.number) : JS.number :=
  JS.Math_max JS.pos_zero (JS.Math_min (JS.of_Z 24) value).

Definition round_half (value : JS.number) : JS.number :=
  JS.div (JS.Math_round (JS.mul value (JS.of_Z 2))) (JS.of_Z 2).

Definition normalize (text : string) : JS.number :=
  round_half (clamp (JS.or_zero (JS.parseFloat text))).

(** The text the ['change'] listener assigns: [value || '']. *)
Definition commit (text : string) : string :=
  let value := normalize text in
  if JS.truthy value then JS.toString value else "".

(** The ['change'] listener of the input at [(r, i)]. *)
Definition on_change (r i : nat) (w : World) : World :=
  match get_input r i w with
  | Some input => set_input_value r i (commit (in_value input)) w
  | None => w
  end.

(** The ['click'] listener of the remove button in the row of [hourType]. *)
Definition on_remove_click (hourType : string) (w : World) : World :=
  removeRow hourType w.

(** The ['click'] listener of [#add-row-btn]. *)
Definition on_add_click (w : World) : World :=
  match hour_type_selector (document w) with
  | Some sel =>
      let hourType := sel_value sel in
      if negb (String.eqb hourType "") then
        let w1 := addRow hourType None w in
        match hour_type_selector (document w1) with
        | Some sel1 =>
            set_selector {| sel_options := sel_options sel1; sel_value := "" |} w1
        | None => w1
        end
      else w
  | None => w
  end.

(** *** What the user can do with the rendered controls

    A read-only input takes no typing and fires no event; a remove button
    that is missing or not displayed cannot be clicked; the drop-down only
    lets the user pick an option it holds and does not hide. *)

Definition user_types (r i : nat) (text : string) (w : World) : World :=
  match default [] (entries_body (document w)) !! r, get_input r i w with
  | Some row, Some input =>
      if in_readonly input then w
      else on_input (row_hourType row) r i (set_input_value r i text w)
  | _, _ => w
  end.

Definition user_leaves (r i : nat) (w : World) : World :=
  match get_input r i w with
  | Some input => if in_readonly input then w else on_change r i w
  | None => w
  end.

Definition user_clicks_remove (r : nat) (w : World) : World :=
  match default [] (entries_body (document w)) !! r with
  | Some row =>
      match row_removeBtn row with
      | Some display =>
          if String.eqb display "none" then w
          else on_remove_click (row_hourType row) w
      | None => w
      end
  | None => w
  end.

Definition user_picks_and_adds (hourType : string) (w : World) : World :=
  match hour_type_selector (document w) with
  | Some sel =>
      if existsb (fun o => String.eqb (opt_value o) hourType && negb (opt_hidden o))
           (sel_options sel)
      then on_add_click
             (set_selector {| sel_options := sel_options sel; sel_value := hourType |} w)
      else w
  | None => w
  end.

End Entries.

(** ** Totals as sums, and the day values the grid is meant to hold *)

(** A sum of numbers, added left to right from +0 as the loops of the
    grid do. *)
Definition sum (l : list JS.number) : JS.number := fold_left JS.add l JS.pos_zero.

(** A sum of integers over a list. *)
Definition zsum {A} (u : A -> Z) (l : list A) : Z :=
  fold_right (fun x s => u x + s) 0 l.

(** An hour value that lies in [0, 24] and is a multiple of 0.5. *)
Definition quantized (x : JS.number) : Prop :=
  exists k, 0 <= k <= 48 /\ x = JS.half k.

(** The number of half hours in a number that is a multiple of 0.5. *)
Definition half_hours (x : JS.number) : Z :=
  match x with
  | S754_finite false m e =>
      if 0 <=? e + 1 then Zpos m * 2 ^ (e + 1) else Zpos m / 2 ^ (- (e + 1))
  | _ => 0
  end.

(** The half hours an input counts for. *)
Definition units (i : HourInput) : Z := half_hours (Entries.input_hours i).

(** The half hours of a row. *)
Definition row_units (r : EntryRow) : Z := zsum units (row_inputs r).

(** The half hours that a list of inputs holds for one day. *)
Definition day_units (day : string) (l : list HourInput) : Z :=
  zsum units (List.filter (fun i => String.eqb (in_day i) day) l).

(** [repr k q E]: the 53-digit mantissa [q] with exponent [E] is the
    binary64 form of [k / 2]. *)
Definition repr (k : Z) (q : positive) (E : Z) : Prop :=
  Zpos (digits2_pos q) = 53 /\ -54 <= E <= -1 /\ Zpos q = k * 2 ^ (-1 - E).

(** [k / 2] is a multiple of 0.5 nearest to the number [c >= 0]: with
    [c = num / den], [|k / 2 - num / den| <= 1 / 4], cleared of
    denominators. *)
Definition nearest_half (k : Z) (c : JS.number) : Prop :=
  match c with
  | S754_zero _ => k = 0
  | S754_finite false m e =>
      let '(num, den) := JS.fraction m e in
      Z.abs (2 * k * den - 4 * num) <= den
  | _ => False
  end.

(** A row laid out as [_buildRowHTML] lays it out: one input per day,
    Sunday to Saturday. *)
Definition week_row (r : EntryRow) : Prop :=
  List.map in_day (row_inputs r) = days.

(** A row rendered for a record that is not editable: every input is
    read-only and there is no remove button. *)
Definition read_only_row (r : EntryRow) : Prop :=
  row_removeBtn r = None /\ forall i, In i (row_inputs r) -> in_readonly i = true.

(** ** A page and records for the examples *)

Definition no_holidays : DateUtilsT :=
  {| getWeekDates := fun _ => [];
     isHoliday := fun _ => false;
     getHolidayName := fun _ => "" |}.

Definition blank_page : Document :=
  {| timesheet_form := true;
     entries_body := Some [];
     hour_type_selector := Some {| sel_options := []; sel_value := "" |};
     add_row_controls := Some "flex";
     col_totals := list_to_map (List.map (fun d => (d, "0.0")) days);
     grand_total := Some "0.0" |}.

Definition blank_state : TimesheetStateT :=
  {| currentTimesheet := None;
     currentWeekStart := None;
     addedHourTypes := ∅;
     reimbursementItems := [];
     hasUnsavedChanges := false;
     _form := false;
     _entriesBody := false;
     _listeners := ∅ |}.

(** The world when the scripts have loaded: no record, no listener. *)
Definition start : World :=
  {| TimesheetState := blank_state;
     document := blank_page;
     console := [];
     UserInfo := None;
     DateUtils := no_holidays;
     emitted := [];
     calls := [] |}.

Definition work_entry : Entry :=
  {| hour_type := "Work";
     day_fields := <["mon" := VNum (JS.of_Z 8)]> (<["tue" := VNum (JS.of_Z 8)]> ∅) |}.

Definition training_entry : Entry :=
  {| hour_type := "Training";
     day_fields := <["wed" := VNum (JS.half 15)]> (<["fri" := VStr "4"]> ∅) |}.

(** Two rows as [addRow] renders them for a draft. *)
Definition sample_rows : list EntryRow :=
  [Entries._buildRowHTML "Work" (Some work_entry) start;
   Entries._buildRowHTML "Training" (Some training_entry) start].

Definition sample_grid : World :=
  Entries.set_entries_body sample_rows start.

Definition record_with (st : string) (locked : option bool) : Timesheet :=
  {| ts_id := Some "ts-1";
     week_start := Some "2026-01-04";
     status := st;
     pay_period_confirmed := locked;
     entries := Some [work_entry];
     reimbursement_items := None |}.

(** A submitted record, loaded. *)
Definition submitted : World := State.loadTimesheet (record_with "SUBMITTED" (Some false)) start.

Definition trainee : World :=
  {| TimesheetState := blank_state;
     document := blank_page;
     console := [];
     UserInfo := Some {| role := "trainee" |};
     DateUtils := no_holidays;
     emitted := [];
     calls := [] |}.

Definition listener (n : nat) : Callback := {| cb_id := n; cb_throws := false |}.

(** ** Notions used to state the properties of the store and the grid *)

(** The listeners registered for an event name. *)
Definition listeners_of (name : string) (w : World) : list Callback :=
  default [] (_listeners (TimesheetState w) !! name).

(** The line [emit] logs for a listener of [ev] that raised. *)
Definition listener_error (ev : Event) : ConsoleEntry :=
  ConsoleError ("Error in " ++ event_name ev ++ " listener:").
(** Two worlds with the same store, console and traces; they may show
    different documents. *)
Definition same_store (w1 w2 : World) : Prop :=
  TimesheetState w1 = TimesheetState w2
  /\ console w1 = console w2
  /\ emitted w1 = emitted w2
  /\ calls w1 = calls w2.
(** A day value of a record that the row template renders as a text the
    number input keeps: a falsy value is rendered as the empty string, any
    other value by its string, which is kept when it is a valid
    floating-point number that reads as a finite number. *)
Definition renders_as_number (v : value) : Prop :=
  value_truthy v = true ->
  Entries.sanitize (value_to_string v) = value_to_string v.

(** A day value as the grid stores it: absent, or a number of half hours
    between 0 and 24 hours. *)
Definition half_hour_value (v : value) : Prop :=
  v = VUndefined \/ exists k, 0 <= k <= 48 /\ v = VNum (JS.half k).

(** The state of the table that the totals rely on: every row has one input
    per day, every input holds a number of half hours between 0 and 24
    hours, and every row's total cell is current. *)
Definition grid_ok (rows : list EntryRow) : Prop :=
  forall r, In r rows ->
    week_row r
    /\ row_total r = JS.toFixed1 (Entries.rowTotal r)
    /\ forall i, In i (row_inputs r) -> quantized (Entries.input_hours i).

(** A reimbursement item whose amount counts in the total: [parseFloat]
    reads a number from it that is neither NaN nor zero. *)
Definition counts (item : ReimbursementItem) : bool :=
  JS.truthy (parseFloat_value (item_amount item)).

(** A number that is finite and not zero, or infinite, with sign [s]. *)
Definition signed (s : bool) (x : JS.number) : Prop :=
  match x with
  | S754_finite s' _ _ | S754_infinity s' => s' = s
  | _ => False
  end.

(* ================================================================== *)
(** * Part II: properties *)
(* ================================================================== *)

(** ** Binary64 arithmetic on half hours *)

Module NumberFacts.
Import JS.

Lemma digits2_size p : digits2_pos p = Pos.size p.
Proof. induction p as [p IH|p IH|]; simpl; now rewrite ?IH. Qed.

Lemma digits_bounds p :
  2 ^ (Zpos (digits2_pos p) - 1) <= Zpos p < 2 ^ Zpos (digits2_pos p).
Proof.
  rewrite digits2_size. split.
  - pose proof (Pos.size_le p) as H.
    apply Pos2Z.pos_le_pos in H. rewrite Pos2Z.inj_pow in H.
    change (Zpos p~0) with (2 * Zpos p) in H.
    replace (Zpos (Pos.size p)) with (Z.succ (Zpos (Pos.size p) - 1)) in H by lia.
    rewrite Z.pow_succ_r in H by lia. lia.
  - pose proof (Pos.size_gt p) as H.
    apply Pos2Z.pos_lt_pos in H. now rewrite Pos2Z.inj_pow in H.
Qed.

Lemma digits_unique p d :
  2 ^ (d - 1) <= Zpos p < 2 ^ d -> Zpos (digits2_pos p) = d.
Proof.
  intros [Hlo Hhi]. pose proof (digits_bounds p) as [Blo Bhi].
  set (D := Zpos (digits2_pos p)) in *.
  destruct (Z.lt_trichotomy D d) as [Hlt|[Heq|Hgt]]; [|exact Heq|]; exfalso.
  - assert (2 ^ D <= 2 ^ (d - 1)) by (apply Z.pow_le_mono_r; lia). lia.
  - assert (0 <= d \/ d < 0) as [Hd|Hd] by lia.
    + assert (2 ^ d <= 2 ^ (D - 1)) by (apply Z.pow_le_mono_r; lia). lia.
    + rewrite (Z.pow_neg_r 2 d) in Hhi by lia. lia.
Qed.

Lemma shl_value (t : nat) q :
  Zpos (Nat.iter t xO q) = Zpos q * 2 ^ Z.of_nat t.
Proof.
  induction t as [|t IH].
  - simpl. lia.
  - rewrite Nat2Z.inj_succ, Z.pow_succ_r by lia. simpl.
    rewrite Pos2Z.inj_xO, IH. lia.
Qed.

Lemma shl_digits (t : nat) q :
  Zpos (digits2_pos (Nat.iter t xO q)) = Zpos (digits2_pos q) + Z.of_nat t.
Proof.
  induction t as [|t IH].
  - simpl. lia.
  - simpl Nat.iter. simpl digits2_pos. rewrite Pos2Z.inj_succ, IH. lia.
Qed.

Lemma iter_pos_nat {A} (f : A -> A) p x :
  SpecFloat.iter_pos f p x = Nat.iter (Pos.to_nat p) f x.
Proof.
  revert x. induction p as [p IH|p IH|]; intros x; cbn [SpecFloat.iter_pos].
  - rewrite !IH, Pos2Nat.inj_xI.
    replace (S (2 * Pos.to_nat p))%nat with (Pos.to_nat p + (Pos.to_nat p + 1))%nat by lia.
    rewrite !Nat.iter_add. simpl. reflexivity.
  - rewrite !IH, Pos2Nat.inj_xO.
    replace (2 * Pos.to_nat p)%nat with (Pos.to_nat p + Pos.to_nat p)%nat by lia.
    now rewrite Nat.iter_add.
  - reflexivity.
Qed.

Lemma shr_1_shl (t : nat) q :
  Nat.iter t shr_1 {| shr_m := Zpos (Nat.iter t xO q); shr_r := false; shr_s := false |}
  = {| shr_m := Zpos q; shr_r := false; shr_s := false |}.
Proof.
  induction t as [|t IH]; [reflexivity|].
  rewrite Nat.iter_succ_r. simpl. exact IH.
Qed.

Lemma shr_shl (t : nat) q e :
  shr {| shr_m := Zpos (Nat.iter t xO q); shr_r := false; shr_s := false |} e (Z.of_nat t)
  = ({| shr_m := Zpos q; shr_r := false; shr_s := false |}, e + Z.of_nat t).
Proof.
  destruct t as [|t].
  - simpl. f_equal. lia.
  - unfold shr. remember (S t) as n eqn:Hn.
    destruct (Z.of_nat n) as [|p|p] eqn:E; try lia.
    rewrite iter_pos_nat. replace (Pos.to_nat p) with n by lia.
    now rewrite shr_1_shl.
Qed.

(** Rounding a canonical mantissa that was shifted left is exact. *)
Lemma round_aux_canonical s q (t : nat) E :
  fexp prec emax (Zpos (digits2_pos q) + E) = E -> E <= 971 ->
  binary_round_aux prec emax s (Zpos (Nat.iter t xO q)) (E - Z.of_nat t) loc_Exact
  = S754_finite s q E.
Proof.
  intros Hf HE. unfold binary_round_aux, shr_fexp.
  cbn [Zdigits2 shr_record_of_loc]. rewrite shl_digits.
  replace (Zpos (digits2_pos q) + Z.of_nat t + (E - Z.of_nat t))
    with (Zpos (digits2_pos q) + E) by lia.
  rewrite Hf.
  replace (E - (E - Z.of_nat t)) with (Z.of_nat t) by lia.
  rewrite shr_shl. cbn [shr_m loc_of_shr_record round_nearest_even Zdigits2 shr_record_of_loc].
  replace (E - Z.of_nat t + Z.of_nat t) with E by lia.
  rewrite Hf, Z.sub_diag. cbn [shr shr_m].
  unfold prec, emax. destruct (Z.leb_spec E (1024 - 53)); [reflexivity | lia].
Qed.

(** In particular for a mantissa of 53 digits. *)
Lemma round_aux_exact s q (t : nat) E :
  Zpos (digits2_pos q) = 53 -> -1074 <= E <= 971 ->
  binary_round_aux prec emax s (Zpos (Nat.iter t xO q)) (E - Z.of_nat t) loc_Exact
  = S754_finite s q E.
Proof.
  intros Hd HE. apply round_aux_canonical; [|lia].
  rewrite Hd. unfold fexp, SpecFloat.emin, prec, emax. lia.
Qed.

Lemma pow2_pos n : 0 < 2 ^ n \/ n < 0.
Proof. destruct (Z.le_gt_cases 0 n); [left; apply Z.pow_pos_nonneg; lia | right; lia]. Qed.

Lemma pow2_split a b : 0 <= a -> 0 <= b -> 2 ^ (a + b) = 2 ^ a * 2 ^ b.
Proof. intros. now apply Z.pow_add_r. Qed.

Lemma digits_ge p n : 0 <= n -> 2 ^ n <= Zpos p -> n + 1 <= Zpos (digits2_pos p).
Proof.
  intros Hn H. pose proof (digits_bounds p) as [_ Hhi].
  destruct (Z.le_gt_cases (n + 1) (Zpos (digits2_pos p))) as [|Hlt]; [assumption|].
  assert (2 ^ Zpos (digits2_pos p) <= 2 ^ n) by (apply Z.pow_le_mono_r; lia). lia.
Qed.

Lemma digits_le p n : 0 <= n -> Zpos p < 2 ^ n -> Zpos (digits2_pos p) <= n.
Proof.
  intros Hn H. pose proof (digits_bounds p) as [Hlo _].
  destruct (Z.le_gt_cases (Zpos (digits2_pos p)) n) as [|Hlt]; [assumption|].
  assert (2 ^ n <= 2 ^ (Zpos (digits2_pos p) - 1)) by (apply Z.pow_le_mono_r; lia). lia.
Qed.

Lemma shl_align_value mx ex ez :
  ez <= ex -> Zpos (fst (shl_align mx ex ez)) = Zpos mx * 2 ^ (ex - ez).
Proof.
  intros H. unfold shl_align.
  destruct (ez - ex) as [|d|d] eqn:E; try lia.
  - replace (ex - ez) with 0 by lia. simpl. lia.
  - cbn [fst]. rewrite Pos2Nat.inj_iter.
    change (Zpos (Nat.iter (Pos.to_nat d) xO mx) = Zpos mx * 2 ^ (ex - ez)).
    rewrite shl_value.
    f_equal. f_equal. lia.
Qed.

Lemma shl_align_ge mx ex ex' : ex <= ex' -> shl_align mx ex ex' = (mx, ex).
Proof. intros H. unfold shl_align. destruct (ex' - ex) eqn:E; try reflexivity; lia. Qed.

Lemma exact_shift sp X n (t : nat) :
  0 < X -> Z.of_nat t <= n -> Zpos sp = X * 2 ^ n ->
  exists q, sp = Nat.iter t xO q /\ Zpos q = X * 2 ^ (n - Z.of_nat t).
Proof.
  intros HX Ht Hsp.
  assert (Hpos : 0 < X * 2 ^ (n - Z.of_nat t)).
  { apply Z.mul_pos_pos; [assumption | apply Z.pow_pos_nonneg; lia]. }
  exists (Z.to_pos (X * 2 ^ (n - Z.of_nat t))).
  rewrite Z2Pos.id by assumption. split; [|reflexivity].
  apply Pos2Z.inj. rewrite shl_value, Z2Pos.id, Hsp by assumption.
  replace n with ((n - Z.of_nat t) + Z.of_nat t) at 1 by lia.
  rewrite pow2_split by lia. ring.
Qed.

Lemma add_repr a b qa Ea qb Eb :
  repr a qa Ea -> repr b qb Eb -> a + b < 2 ^ 53 ->
  exists q E, repr (a + b) q E /\
    SFadd prec emax (S754_finite false qa Ea) (S754_finite false qb Eb)
    = S754_finite false q E.
Proof.
  intros (Hda & HEa & Hqa) (Hdb & HEb & Hqb) Hsum.
  pose proof (digits_bounds qa) as [Hqa_lo _]. rewrite Hda in Hqa_lo.
  pose proof (digits_bounds qb) as [Hqb_lo _]. rewrite Hdb in Hqb_lo.
  assert (Ha : 0 < a).
  { destruct (Z.lt_trichotomy 0 a) as [|[<-|Hn]]; [assumption|lia|].
    assert (0 < 2 ^ (-1 - Ea)) by (apply Z.pow_pos_nonneg; lia). nia. }
  assert (Hb : 0 < b).
  { destruct (Z.lt_trichotomy 0 b) as [|[<-|Hn]]; [assumption|lia|].
    assert (0 < 2 ^ (-1 - Eb)) by (apply Z.pow_pos_nonneg; lia). nia. }
  cbn [SFadd cond_Zopp]. set (ez := Z.min Ea Eb).
  assert (Hez : -54 <= ez <= -1 /\ ez <= Ea /\ ez <= Eb) by (unfold ez; lia).
  destruct Hez as (Hez & HezA & HezB).
  pose proof (shl_align_value qa Ea ez HezA) as Va.
  pose proof (shl_align_value qb Eb ez HezB) as Vb.
  set (ma := fst (shl_align qa Ea ez)) in *.
  set (mb := fst (shl_align qb Eb ez)) in *.
  change (Zpos ma + Zpos mb) with (Zpos (ma + mb)).
  cbn [binary_normalize]. unfold binary_round.
  set (sp := (ma + mb)%positive).
  assert (Hsp : Zpos sp = (a + b) * 2 ^ (-1 - ez)).
  { unfold sp. rewrite Pos2Z.inj_add, Va, Vb, Hqa, Hqb.
    rewrite <- !Z.mul_assoc, <- !pow2_split by lia.
    replace (-1 - Ea + (Ea - ez)) with (-1 - ez) by lia.
    replace (-1 - Eb + (Eb - ez)) with (-1 - ez) by lia. ring. }
  assert (Hp : 0 < 2 ^ (-1 - ez)) by (apply Z.pow_pos_nonneg; lia).
  assert (HDlo : 53 <= Zpos (digits2_pos sp)).
  { apply (digits_ge sp 52); [lia|].
    assert (Zpos qa * 2 ^ (Ea - ez) <= Zpos sp).
    { unfold sp. rewrite Pos2Z.inj_add, Va. lia. }
    assert (0 < 2 ^ (Ea - ez)) by (apply Z.pow_pos_nonneg; lia).
    change (2 ^ (53 - 1)) with (2 ^ 52) in Hqa_lo. nia. }
  assert (HDhi : Zpos (digits2_pos sp) <= 52 - ez).
  { apply digits_le; [lia|]. rewrite Hsp.
    replace (52 - ez) with (53 + (-1 - ez)) by lia.
    rewrite pow2_split by lia. nia. }
  set (D := Zpos (digits2_pos sp)) in *.
  assert (Hf : fexp prec emax (D + ez) = D + ez - 53).
  { unfold fexp, SpecFloat.emin, prec, emax. lia. }
  rewrite Hf, shl_align_ge by lia.
  destruct (exact_shift sp (a + b) (-1 - ez) (Z.to_nat (D - 53))) as (q & Hq & Vq);
    [lia | lia | exact Hsp |].
  assert (Hdq : Zpos (digits2_pos q) = 53).
  { pose proof (shl_digits (Z.to_nat (D - 53)) q) as Hs.
    rewrite <- Hq in Hs. fold D in Hs. lia. }
  exists q, (D + ez - 53). split.
  - split; [exact Hdq|]. split; [lia|]. rewrite Vq. f_equal. f_equal. lia.
  - rewrite Hq.
    replace ez with ((D + ez - 53) - Z.of_nat (Z.to_nat (D - 53))) at 1 by lia.
    apply round_aux_exact; [exact Hdq | lia].
Qed.

Lemma repr_unique k q E q' E' : repr k q E -> repr k q' E' -> q = q' /\ E = E'.
Proof.
  intros (Hd & HE & Hq) (Hd' & HE' & Hq').
  pose proof (digits_bounds q) as [Lo Hi]. rewrite Hd in Lo, Hi.
  pose proof (digits_bounds q') as [Lo' Hi']. rewrite Hd' in Lo', Hi'.
  assert (HEE : E = E').
  { destruct (Z.lt_trichotomy E E') as [Hlt|[Heq|Hgt]]; [exfalso|exact Heq|exfalso].
    - assert (2 ^ (-1 - E) = 2 ^ (E' - E) * 2 ^ (-1 - E')).
      { rewrite <- pow2_split by lia. f_equal. lia. }
      assert (2 <= 2 ^ (E' - E)).
      { change 2 with (2 ^ 1) at 1. apply Z.pow_le_mono_r; lia. }
      assert (0 < 2 ^ (-1 - E')) by (apply Z.pow_pos_nonneg; lia). nia.
    - assert (2 ^ (-1 - E') = 2 ^ (E - E') * 2 ^ (-1 - E)).
      { rewrite <- pow2_split by lia. f_equal. lia. }
      assert (2 <= 2 ^ (E - E')).
      { change 2 with (2 ^ 1) at 1. apply Z.pow_le_mono_r; lia. }
      assert (0 < 2 ^ (-1 - E)) by (apply Z.pow_pos_nonneg; lia). nia. }
  subst E'. split; [|reflexivity]. apply Pos2Z.inj. congruence.
Qed.

Lemma half_repr k :
  0 < k < 2 ^ 53 -> exists q E, repr k q E /\ half k = S754_finite false q E.
Proof.
  intros [Hk Hk53]. destruct k as [|p|p]; try lia.
  unfold half. cbn [binary_normalize]. unfold binary_round.
  set (D := Zpos (digits2_pos p)).
  assert (HD : 1 <= D <= 53).
  { split; [unfold D; lia|]. apply digits_le; [lia|assumption]. }
  assert (Hf : fexp prec emax (D + -1) = D - 54).
  { unfold fexp, SpecFloat.emin, prec, emax. lia. }
  rewrite Hf.
  set (q := fst (shl_align p (-1) (D - 54))).
  assert (Vq : Zpos q = Zpos p * 2 ^ (53 - D)).
  { unfold q. rewrite shl_align_value by lia. f_equal. f_equal. lia. }
  assert (Hal : shl_align p (-1) (D - 54) = (q, D - 54)).
  { unfold q, shl_align. destruct (D - 54 - -1) as [|d|d] eqn:E; try lia.
    - cbn [fst]. f_equal. lia.
    - reflexivity. }
  rewrite Hal.
  assert (Hdq : Zpos (digits2_pos q) = 53).
  { apply digits_unique. pose proof (digits_bounds p) as [Lo Hi]. fold D in Lo, Hi.
    rewrite Vq. split.
    - replace (53 - 1) with ((D - 1) + (53 - D)) by lia.
      rewrite pow2_split by lia.
      apply Z.mul_le_mono_nonneg_r; [apply Z.pow_nonneg; lia | exact Lo].
    - replace 53 with (D + (53 - D)) at 2 by lia.
      rewrite pow2_split by lia.
      apply Z.mul_lt_mono_pos_r; [apply Z.pow_pos_nonneg; lia | exact Hi]. }
  exists q, (D - 54). split.
  - split; [exact Hdq|]. split; [lia|]. rewrite Vq. f_equal. f_equal. lia.
  - pose proof (round_aux_exact false q 0 (D - 54) Hdq) as R.
    cbn [Nat.iter Z.of_nat] in R. rewrite Z.sub_0_r in R. apply R. lia.
Qed.

(** Adding half hours is exact below 2^53 half hours. *)
Lemma add_half a b :
  0 <= a -> 0 <= b -> a + b < 2 ^ 53 -> add (half a) (half b) = half (a + b).
Proof.
  intros Ha Hb Hs.
  destruct (Z.eq_dec a 0) as [->|Ha0].
  { rewrite Z.add_0_l. destruct (Z.eq_dec b 0) as [->|Hb0]; [reflexivity|].
    destruct (half_repr b) as (q & E & _ & ->); [lia|]. reflexivity. }
  destruct (Z.eq_dec b 0) as [->|Hb0].
  { rewrite Z.add_0_r.
    destruct (half_repr a) as (q & E & _ & ->); [lia|]. reflexivity. }
  destruct (half_repr a) as (qa & Ea & Ra & Ea'); [lia|].
  destruct (half_repr b) as (qb & Eb & Rb & Eb'); [lia|].
  destruct (half_repr (a + b)) as (qc & Ec & Rc & Ec'); [lia|].
  destruct (add_repr a b qa Ea qb Eb Ra Rb Hs) as (q & E & R & Hadd).
  destruct (repr_unique _ _ _ _ _ R Rc) as [-> ->].
  unfold add. now rewrite Ea', Eb', Ec'.
Qed.

Lemma eqb_eq x y : eqb x y = true -> x = y.
Proof.
  destruct x as [a|a| |a m e], y as [b|b| |b n f]; simpl; try discriminate.
  - intros H. apply Bool.eqb_prop in H. now subst.
  - intros H. apply Bool.eqb_prop in H. now subst.
  - reflexivity.
  - intros H. apply andb_prop in H as [H He]. apply andb_prop in H as [Hs Hm].
    apply Bool.eqb_prop in Hs. apply Pos.eqb_eq in Hm. apply Z.eqb_eq in He.
    now subst.
Qed.

Lemma half_hours_half k : 0 <= k < 2 ^ 53 -> half_hours (half k) = k.
Proof.
  intros [Hk Hk53]. destruct (Z.eq_dec k 0) as [->|Hk0]; [reflexivity|].
  destruct (half_repr k) as (q & E & (Hd & HE & Hq) & ->); [lia|].
  unfold half_hours. destruct (Z.leb_spec 0 (E + 1)).
  - replace (E + 1) with 0 by lia. replace (-1 - E) with 0 in Hq by lia.
    rewrite Hq. simpl. lia.
  - rewrite Hq. replace (- (E + 1)) with (-1 - E) by lia.
    apply Z.div_mul. apply Z.pow_nonzero; lia.
Qed.

Lemma quantized_half x :
  quantized x -> x = half (half_hours x) /\ 0 <= half_hours x <= 48.
Proof.
  intros (k & Hk & ->). rewrite half_hours_half by lia. split; [reflexivity | lia].
Qed.

Lemma range_forallb (f : Z -> bool) (n : nat) :
  forallb f (List.map Z.of_nat (seq 0 n)) = true ->
  forall k, 0 <= k < Z.of_nat n -> f k = true.
Proof.
  intros H k Hk. rewrite forallb_forall in H. apply H.
  apply in_map_iff. exists (Z.to_nat k). split; [lia|].
  apply in_seq. lia.
Qed.

(** A total of at most 168 hours, printed with one decimal and read back,
    is the same number. *)
Lemma fixed1_roundtrip k :
  0 <= k <= 336 -> or_zero (parseFloat (toFixed1 (half k))) = half k.
Proof.
  intros Hk. apply eqb_eq.
  apply (range_forallb
           (fun k => eqb (or_zero (parseFloat (toFixed1 (half k)))) (half k)) 337);
    [vm_compute; reflexivity | lia].
Qed.

(** The texts [commit] can leave in an input are the empty string and the
    decimals of 0.5, 1, ..., 24; each reads back as its value. *)
Lemma toString_roundtrip k :
  1 <= k <= 48 -> or_zero (parseFloat (toString (half k))) = half k.
Proof.
  intros Hk. apply eqb_eq.
  pose proof (range_forallb
           (fun k => (k =? 0) || eqb (or_zero (parseFloat (toString (half k)))) (half k)) 49
           ltac:(vm_compute; reflexivity) k ltac:(lia)) as H.
  cbv beta in H. destruct (Z.eqb_spec k 0); [lia | exact H].
Qed.

End NumberFacts.

(** ** Reading, clamping and rounding a day value *)

Module RoundingFacts.
Import JS NumberFacts.

(** The exponent of the binary64 format for a number of [d + e] digits. *)
Lemma fexp_spec x : fexp prec emax x = Z.max (x - 53) (-1074).
Proof. reflexivity. Qed.

Lemma Zdigits2_pos p : Zdigits2 (Zpos p) = Zpos (digits2_pos p).
Proof. reflexivity. Qed.

Lemma Zdigits2_bounds m :
  0 < m -> 2 ^ (Zdigits2 m - 1) <= m < 2 ^ Zdigits2 m.
Proof. destruct m as [|p|p]; try lia. intros _. apply digits_bounds. Qed.

Lemma Zdigits2_unique m d :
  0 < m -> 2 ^ (d - 1) <= m < 2 ^ d -> Zdigits2 m = d.
Proof. destruct m as [|p|p]; try lia. intros _. apply digits_unique. Qed.

Lemma Zdigits2_nonneg m : 0 <= Zdigits2 m.
Proof. destruct m; simpl; lia. Qed.

Lemma Zdigits2_ge1 m : 0 < m -> 1 <= Zdigits2 m.
Proof. destruct m; simpl; lia. Qed.

Lemma Zdigits2_div m n :
  0 < m -> 0 <= n -> Zdigits2 (m / 2 ^ n) = Z.max 0 (Zdigits2 m - n).
Proof.
  intros Hm Hn. pose proof (Zdigits2_bounds m Hm) as [Lo Hi].
  set (d := Zdigits2 m) in *.
  assert (Hd : 1 <= d) by (apply Zdigits2_ge1; lia).
  assert (Hp : 0 < 2 ^ n) by (apply Z.pow_pos_nonneg; lia).
  destruct (Z.le_gt_cases d n) as [Hle|Hgt].
  - assert (2 ^ d <= 2 ^ n) by (apply Z.pow_le_mono_r; lia).
    rewrite Z.div_small by lia. simpl. lia.
  - replace (Z.max 0 (d - n)) with (d - n) by lia.
    assert (Hq : 2 ^ (d - n - 1) <= m / 2 ^ n < 2 ^ (d - n)).
    { split.
      - apply Z.div_le_lower_bound; [assumption|].
        rewrite Z.mul_comm, <- Z.pow_add_r by lia.
        now replace (d - n - 1 + n) with (d - 1) by lia.
      - apply Z.div_lt_upper_bound; [assumption|].
        rewrite <- Z.pow_add_r by lia.
        now replace (n + (d - n)) with d by lia. }
    apply Zdigits2_unique; [|exact Hq].
    assert (0 < 2 ^ (d - n - 1)) by (apply Z.pow_pos_nonneg; lia). lia.
Qed.

Lemma shr_1_m mrs : 0 <= shr_m mrs -> shr_m (shr_1 mrs) = shr_m mrs / 2.
Proof.
  destruct mrs as [m r s]. cbn [shr_m]. intros Hm.
  destruct m as [|[p|p|]|p]; try lia; cbn [shr_1 shr_m].
  - reflexivity.
  - rewrite Pos2Z.inj_xI. apply Z.div_unique with 1; lia.
  - rewrite Pos2Z.inj_xO. apply Z.div_unique with 0; lia.
  - reflexivity.
Qed.

Lemma shr_m_iter (n : nat) mrs :
  0 <= shr_m mrs -> shr_m (Nat.iter n shr_1 mrs) = shr_m mrs / 2 ^ Z.of_nat n.
Proof.
  intros Hm. induction n as [|n IH].
  - simpl. now rewrite Z.div_1_r.
  - rewrite Nat2Z.inj_succ, Z.pow_succ_r by lia.
    change (Nat.iter (S n) shr_1 mrs) with (shr_1 (Nat.iter n shr_1 mrs)).
    rewrite shr_1_m, IH.
    + rewrite Z.div_div by (try lia; apply Z.pow_pos_nonneg; lia).
      f_equal. lia.
    + rewrite IH. apply Z.div_pos; [assumption | apply Z.pow_pos_nonneg; lia].
Qed.

Lemma shr_value mrs e n :
  0 <= shr_m mrs ->
  shr_m (fst (shr mrs e n)) = shr_m mrs / 2 ^ Z.max 0 n
  /\ snd (shr mrs e n) = e + Z.max 0 n.
Proof.
  intros Hm. unfold shr. destruct n as [|p|p]; cbn [fst snd].
  - simpl. rewrite Z.div_1_r. lia.
  - rewrite iter_pos_nat, shr_m_iter by assumption.
    rewrite positive_nat_Z. replace (Z.max 0 (Zpos p)) with (Zpos p) by lia. split; reflexivity.
  - simpl. rewrite Z.div_1_r. lia.
Qed.

Lemma round_nearest_even_range m l :
  m <= round_nearest_even m l <= m + 1.
Proof.
  unfold round_nearest_even. destruct l as [|[| |]]; try lia.
  destruct (Z.even m); lia.
Qed.

(** The result of rounding is a well-formed binary64 value whenever the
    exponent handed in is not above the format's exponent for the
    mantissa. *)
Lemma round_aux_valid s mx ex lx :
  0 <= mx -> ex <= fexp prec emax (Zdigits2 mx + ex) ->
  valid_binary prec emax (binary_round_aux prec emax s mx ex lx) = true.
Proof.
  intros Hmx Hpre. unfold binary_round_aux, shr_fexp.
  set (F := fexp prec emax (Zdigits2 mx + ex)) in *.
  pose proof (shr_value (shr_record_of_loc mx lx) ex (F - ex)) as S1.
  assert (Hm0 : shr_m (shr_record_of_loc mx lx) = mx).
  { destruct lx as [|[| |]]; reflexivity. }
  rewrite Hm0 in S1. specialize (S1 Hmx).
  destruct (shr (shr_record_of_loc mx lx) ex (F - ex)) as [mrs' e'].
  cbv beta iota.
  cbn [fst snd] in S1. destruct S1 as [Sm Se].
  replace (Z.max 0 (F - ex)) with (F - ex) in * by lia.
  assert (He' : e' = F) by lia. clear Se. subst e'.
  set (m1 := round_nearest_even (shr_m mrs') (loc_of_shr_record mrs')).
  pose proof (round_nearest_even_range (shr_m mrs') (loc_of_shr_record mrs')) as R.
  fold m1 in R.
  assert (Hm' : 0 <= shr_m mrs').
  { rewrite Sm. apply Z.div_pos; [assumption | apply Z.pow_pos_nonneg; lia]. }
  (* digits of the shifted mantissa *)
  assert (Hd' : Zdigits2 (shr_m mrs') <= 53 /\
                (Zdigits2 (shr_m mrs') < 53 -> F = -1074) /\ -1074 <= F).
  { assert (HFdef : F = Z.max (Zdigits2 mx + ex - 53) (-1074))
      by (unfold F; apply fexp_spec).
    rewrite Sm. destruct (Z.eq_dec mx 0) as [E0|Hne].
    - rewrite E0 in *. rewrite Z.div_0_l by (apply Z.pow_nonzero; lia).
      simpl Zdigits2 in *. lia.
    - rewrite Zdigits2_div by lia.
      pose proof (Zdigits2_nonneg mx). lia. }
  destruct Hd' as (Hd53 & Hsub & HF).
  assert (Hd1 : m1 = 0 \/ (0 < m1 /\ Zdigits2 m1 <= 54 /\
                 (Zdigits2 m1 = 54 -> m1 = 2 ^ 53) /\
                 (Zdigits2 m1 < 53 -> F = -1074))).
  { destruct (Z.eq_dec m1 0) as [|Hne]; [now left | right].
    assert (Hpos : 0 < m1) by lia. split; [exact Hpos|].
    destruct (Z.eq_dec (shr_m mrs') 0) as [E0|Hne'].
    - assert (m1 = 1) by lia. rewrite H. rewrite E0 in Hsub. simpl in Hsub.
      simpl. split; [lia|]. split; [lia|]. intros _. apply Hsub. lia.
    - pose proof (Zdigits2_bounds (shr_m mrs') ltac:(lia)) as [Lo Hi].
      set (d := Zdigits2 (shr_m mrs')) in *.
      assert (1 <= d) by (apply Zdigits2_ge1; lia).
      destruct (Z.eq_dec m1 (2 ^ d)) as [E|NE].
      + assert (Zdigits2 m1 = d + 1).
        { apply Zdigits2_unique; [lia|]. rewrite E.
          replace (d + 1 - 1) with d by lia. split; [lia|].
          apply Z.pow_lt_mono_r; lia. }
        split; [lia|]. split.
        * intros H54. rewrite E. f_equal. lia.
        * intros Hlt. apply Hsub. lia.
      + assert (Zdigits2 m1 = d).
        { apply Zdigits2_unique; [lia|]. split; [lia|lia]. }
        split; [lia|]. split; [lia|]. intros Hlt. apply Hsub. lia. }
  pose proof (shr_value {| shr_m := m1; shr_r := false; shr_s := false |} F
                (fexp prec emax (Zdigits2 m1 + F) - F)) as S2.
  cbn [shr_record_of_loc].
  cbn [shr_m] in S2. specialize (S2 ltac:(lia)).
  destruct (shr {| shr_m := m1; shr_r := false; shr_s := false |} F
              (fexp prec emax (Zdigits2 m1 + F) - F)) as [mrs'' e''].
  cbv beta iota.
  cbn [fst snd] in S2. destruct S2 as [Sm2 Se2].
  destruct Hd1 as [Hz|(Hpos & Hd54 & H54 & Hlt53)].
  - rewrite Sm2, Hz. rewrite Z.div_0_l by (apply Z.pow_nonzero; lia). reflexivity.
  - rewrite fexp_spec in Sm2, Se2.
    assert (Hcase : Zdigits2 m1 = 54 \/ Zdigits2 m1 <= 53) by lia.
    destruct Hcase as [E54|Hle].
    + replace (Z.max 0 (Z.max (Zdigits2 m1 + F - 53) (-1074) - F)) with 1 in * by lia.
      rewrite Sm2, (H54 E54). change (2 ^ 53 / 2 ^ 1) with (Zpos (2 ^ 52)).
      destruct (e'' <=? emax - prec) eqn:Ele; [|reflexivity].
      cbn [valid_binary]. unfold bounded, canonical_mantissa. rewrite Ele, andb_true_r.
      apply Z.eqb_eq. rewrite fexp_spec.
      change (Zpos (digits2_pos (2 ^ 52))) with 53. lia.
    + replace (Z.max 0 (Z.max (Zdigits2 m1 + F - 53) (-1074) - F)) with 0 in * by lia.
      rewrite Sm2. simpl (2 ^ 0). rewrite Z.div_1_r.
      destruct m1 as [|p|p]; try lia.
      destruct (e'' <=? emax - prec) eqn:Ele; [|reflexivity].
      cbn [valid_binary]. unfold bounded, canonical_mantissa. rewrite Ele, andb_true_r.
      apply Z.eqb_eq. rewrite fexp_spec. simpl Zdigits2 in *. lia.
Qed.

Lemma binary_round_valid s p e :
  valid_binary prec emax (binary_round prec emax s p e) = true.
Proof.
  unfold binary_round.
  set (F := fexp prec emax (Zpos (digits2_pos p) + e)).
  destruct (shl_align p e F) as [mz ez] eqn:Hal.
  apply round_aux_valid; [lia|].
  unfold shl_align in Hal. destruct (F - e) as [|d|d] eqn:Hd.
  - injection Hal as <- <-. change (e <= F). lia.
  - injection Hal as <- <-. change (e <= F). lia.
  - injection Hal as <- <-.
    rewrite Zdigits2_pos, Pos2Nat.inj_iter.
    change (Zpos (digits2_pos (Nat.iter (Pos.to_nat d) xO p)))
      with (Zpos (digits2_pos (Nat.iter (Pos.to_nat d) xO p))).
    pose proof (shl_digits (Pos.to_nat d) p) as Hs. unfold Nat.iter in Hs.
    rewrite Hs, positive_nat_Z.
    replace (Zpos (digits2_pos p) + Zpos d + F) with (Zpos (digits2_pos p) + e) by lia.
    fold F. lia.
Qed.

Lemma div_valid s p1 p2 :
  valid_binary prec emax (div (S754_finite s p1 0) (S754_finite false p2 0)) = true.
Proof.
  unfold div. cbn [SFdiv]. unfold SFdiv_core_binary.
  set (d1 := Zdigits2 (Zpos p1)). set (d2 := Zdigits2 (Zpos p2)).
  rewrite !Z.add_0_r, Z.sub_diag.
  set (e' := Z.min (fexp prec emax (d1 - d2)) 0).
  set (m' := match 0 - e' with
             | 0 => Zpos p1
             | Zpos _ => Z.shiftl (Zpos p1) (0 - e')
             | Zneg _ => 0
             end).
  assert (He' : e' <= 0) by (unfold e'; lia).
  assert (Hm' : m' = Zpos p1 * 2 ^ (- e')).
  { unfold m'. destruct (0 - e') as [|k|k] eqn:Hk; try lia.
    - replace (- e') with 0 by lia. simpl. lia.
    - rewrite Z.shiftl_mul_pow2 by lia. f_equal. f_equal. lia. }
  pose proof (Z.div_eucl_eq m' (Zpos p2) ltac:(lia)) as Heq.
  pose proof (Z.mod_pos_bound m' (Zpos p2) ltac:(lia)) as Hmod.
  unfold Z.modulo in Hmod.
  destruct (Z.div_eucl m' (Zpos p2)) as [q r].
  assert (Hp : 0 < 2 ^ (- e')) by (apply Z.pow_pos_nonneg; lia).
  assert (Hq0 : 0 <= q) by nia.
  apply round_aux_valid; [exact Hq0|].
  rewrite fexp_spec.
  destruct (Z.le_gt_cases e' (-1074)) as [Hlow|Hhigh]; [lia|].
  assert (Hs : 53 + d2 - d1 <= - e').
  { unfold e' in *. rewrite fexp_spec in *. lia. }
  pose proof (Zdigits2_bounds (Zpos p1) ltac:(lia)) as [Lo1 _]. fold d1 in Lo1.
  pose proof (Zdigits2_bounds (Zpos p2) ltac:(lia)) as [_ Hi2]. fold d2 in Hi2.
  assert (1 <= d1) by (apply Zdigits2_ge1; lia).
  assert (1 <= d2) by (apply Zdigits2_ge1; lia).
  assert (Hbig : 2 ^ 52 * 2 ^ d2 <= m').
  { rewrite Hm'. rewrite <- Z.pow_add_r by lia.
    apply Z.le_trans with (2 ^ (d1 - 1) * 2 ^ (- e')).
    - rewrite <- Z.pow_add_r by lia. apply Z.pow_le_mono_r; lia.
    - apply Z.mul_le_mono_nonneg_r; lia. }
  assert (Hq : 2 ^ 52 <= q).
  { destruct (Z.le_gt_cases (2 ^ 52) q); [assumption|exfalso].
    assert (q + 1 <= 2 ^ 52) by lia.
    assert (m' < Zpos p2 * (q + 1)) by lia.
    assert (Zpos p2 * (q + 1) <= 2 ^ d2 * 2 ^ 52) by nia.
    lia. }
  assert (53 <= Zdigits2 q).
  { destruct q as [|pq|pq]; try lia. apply (digits_ge pq 52); lia. }
  lia.
Qed.

Lemma of_decimal_valid neg n e10 :
  valid_binary prec emax (of_decimal neg n e10) = true.
Proof.
  unfold of_decimal. destruct n as [|p|p]; try reflexivity.
  destruct (0 <=? e10); [apply binary_round_valid | apply div_valid].
Qed.

Lemma parse_unsigned_valid neg l :
  valid_binary prec emax (parse_unsigned neg l) = true.
Proof.
  unfold parse_unsigned. destruct (starts_with "Infinity" l); [reflexivity|].
  destruct (take_digits l 0 0) as [[ip ni] r1].
  destruct r1 as [|c r2].
  - destruct (0 <? ni); [apply of_decimal_valid | reflexivity].
  - destruct (Ascii.ascii_dec c "."%char) as [->|Hc].
    + destruct (take_digits r2 ip 0) as [[m nf] r3].
      destruct ((0 <? ni) || (0 <? nf)); [apply of_decimal_valid | reflexivity].
    + assert (H : forall (A : Type) (x y : A),
                match c with "."%char => x | _ => y end = y).
      { intros A x y. destruct c as [[] [] [] [] [] [] [] []]; try reflexivity.
        now destruct Hc. }
      rewrite H. destruct (0 <? ni); [apply of_decimal_valid | reflexivity].
Qed.

(** [parseFloat] returns a well-formed binary64 value. *)
Lemma parseFloat_valid text : valid_binary prec emax (parseFloat text) = true.
Proof.
  unfold parseFloat. destruct (skip_white (list_ascii_of_string text)) as [|c l].
  - apply parse_unsigned_valid.
  - destruct c as [[] [] [] [] [] [] [] []]; apply parse_unsigned_valid.
Qed.

Lemma valid_finite s m e :
  valid_binary prec emax (S754_finite s m e) = true ->
  fexp prec emax (Zpos (digits2_pos m) + e) = e /\ e <= 971.
Proof.
  cbn [valid_binary]. unfold bounded, canonical_mantissa. intros H.
  apply andb_prop in H as [H1 H2].
  apply Z.eqb_eq in H1. apply Z.leb_le in H2. unfold prec, emax in *. split; [exact H1 | lia].
Qed.

Lemma of_Z_24 : of_Z 24 = S754_finite false 6755399441055744 (-48).
Proof. reflexivity. Qed.

Lemma of_Z_2 : of_Z 2 = S754_finite false 4503599627370496 (-51).
Proof. reflexivity. Qed.

Lemma compare_cont_lt m c : Pos.compare_cont Eq m c = Lt -> Zpos m < Zpos c.
Proof.
  rewrite Pos.compare_cont_spec. unfold Pos.switch_Eq.
  destruct (Pos.compare_spec m c) as [E|E|E]; try discriminate.
  intros _. now apply Pos2Z.pos_lt_pos.
Qed.

Lemma ltb_finite m e m' e' :
  lt (S754_finite false m e) (S754_finite false m' e') = true ->
  e < e' \/ (e = e' /\ Zpos m < Zpos m').
Proof.
  unfold lt, SFltb. cbn [SFcompare].
  destruct (Z.compare_spec e e') as [E|E|E]; try discriminate.
  - intros H. right. split; [exact E|]. apply compare_cont_lt.
    destruct (Pos.compare_cont Eq m m'); try discriminate H. reflexivity.
  - intros _. now left.
Qed.

(** A well-formed positive number below 24, as a fraction. *)
Lemma below_24 m e :
  valid_binary prec emax (S754_finite false m e) = true ->
  lt (S754_finite false m e) (of_Z 24) = true ->
  e <= -48 /\ Zpos m <= 24 * 2 ^ (- e).
Proof.
  intros Hv Hlt. destruct (valid_finite _ _ _ Hv) as [Hc _].
  rewrite fexp_spec in Hc.
  pose proof (digits_bounds m) as [_ Hi].
  assert (Hm : Zpos m < 2 ^ 53).
  { eapply Z.lt_le_trans; [exact Hi|]. apply Z.pow_le_mono_r; lia. }
  rewrite of_Z_24 in Hlt. apply ltb_finite in Hlt as [E|[E E']].
  - split; [lia|].
    assert (H49 : 2 ^ 49 <= 2 ^ (- e)) by (apply Z.pow_le_mono_r; lia).
    change (2 ^ 53) with (16 * 2 ^ 49) in Hm. clear -Hm H49.
    set (a := 2 ^ 49) in *. set (b := 2 ^ (- e)) in *. lia.
  - subst e. split; [lia|].
    change (2 ^ (- (-48))) with 281474976710656. clear -E'. lia.
Qed.

Lemma clamp_cases v :
  valid_binary prec emax v = true ->
  Entries.clamp (or_zero v) = pos_zero
  \/ Entries.clamp (or_zero v) = of_Z 24
  \/ exists m e,
       Entries.clamp (or_zero v) = S754_finite false m e
       /\ valid_binary prec emax (S754_finite false m e) = true
       /\ lt (S754_finite false m e) (of_Z 24) = true
       /\ e <= -48 /\ Zpos m <= 24 * 2 ^ (- e).
Proof.
  intros Hv. destruct v as [s|s| |s m e].
  - left. reflexivity.
  - destruct s; [left | right; left]; reflexivity.
  - left. reflexivity.
  - change (or_zero (S754_finite s m e)) with (S754_finite s m e).
    unfold Entries.clamp, Math_min. cbn [is_nan orb].
    destruct s.
    + left. rewrite of_Z_24. reflexivity.
    + destruct (lt (S754_finite false m e) (of_Z 24)) eqn:Hlt.
      * right. right. exists m, e.
        destruct (below_24 m e Hv Hlt) as [He Hm].
        split; [reflexivity|]. split; [exact Hv|]. split; [exact Hlt|].
        split; [exact He | exact Hm].
      * right. left.
        assert (Hmin : (if lt (of_Z 24) (S754_finite false m e) then of_Z 24
                        else match of_Z 24 with
                             | S754_zero false =>
                                 match S754_finite false m e with
                                 | S754_zero true => S754_finite false m e
                                 | _ => of_Z 24
                                 end
                             | _ => of_Z 24
                             end) = of_Z 24).
        { destruct (lt (of_Z 24) (S754_finite false m e)); reflexivity. }
        rewrite of_Z_24 in *. cbv beta iota in *. rewrite Hmin. reflexivity.
Qed.

Lemma lt_asym_finite m e m' e' :
  lt (S754_finite false m e) (S754_finite false m' e') = true ->
  lt (S754_finite false m' e') (S754_finite false m e) = false.
Proof.
  unfold lt, SFltb. cbn [SFcompare].
  rewrite (Z.compare_antisym e e'), !Pos.compare_cont_spec, (Pos.compare_antisym m m').
  destruct (e ?= e'); cbn [CompOpp]; try discriminate; try reflexivity.
  destruct (m ?= m')%positive; cbn [CompOpp Pos.switch_Eq]; try discriminate; reflexivity.
Qed.

(** The clamped value lies in [0, 24]. *)
Lemma clamp_range v :
  valid_binary prec emax v = true ->
  lt (Entries.clamp (or_zero v)) pos_zero = false
  /\ lt (of_Z 24) (Entries.clamp (or_zero v)) = false.
Proof.
  intros Hv.
  destruct (clamp_cases v Hv) as [->|[->|(m & e & -> & _ & Hlt & _)]].
  - split; reflexivity.
  - split; reflexivity.
  - split; [reflexivity|]. rewrite of_Z_24 in *. now apply lt_asym_finite.
Qed.

(** Doubling a number of at most 24 is exact. *)
Lemma double_exact m e :
  valid_binary prec emax (S754_finite false m e) = true -> e <= -48 ->
  exists q E,
    mul (S754_finite false m e) (of_Z 2) = S754_finite false q E
    /\ E < 0 /\ e <= E
    /\ Zpos q * 2 ^ (E - e) = 2 * Zpos m.
Proof.
  intros Hv He. destruct (valid_finite _ _ _ Hv) as [Hc _].
  rewrite fexp_spec in Hc.
  rewrite of_Z_2. unfold mul. cbn [SFmul xorb].
  set (d := Zpos (digits2_pos m)) in *.
  assert (Hd : 1 <= d) by (unfold d; lia).
  destruct (Z.eq_dec d 53) as [E53|Hsub].
  - exists m, (e + 1).
    assert (Hm : (m * 4503599627370496)%positive = Nat.iter 52 xO m).
    { apply Pos2Z.inj. rewrite shl_value, Pos2Z.inj_mul. reflexivity. }
    rewrite Hm. replace (e + -51) with ((e + 1) - Z.of_nat 52) by lia.
    rewrite round_aux_canonical.
    + split; [reflexivity|]. split; [lia|]. split; [lia|].
      replace (e + 1 - e) with 1 by lia. lia.
    + rewrite fexp_spec. fold d. lia.
    + lia.
  - exists (xO m), e.
    assert (Hm : (m * 4503599627370496)%positive = Nat.iter 51 xO (xO m)).
    { apply Pos2Z.inj. rewrite Pos2Z.inj_mul.
      change (Zpos 4503599627370496) with (2 * 2 ^ 51).
      rewrite shl_value, Pos2Z.inj_xO. change (Z.of_nat 51) with 51.
      set (c := 2 ^ 51). lia. }
    rewrite Hm. replace (e + -51) with (e - Z.of_nat 51) by lia.
    rewrite round_aux_canonical.
    + split; [reflexivity|]. split; [lia|]. split; [lia|].
      rewrite Z.sub_diag, Pos2Z.inj_xO. simpl (2 ^ 0). lia.
    + rewrite fexp_spec. cbn [digits2_pos]. rewrite Pos2Z.inj_succ. fold d. lia.
    + lia.
Qed.

(** Rounding twice a value of at most 24 gives an integer from 0 to 48,
    the one nearest to it (the larger one on a tie). *)
Lemma round_double q E m e :
  E < 0 -> e <= E -> Zpos q * 2 ^ (E - e) = 2 * Zpos m ->
  Zpos m <= 24 * 2 ^ (- e) ->
  exists n,
    Math_round (S754_finite false q E) = binary_normalize prec emax n 0 false
    /\ 0 <= n <= 48
    /\ Z.abs (2 * n * 2 ^ (- e) - 4 * Zpos m) <= 2 ^ (- e).
Proof.
  intros HE HeE Hval Hm.
  set (D := 2 ^ (- E)).
  assert (HD : 0 < D) by (apply Z.pow_pos_nonneg; lia).
  assert (Hsplit : 2 ^ (- e) = D * 2 ^ (E - e)).
  { unfold D. rewrite <- Z.pow_add_r by lia. f_equal. lia. }
  assert (Hp : 0 < 2 ^ (E - e)) by (apply Z.pow_pos_nonneg; lia).
  exists ((2 * Zpos q + D) / (2 * D)).
  split.
  { unfold Math_round. destruct (Z.leb_spec 0 E); [lia | reflexivity]. }
  pose proof (Z.div_mod (2 * Zpos q + D) (2 * D) ltac:(lia)) as Hdm.
  pose proof (Z.mod_pos_bound (2 * Zpos q + D) (2 * D) ltac:(lia)) as Hmod.
  set (n := (2 * Zpos q + D) / (2 * D)) in *.
  set (r := (2 * Zpos q + D) mod (2 * D)) in *.
  assert (Hq : Zpos q <= 48 * D).
  { assert (Zpos q * 2 ^ (E - e) <= 48 * D * 2 ^ (E - e)) by nia.
    apply Z.mul_le_mono_pos_r with (2 ^ (E - e)); assumption. }
  split; [nia|].
  rewrite Hsplit.
  replace (2 * n * (D * 2 ^ (E - e)) - 4 * Zpos m)
    with ((2 * n * D - 2 * Zpos q) * 2 ^ (E - e))
    by (replace (4 * Zpos m) with (2 * (2 * Zpos m)) by ring; rewrite <- Hval; ring).
  rewrite Z.abs_mul, (Z.abs_eq (2 ^ (E - e))) by lia.
  apply Z.mul_le_mono_nonneg_r; [lia|]. lia.
Qed.

Lemma halve_small n :
  0 <= n <= 48 -> div (binary_normalize prec emax n 0 false) (of_Z 2) = half n.
Proof.
  intros Hn. apply eqb_eq.
  apply (range_forallb
           (fun n => eqb (div (binary_normalize prec emax n 0 false) (of_Z 2)) (half n)) 49);
    [vm_compute; reflexivity | lia].
Qed.

(** What [normalize] computes from a clamped value. *)
Lemma round_half_clamped m e :
  valid_binary prec emax (S754_finite false m e) = true ->
  e <= -48 -> Zpos m <= 24 * 2 ^ (- e) ->
  exists k, 0 <= k <= 48
    /\ Entries.round_half (S754_finite false m e) = half k
    /\ Z.abs (2 * k * 2 ^ (- e) - 4 * Zpos m) <= 2 ^ (- e).
Proof.
  intros Hv He Hm.
  destruct (double_exact m e Hv He) as (q & E & Hmul & HE & HeE & Hval).
  destruct (round_double q E m e HE HeE Hval Hm) as (n & Hr & Hn & Hnear).
  exists n. split; [exact Hn|]. split; [|exact Hnear].
  unfold Entries.round_half. rewrite Hmul, Hr. now apply halve_small.
Qed.

End RoundingFacts.


(** ** Totals of the grid *)

Module GridFacts.
Import JS Entries NumberFacts.

Lemma zsum_app {A} (u : A -> Z) l1 l2 : zsum u (l1 ++ l2)%list = zsum u l1 + zsum u l2.
Proof. induction l1 as [|x l1 IH]; simpl; [reflexivity | rewrite IH; lia]. Qed.

Lemma zsum_bounds {A} (u : A -> Z) (b : Z) l :
  (forall x, In x l -> 0 <= u x <= b) ->
  0 <= zsum u l <= b * Z.of_nat (length l).
Proof.
  induction l as [|x l IH]; intros H.
  - simpl. lia.
  - cbn [zsum fold_right length]. fold (zsum u l).
    pose proof (H x (or_introl eq_refl)).
    assert (0 <= zsum u l <= b * Z.of_nat (length l)) by (apply IH; intros; apply H; now right).
    lia.
Qed.

Lemma fold_left_map {A B C} (f : A -> B -> A) (g : C -> B) l a :
  fold_left f (List.map g l) a = fold_left (fun a x => f a (g x)) l a.
Proof. revert a. induction l as [|x l IH]; intros a; simpl; [reflexivity | apply IH]. Qed.

Lemma zsum_nonneg {A} (u : A -> Z) l :
  (forall x, In x l -> 0 <= u x) -> 0 <= zsum u l.
Proof.
  induction l as [|x l IH]; intros H; cbn [zsum fold_right]; [lia|].
  fold (zsum u l). pose proof (H x (or_introl eq_refl)).
  assert (0 <= zsum u l) by (apply IH; intros; apply H; now right). lia.
Qed.

(** A loop that adds half hours computes their exact sum. *)
Lemma fold_add_half {A} (f : A -> number) (u : A -> Z) l :
  (forall x, In x l -> f x = half (u x) /\ 0 <= u x) ->
  forall acc, 0 <= acc -> acc + zsum u l < 2 ^ 53 ->
  fold_left (fun t x => add t (f x)) l (half acc) = half (acc + zsum u l).
Proof.
  induction l as [|x l IH]; intros H acc Hacc Hb.
  - simpl. now rewrite Z.add_0_r.
  - cbn [fold_left zsum fold_right] in *. fold (zsum u l) in *.
    destruct (H x (or_introl eq_refl)) as [Hx Hux].
    assert (0 <= zsum u l).
    { apply zsum_nonneg. intros y Hy. apply H. now right. }
    rewrite Hx, add_half by lia.
    rewrite IH; [f_equal; lia | intros; apply H; now right | lia | lia].
Qed.

Lemma fold_add_half0 {A} (f : A -> number) (u : A -> Z) l :
  (forall x, In x l -> f x = half (u x) /\ 0 <= u x) ->
  zsum u l < 2 ^ 53 ->
  fold_left (fun t x => add t (f x)) l pos_zero = half (zsum u l).
Proof.
  intros H Hb. change pos_zero with (half 0).
  rewrite (fold_add_half f u l H 0) by lia. reflexivity.
Qed.

(** Quantized inputs count whole half hours, at most 48 each. *)
Lemma quantized_units i :
  quantized (input_hours i) -> input_hours i = half (units i) /\ 0 <= units i <= 48.
Proof. intros H. now apply quantized_half. Qed.

Lemma week_row_length r : week_row r -> length (row_inputs r) = 7%nat.
Proof.
  intros H. apply (f_equal (@length string)) in H.
  now rewrite length_map in H.
Qed.

Section Grid.

Variable rows : list EntryRow.
Hypothesis Hweek : forall r, In r rows -> week_row r.
Hypothesis Hquant :
  forall r i, In r rows -> In i (row_inputs r) -> quantized (input_hours i).
Hypothesis Hsize : Z.of_nat (length rows) <= 2 ^ 44.

Lemma row_units_bounds r : In r rows -> 0 <= row_units r <= 336.
Proof.
  intros Hr. unfold row_units.
  pose proof (zsum_bounds units 48 (row_inputs r)) as B.
  rewrite (week_row_length r (Hweek r Hr)) in B.
  apply B. intros i Hi. apply quantized_units. now apply (Hquant r).
Qed.

Lemma rowTotal_half r : In r rows -> rowTotal r = half (row_units r).
Proof.
  intros Hr. unfold rowTotal, row_units.
  apply fold_add_half0.
  - intros i Hi. destruct (quantized_units i (Hquant r i Hr Hi)). split; [assumption | lia].
  - pose proof (row_units_bounds r Hr) as B. unfold row_units in B.
    assert (336 < 2 ^ 53) by (vm_compute; reflexivity). lia.
Qed.

Lemma all_units_bounds : 0 <= zsum row_units rows <= 336 * 2 ^ 44.
Proof.
  pose proof (zsum_bounds row_units 336 rows row_units_bounds). lia.
Qed.

Lemma sum_rowTotal : sum (List.map rowTotal rows) = half (zsum row_units rows).
Proof.
  unfold sum. rewrite fold_left_map.
  apply fold_add_half0.
  - intros r Hr. split; [now apply rowTotal_half | now apply row_units_bounds].
  - pose proof all_units_bounds. assert (336 * 2 ^ 44 < 2 ^ 53) by (vm_compute; reflexivity). lia.
Qed.

Lemma in_all_inputs i :
  In i (concat (List.map row_inputs rows)) ->
  exists r, In r rows /\ In i (row_inputs r).
Proof.
  intros H. apply in_concat in H as (l & Hl & Hi).
  apply in_map_iff in Hl as (r & <- & Hr). now exists r.
Qed.

Lemma all_inputs_units i :
  In i (concat (List.map row_inputs rows)) ->
  input_hours i = half (units i) /\ 0 <= units i <= 48.
Proof.
  intros H. destruct (in_all_inputs i H) as (r & Hr & Hi).
  apply quantized_units. now apply (Hquant r).
Qed.

Lemma all_inputs_day i :
  In i (concat (List.map row_inputs rows)) -> In (in_day i) days.
Proof.
  intros H. destruct (in_all_inputs i H) as (r & Hr & Hi).
  rewrite <- (Hweek r Hr). now apply in_map.
Qed.

Lemma zsum_all_inputs :
  zsum units (concat (List.map row_inputs rows)) = zsum row_units rows.
Proof.
  clear. induction rows as [|r l IH]; [reflexivity|].
  cbn [List.map concat]. rewrite zsum_app, IH. reflexivity.
Qed.

Lemma day_units_cons d i l :
  day_units d (i :: l) = (if String.eqb (in_day i) d then units i else 0) + day_units d l.
Proof.
  unfold day_units. cbn [List.filter].
  destruct (String.eqb (in_day i) d); [reflexivity | now rewrite Z.add_0_l].
Qed.

(** Every input belongs to exactly one of the seven columns. *)
Lemma split_by_day l :
  (forall i, In i l -> In (in_day i) days) ->
  zsum units l = zsum (fun d => day_units d l) days.
Proof.
  induction l as [|i l IH]; intros H; [reflexivity|].
  cbn [zsum fold_right]. fold (zsum units l).
  rewrite IH by (intros; apply H; now right).
  unfold days. cbn [zsum fold_right]. rewrite !day_units_cons.
  pose proof (H i (or_introl eq_refl)) as Hd. unfold days in Hd.
  cbn [In] in Hd.
  destruct Hd as [<-|[<-|[<-|[<-|[<-|[<-|[<-|[]]]]]]]]; cbn [String.eqb Ascii.eqb Bool.eqb]; lia.
Qed.

Lemma day_units_bounds d : 0 <= day_units d (concat (List.map row_inputs rows))
                          /\ day_units d (concat (List.map row_inputs rows))
                             <= zsum row_units rows.
Proof.
  rewrite <- zsum_all_inputs.
  assert (Hall : forall i, In i (concat (List.map row_inputs rows)) -> 0 <= units i).
  { intros i Hi. apply all_inputs_units in Hi. lia. }
  revert Hall. generalize (concat (List.map row_inputs rows)) as l.
  induction l as [|i l IH]; intros Hall.
  - unfold day_units. simpl. lia.
  - rewrite day_units_cons. cbn [zsum fold_right]. fold (zsum units l).
    pose proof (Hall i (or_introl eq_refl)).
    assert (0 <= day_units d l <= zsum units l) by (apply IH; intros; apply Hall; now right).
    destruct (String.eqb (in_day i) d); lia.
Qed.

Lemma columnTotal_half d :
  columnTotal d rows = half (day_units d (concat (List.map row_inputs rows))).
Proof.
  unfold columnTotal, day_inputs, day_units.
  apply fold_add_half0.
  - intros i Hi. apply filter_In in Hi as [Hi _].
    apply all_inputs_units in Hi. split; [tauto | lia].
  - pose proof (day_units_bounds d) as B. unfold day_units in B.
    pose proof all_units_bounds.
    assert (336 * 2 ^ 44 < 2 ^ 53) by (vm_compute; reflexivity). lia.
Qed.

Lemma sum_columnTotal :
  sum (List.map (fun d => columnTotal d rows) days) = half (zsum row_units rows).
Proof.
  unfold sum. rewrite fold_left_map.
  rewrite <- zsum_all_inputs, (split_by_day _ all_inputs_day).
  apply fold_add_half0.
  - intros d _. split; [apply columnTotal_half | apply day_units_bounds].
  - rewrite <- split_by_day by exact all_inputs_day. rewrite zsum_all_inputs.
    pose proof all_units_bounds.
    assert (336 * 2 ^ 44 < 2 ^ 53) by (vm_compute; reflexivity). lia.
Qed.

(** The grand total reads the row totals back from the text of their
    cells; for cells that are up to date nothing is lost on the way. *)
Lemma grandTotal_half :
  (forall r, In r rows -> row_total r = toFixed1 (rowTotal r)) ->
  grandTotal rows = half (zsum row_units rows).
Proof.
  intros Hcells. unfold grandTotal.
  apply fold_add_half0.
  - intros r Hr. pose proof (row_units_bounds r Hr) as B. split; [|lia].
    rewrite (Hcells r Hr), (rowTotal_half r Hr).
    now apply fixed1_roundtrip.
  - pose proof all_units_bounds.
    assert (336 * 2 ^ 44 < 2 ^ 53) by (vm_compute; reflexivity). lia.
Qed.

End Grid.

(** What [updateColumnTotals] leaves in the cell of a day. *)
Lemma updateColumnTotals_cell rows d ds :
  forall w,
  entries_body (document w) = Some rows ->
  col_totals (document w) !! d = Some (toFixed1 (columnTotal d rows))
  \/ (In d ds /\ is_Some (col_totals (document w) !! d)) ->
  col_totals (document
    (fold_left
       (fun w' day =>
          match col_totals (document w') !! day with
          | Some _ => set_col_totals (<[day := toFixed1 (columnTotal day rows)]>) w'
          | None => w'
          end) ds w)) !! d
  = Some (toFixed1 (columnTotal d rows)).
Proof.
  induction ds as [|a ds IH]; intros w Hrows H.
  - destruct H as [H|[[] _]]. exact H.
  - cbn [fold_left]. apply IH.
    + destruct (col_totals (document w) !! a); [|exact Hrows]. exact Hrows.
    + destruct (decide (a = d)) as [->|Hne].
      * left. destruct H as [H|[_ [x Hx]]].
        -- rewrite H. cbn. apply lookup_insert_eq.
        -- rewrite Hx. cbn. apply lookup_insert_eq.
      * destruct (col_totals (document w) !! a) eqn:Ea.
        -- cbn. rewrite lookup_insert_ne by exact Hne.
           destruct H as [H|[[Hin|Hin] Hs]]; [now left | congruence | right; now split].
        -- destruct H as [H|[[Hin|Hin] Hs]]; [now left | congruence | right; now split].
Qed.

(** X18.  The totals agree while the row total cells are current.  Take a
    grid whose rows hold one input per day, whose day values are
    quantized hours in [0, 24], and whose row total cells show the totals
    [updateRowTotal] computes (the grid holds at most 2^44 rows, so that
    binary64 counts its half hours exactly).  Then the
    sum of the row totals equals the sum of the seven column totals that
    [updateColumnTotals] computes, and both equal the grand total that
    [updateGrandTotal] computes from the row total cells; these are the
    numbers the two functions print into the cells that exist. *)
Theorem sum_equivalence (w : World) (rows : list EntryRow) :
  entries_body (document w) = Some rows ->
  (forall r, In r rows -> week_row r) ->
  (forall r i, In r rows -> In i (row_inputs r) -> quantized (input_hours i)) ->
  Z.of_nat (length rows) <= 2 ^ 44 ->
  (forall r, In r rows -> row_total r = toFixed1 (rowTotal r)) ->
  let w' := updateGrandTotal (updateColumnTotals w) in
  sum (List.map rowTotal rows) = sum (List.map (fun d => columnTotal d rows) days)
  /\ sum (List.map rowTotal rows) = grandTotal rows
  /\ grandTotal rows = half (zsum row_units rows)
  /\ (is_Some (grand_total (document w)) ->
      grand_total (document w') = Some (toFixed1 (grandTotal rows)))
  /\ (forall d, In d days -> is_Some (col_totals (document w) !! d) ->
      col_totals (document w') !! d = Some (toFixed1 (columnTotal d rows))).
Proof.
  intros Hrows Hweek Hquant Hsize Hcells w'.
  rewrite (sum_rowTotal rows Hweek Hquant Hsize).
  rewrite (sum_columnTotal rows Hweek Hquant Hsize).
  rewrite (grandTotal_half rows Hweek Hquant Hsize Hcells).
  repeat split.
  - intros [old Hold]. unfold w', updateGrandTotal.
    assert (Hb : entries_body (document (updateColumnTotals w)) = Some rows).
    { unfold updateColumnTotals. rewrite Hrows. clear -Hrows.
      generalize days as ds. intros ds. revert w Hrows.
      induction ds as [|a ds IH]; intros w Hrows; [exact Hrows|].
      cbn [fold_left]. apply IH.
      destruct (col_totals (document w) !! a); exact Hrows. }
    assert (Hg : is_Some (grand_total (document (updateColumnTotals w)))).
    { unfold updateColumnTotals. rewrite Hrows. clear -Hold.
      generalize days as ds. intros ds. revert w Hold.
      induction ds as [|a ds IH]; intros w Hold; [now exists old|].
      cbn [fold_left]. apply IH.
      destruct (col_totals (document w) !! a); exact Hold. }
    rewrite Hb. destruct Hg as [g ->]. cbn.
    now rewrite (grandTotal_half rows Hweek Hquant Hsize Hcells).
  - intros d Hd Hs. unfold w', updateGrandTotal.
    assert (Hc : col_totals (document (updateColumnTotals w)) !! d
                 = Some (toFixed1 (columnTotal d rows))).
    { unfold updateColumnTotals. rewrite Hrows.
      apply updateColumnTotals_cell; [exact Hrows | right; now split]. }
    destruct (entries_body (document (updateColumnTotals w))); [|exact Hc].
    destruct (grand_total (document (updateColumnTotals w))); exact Hc.
Qed.

Lemma sum_equivalence_witness :
  sum (List.map rowTotal sample_rows)
    = sum (List.map (fun d => columnTotal d sample_rows) days)
  /\ sum (List.map rowTotal sample_rows) = grandTotal sample_rows
  /\ grandTotal sample_rows = half 55.
Proof.
  assert (Hq : forall r i, In r sample_rows -> In i (row_inputs r) ->
                           quantized (input_hours i)).
  { intros r i [<-|[<-|[]]] Hi; vm_compute in Hi;
      repeat (destruct Hi as [<-|Hi];
              [first [ exists 0; split; [lia | vm_compute; reflexivity]
                     | exists 16; split; [lia | vm_compute; reflexivity]
                     | exists 15; split; [lia | vm_compute; reflexivity]
                     | exists 8; split; [lia | vm_compute; reflexivity] ] |]);
      destruct Hi. }
  destruct (sum_equivalence sample_grid sample_rows) as (H1 & H2 & H3 & _).
  - reflexivity.
  - intros r [<-|[<-|[]]]; vm_compute; reflexivity.
  - exact Hq.
  - cbn. lia.
  - intros r [<-|[<-|[]]]; vm_compute; reflexivity.
  - split; [exact H1 | split; [exact H2 | vm_compute in H3 |- *; exact H3]].
Defined.

(** C2, at the input where the code leaves the claim.  A new form with the
    rows Work and Training: "7.3" is typed into Monday of Work, the input
    is left, so that the ['change'] listener rewrites it to 7.5 without
    refreshing a total, and "8" is typed into Monday of Training.  Every
    input then holds a quantized value; the column totals, read from the
    inputs, add up to 15.5, while the total cell of Work still shows 7.3
    and the grand total, read from the row total cells, is 15.3. *)
Theorem totals_diverge_after_change :
  let w0 := addRow "Training" None (addRow "Work" None start) in
  let w1 := on_input "Work" 0 1 (set_input_value 0 1 "7.3" w0) in
  let w2 := on_change 0 1 w1 in
  let w := on_input "Training" 1 1 (set_input_value 1 1 "8" w2) in
  let rows := default [] (entries_body (document w)) in
  w = user_types 1 1 "8" (user_leaves 0 1 (user_types 0 1 "7.3" w0))
  /\ List.map row_hourType rows = ["Work"; "Training"]
  /\ List.map (fun r => List.map input_hours (row_inputs r)) rows
     = [[half 0; half 15; half 0; half 0; half 0; half 0; half 0];
        [half 0; half 16; half 0; half 0; half 0; half 0; half 0]]
  /\ List.map row_total rows = ["7.3"; "8.0"]
  /\ List.map (fun d => col_totals (document w) !! d) days
     = [Some "0.0"; Some "15.5"; Some "0.0"; Some "0.0"; Some "0.0"; Some "0.0";
        Some "0.0"]
  /\ grand_total (document w) = Some "15.3"
  /\ sum (List.map (fun d => columnTotal d rows) days) = half 31
  /\ sum (List.map rowTotal rows) = half 31
  /\ grandTotal rows = parseFloat "15.3"
  /\ grandTotal rows <> sum (List.map (fun d => columnTotal d rows) days).
Proof. vm_compute. repeat split. discriminate. Qed.

End GridFacts.

(** ** The store *)

Module StateFacts.
Import State.

(** *** [emit] *)

Lemma call_listener_fields ev w cb :
  TimesheetState (call_listener ev w cb) = TimesheetState w
  /\ document (call_listener ev w cb) = document w
  /\ UserInfo (call_listener ev w cb) = UserInfo w
  /\ DateUtils (call_listener ev w cb) = DateUtils w
  /\ emitted (call_listener ev w cb) = emitted w
  /\ calls (call_listener ev w cb) = (calls w ++ [(cb, ev)])%list.
Proof. unfold call_listener. destruct (cb_throws cb); cbn; repeat split. Qed.

Lemma fold_call_listener ev l :
  forall w,
  let w' := fold_left (call_listener ev) l w in
  TimesheetState w' = TimesheetState w
  /\ document w' = document w
  /\ UserInfo w' = UserInfo w
  /\ DateUtils w' = DateUtils w
  /\ emitted w' = emitted w
  /\ calls w' = (calls w ++ List.map (fun cb => (cb, ev)) l)%list.
Proof.
  induction l as [|cb l IH]; intros w; cbn [fold_left List.map].
  - rewrite app_nil_r. repeat split.
  - destruct (IH (call_listener ev w cb)) as (H1 & H2 & H3 & H4 & H5 & H6).
    destruct (call_listener_fields ev w cb) as (G1 & G2 & G3 & G4 & G5 & G6).
    cbv zeta. rewrite H1, H2, H3, H4, H5, H6, G1, G2, G3, G4, G5, G6.
    rewrite <- app_assoc. repeat split.
Qed.

(** The listeners registered for an event, in registration order. *)
Lemma emit_spec ev w :
  TimesheetState (emit ev w) = TimesheetState w
  /\ document (emit ev w) = document w
  /\ UserInfo (emit ev w) = UserInfo w
  /\ DateUtils (emit ev w) = DateUtils w
  /\ emitted (emit ev w) = (emitted w ++ [ev])%list
  /\ calls (emit ev w)
     = (calls w ++ List.map (fun cb => (cb, ev))
                     (default [] (_listeners (TimesheetState w) !! event_name ev)))%list.
Proof.
  unfold emit.
  destruct (fold_call_listener ev
              (default [] (_listeners (TimesheetState w) !! event_name ev))
              (record_emit ev w)) as (H1 & H2 & H3 & H4 & H5 & H6).
  cbv zeta in *. rewrite H1, H2, H3, H4, H5, H6. repeat split.
Qed.

Lemma emit_state ev w : TimesheetState (emit ev w) = TimesheetState w.
Proof. apply emit_spec. Qed.

Lemma emit_document ev w : document (emit ev w) = document w.
Proof. apply emit_spec. Qed.

Lemma emit_UserInfo ev w : UserInfo (emit ev w) = UserInfo w.
Proof. apply emit_spec. Qed.

Lemma emit_DateUtils ev w : DateUtils (emit ev w) = DateUtils w.
Proof. apply emit_spec. Qed.

Lemma emit_emitted ev w : emitted (emit ev w) = (emitted w ++ [ev])%list.
Proof. apply emit_spec. Qed.

(** *** [isEditable] *)

(** C6.  For a store that holds the loaded record [t], [isEditable()] is
    exactly [!payPeriodLocked && status in {NEW, NEEDS_APPROVAL}], where
    the lock is [pay_period_confirmed], read as false when the field is
    absent.  The method only reads [currentTimesheet]: two worlds that
    hold the same record get the same answer, whatever else differs; it
    is a function of the world and changes none of it. *)
Theorem isEditable_derivation (w : World) (t : Timesheet) :
  currentTimesheet (TimesheetState w) = Some t ->
  isEditable w
  = negb (default false (pay_period_confirmed t))
    && bool_decide (status t ∈ ["NEW"; "NEEDS_APPROVAL"])
  /\ (forall w', currentTimesheet (TimesheetState w') = Some t ->
        isEditable w' = isEditable w).
Proof.
  intros H. unfold isEditable. rewrite H. split.
  - unfold payPeriodConfirmed. destruct (default false (pay_period_confirmed t)); [reflexivity|].
    cbn [negb andb].
    destruct (String.eqb_spec (status t) "NEW") as [->|H1]; [reflexivity|].
    destruct (String.eqb_spec (status t) "NEEDS_APPROVAL") as [->|H2]; [reflexivity|].
    cbn [orb]. symmetry. apply bool_decide_eq_false.
    rewrite !elem_of_cons, elem_of_nil. tauto.
  - intros w' H'. now rewrite H'.
Qed.

Lemma isEditable_derivation_witness :
  isEditable submitted = false
  /\ isEditable (loadTimesheet (record_with "NEEDS_APPROVAL" None) start) = true
  /\ isEditable (loadTimesheet (record_with "NEW" (Some true)) start) = false.
Proof.
  split; [|split].
  - rewrite (proj1 (isEditable_derivation submitted
                      (record_with "SUBMITTED" (Some false)) eq_refl)).
    reflexivity.
  - reflexivity.
  - reflexivity.
Defined.

(** C10.  While no record is loaded ([currentTimesheet] is null),
    [isEditable()] is true, whatever the rest of the world holds. *)
Theorem isEditable_draft (w : World) :
  currentTimesheet (TimesheetState w) = None -> isEditable w = true.
Proof. intros H. unfold isEditable. now rewrite H. Qed.

Lemma isEditable_draft_witness :
  isEditable (init (Some "2026-01-04") sample_grid) = true.
Proof. apply isEditable_draft. reflexivity. Defined.

(** *** The dirty flag *)

Lemma markChanged_dirty w :
  hasUnsavedChanges (TimesheetState w) = true -> markChanged w = w.
Proof. intros H. unfold markChanged. now rewrite H. Qed.

Lemma markChanged_spec w :
  let w' := markChanged w in
  hasUnsavedChanges (TimesheetState w') = true
  /\ currentTimesheet (TimesheetState w') = currentTimesheet (TimesheetState w)
  /\ addedHourTypes (TimesheetState w') = addedHourTypes (TimesheetState w)
  /\ _listeners (TimesheetState w') = _listeners (TimesheetState w)
  /\ document w' = document w
  /\ UserInfo w' = UserInfo w
  /\ emitted w'
     = (emitted w ++
        if hasUnsavedChanges (TimesheetState w) then [] else [EvChanged true])%list.
Proof.
  unfold markChanged. destruct (hasUnsavedChanges (TimesheetState w)) eqn:E; cbn [negb].
  - rewrite E, app_nil_r. repeat split.
  - cbv zeta. rewrite emit_state, emit_document, emit_UserInfo, emit_emitted. repeat split.
Qed.

Lemma clearChanges_spec w :
  let w' := clearChanges w in
  hasUnsavedChanges (TimesheetState w') = false
  /\ emitted w' = (emitted w ++ [EvChanged false])%list.
Proof.
  unfold clearChanges. cbv zeta. rewrite emit_state, emit_emitted. now split.
Qed.

(** [markChanged()] emits only on the transition: a second call changes
    nothing at all. *)
Lemma markChanged_twice w : markChanged (markChanged w) = markChanged w.
Proof. apply markChanged_dirty, markChanged_spec. Qed.

(** C7, at the input where the code leaves the claim: the store is clean
    ([hasUnsavedChanges] is false), so [clearChanges()] is no transition,
    and still it emits ['changed'], once per call. *)
Theorem clearChanges_reemits :
  hasUnsavedChanges (TimesheetState start) = false
  /\ emitted (clearChanges start) = [EvChanged false]
  /\ emitted (clearChanges (clearChanges start)) = [EvChanged false; EvChanged false]
  /\ (exists w1, on "changed" (listener 1) start = Normal w1
        /\ calls (clearChanges w1) = [(listener 1, EvChanged false)]).
Proof. repeat split. eexists. split; reflexivity. Qed.

(** *** Hour types *)

Lemma addHourType_spec h w :
  let w' := addHourType h w in
  addedHourTypes (TimesheetState w') = addedHourTypes (TimesheetState w) ∪ {[h]}
  /\ hasUnsavedChanges (TimesheetState w') = true
  /\ currentTimesheet (TimesheetState w') = currentTimesheet (TimesheetState w)
  /\ _listeners (TimesheetState w') = _listeners (TimesheetState w)
  /\ document w' = document w
  /\ UserInfo w' = UserInfo w
  /\ emitted w'
     = (emitted w ++
        (if hasUnsavedChanges (TimesheetState w) then [] else [EvChanged true])
        ++ [EvHourTypeAdded h])%list.
Proof.
  unfold addHourType. cbv zeta.
  rewrite emit_state, emit_document, emit_UserInfo, emit_emitted.
  destruct (markChanged_spec (set_addedHourTypes (fun s => s ∪ {[h]}) w))
    as (H1 & H2 & H3 & H4 & H5 & H6 & H7).
  cbv zeta in *. rewrite H1, H2, H3, H4, H5, H6, H7.
  cbn. rewrite <- app_assoc. repeat split.
Qed.

Lemma removeHourType_spec h w :
  let w' := removeHourType h w in
  addedHourTypes (TimesheetState w') = addedHourTypes (TimesheetState w) ∖ {[h]}
  /\ hasUnsavedChanges (TimesheetState w') = true
  /\ currentTimesheet (TimesheetState w') = currentTimesheet (TimesheetState w)
  /\ _listeners (TimesheetState w') = _listeners (TimesheetState w)
  /\ document w' = document w
  /\ UserInfo w' = UserInfo w
  /\ emitted w'
     = (emitted w ++
        (if hasUnsavedChanges (TimesheetState w) then [] else [EvChanged true])
        ++ [EvHourTypeRemoved h])%list.
Proof.
  unfold removeHourType. cbv zeta.
  rewrite emit_state, emit_document, emit_UserInfo, emit_emitted.
  destruct (markChanged_spec (set_addedHourTypes (fun s => s ∖ {[h]}) w))
    as (H1 & H2 & H3 & H4 & H5 & H6 & H7).
  cbv zeta in *. rewrite H1, H2, H3, H4, H5, H6, H7.
  cbn. rewrite <- app_assoc. repeat split.
Qed.

Lemma isEditable_same_record w w' :
  currentTimesheet (TimesheetState w') = currentTimesheet (TimesheetState w) ->
  isEditable w' = isEditable w.
Proof. intros H. unfold isEditable. now rewrite H. Qed.

(** *** [init] and the listeners *)

Lemma on_listeners name cb w w1 :
  on name cb w = Normal w1 ->
  _listeners (TimesheetState w1) !! name
  = Some (default [] (_listeners (TimesheetState w) !! name) ++ [cb])%list
  /\ (forall other, other <> name ->
        _listeners (TimesheetState w1) !! other
        = _listeners (TimesheetState w) !! other).
Proof.
  unfold on. destruct (_listeners (TimesheetState w) !! name) as [l|] eqn:E.
  - intros [= <-]. cbn. split; [apply lookup_insert_eq|].
    intros other Hne. now apply lookup_insert_ne.
  - destruct (inherited name); [discriminate|]. intros [= <-]. cbn.
    split; [apply lookup_insert_eq|].
    intros other Hne. now apply lookup_insert_ne.
Qed.

(** [on] throws exactly for a name that [_listeners] only inherits. *)
Lemma on_throws name cb w :
  on name cb w = Throw "TypeError"
  <-> inherited name = true /\ _listeners (TimesheetState w) !! name = None.
Proof.
  unfold on. destruct (_listeners (TimesheetState w) !! name) as [l|].
  - split; [discriminate | intros [_ H]; discriminate H].
  - destruct (inherited name); split; try discriminate; try tauto.
    intros [H _]. discriminate H.
Qed.

Lemma unsubscribe_listeners name cb w :
  _listeners (TimesheetState (unsubscribe name cb w)) !! name
  = Some (List.filter (fun c => negb (same_callback c cb))
            (default [] (_listeners (TimesheetState w) !! name))).
Proof. cbn. apply lookup_insert_eq. Qed.

(** C8, as the code has it.  [init(weekStart)] resets every data field to
    its empty default, sets the week and emits ['init']; it may be called
    again and again.  It leaves the subscriptions alone: every handler
    registered before the call is still registered after it, and an event
    emitted after the call reaches it, in registration order.  A handler
    stops being called once the unsubscribe function that [on] returned
    for it has run. *)
Theorem init_keeps_listeners (w : World) (weekStart : option string) :
  let w' := init weekStart w in
  currentTimesheet (TimesheetState w') = None
  /\ currentWeekStart (TimesheetState w') = weekStart
  /\ addedHourTypes (TimesheetState w') = ∅
  /\ reimbursementItems (TimesheetState w') = []
  /\ hasUnsavedChanges (TimesheetState w') = false
  /\ emitted w' = (emitted w ++ [EvInit weekStart])%list
  /\ _listeners (TimesheetState w') = _listeners (TimesheetState w)
  /\ (forall ev,
        calls (emit ev w')
        = (calls w' ++ List.map (fun cb => (cb, ev))
                         (default [] (_listeners (TimesheetState w) !! event_name ev)))%list)
  /\ (forall ev cb,
        calls (emit ev (unsubscribe (event_name ev) cb w'))
        = (calls w' ++ List.map (fun c => (c, ev))
                         (List.filter (fun c => negb (same_callback c cb))
                            (default [] (_listeners (TimesheetState w) !! event_name ev))))%list).
Proof.
  assert (Hst : TimesheetState (init weekStart w)
                = {| currentTimesheet := None;
                     currentWeekStart := weekStart;
                     addedHourTypes := ∅;
                     reimbursementItems := [];
                     hasUnsavedChanges := false;
                     _form := timesheet_form (document w);
                     _entriesBody := bool_decide (is_Some (entries_body (document w)));
                     _listeners := _listeners (TimesheetState w) |}).
  { unfold init. now rewrite emit_state. }
  cbv zeta. rewrite Hst. cbn.
  repeat split.
  - unfold init. now rewrite emit_emitted.
  - intros ev. destruct (emit_spec ev (init weekStart w)) as (_ & _ & _ & _ & _ & H).
    rewrite H, Hst. reflexivity.
  - intros ev cb.
    destruct (emit_spec ev (unsubscribe (event_name ev) cb (init weekStart w)))
      as (_ & _ & _ & _ & _ & H).
    rewrite H, unsubscribe_listeners, Hst. reflexivity.
Qed.

(** C8 as stated fails: a handler subscribed to ['changed'] before
    [init] is called by the first ['changed'] emitted after it. *)
Lemma init_leaks_subscription :
  exists w1, on "changed" (listener 1) start = Normal w1
    /\ calls (markChanged (init (Some "2026-01-11") w1))
       = [(listener 1, EvChanged true)].
Proof. eexists. split; reflexivity. Qed.

End StateFacts.

(** ** The grid and the store *)

Module EntriesFacts.
Import State Entries StateFacts NumberFacts RoundingFacts.

Lemma updateSelectorOptions_fields w :
  let w' := updateSelectorOptions w in
  TimesheetState w' = TimesheetState w
  /\ entries_body (document w') = entries_body (document w)
  /\ add_row_controls (document w') = add_row_controls (document w)
  /\ UserInfo w' = UserInfo w
  /\ console w' = console w
  /\ emitted w' = emitted w
  /\ calls w' = calls w.
Proof.
  unfold updateSelectorOptions.
  destruct (hour_type_selector (document w)); cbn; repeat split.
Qed.

Lemma _checkAllTypesAdded_fields w :
  let w' := _checkAllTypesAdded w in
  TimesheetState w' = TimesheetState w
  /\ entries_body (document w') = entries_body (document w)
  /\ hour_type_selector (document w') = hour_type_selector (document w)
  /\ UserInfo w' = UserInfo w
  /\ console w' = console w
  /\ emitted w' = emitted w
  /\ calls w' = calls w.
Proof.
  unfold _checkAllTypesAdded.
  destruct (add_row_controls (document w)); cbn; repeat split.
Qed.

(** Adding a row for an hour type that is already tracked only logs. *)
Lemma addRow_present h data w :
  hasHourType h w = true ->
  addRow h data w = console_push (ConsoleWarn ("Hour type " ++ h ++ " already added")) w.
Proof. intros H. unfold addRow. now rewrite H. Qed.

(** Adding a row for a new hour type: the store changes as [addHourType]
    changes it, and the row is appended. *)
Lemma addRow_fresh h data w rows :
  hasHourType h w = false ->
  entries_body (document w) = Some rows ->
  let w' := addRow h data w in
  TimesheetState w' = TimesheetState (addHourType h w)
  /\ entries_body (document w')
     = Some (rows ++ [_buildRowHTML h data (addHourType h w)])%list
  /\ console w' = console (addHourType h w)
  /\ emitted w' = emitted (addHourType h w)
  /\ calls w' = calls (addHourType h w).
Proof.
  intros Hh Hb. unfold addRow. rewrite Hh, Hb. cbv zeta.
  set (w1 := addHourType h w).
  assert (Hd : document w1 = document w) by apply addHourType_spec.
  set (w2 := set_entries_body _ w1).
  destruct (_checkAllTypesAdded_fields (updateSelectorOptions w2))
    as (A1 & A2 & _ & _ & A5 & A6 & A7).
  destruct (updateSelectorOptions_fields w2) as (B1 & B2 & _ & _ & B5 & B6 & B7).
  cbv zeta in *. rewrite A1, A2, A5, A6, A7, B1, B2, B5, B6, B7.
  unfold w2. cbn. rewrite Hd, Hb. repeat split.
Qed.

Lemma hasHourType_addHourType h w : hasHourType h (addHourType h w) = true.
Proof.
  unfold hasHourType. apply bool_decide_eq_true.
  destruct (addHourType_spec h w) as (-> & _). set_solver.
Qed.

(** C3, as the code has it.  On a page with the entries table, take an
    hour type that is not yet tracked and call [addRow] for it twice.  The
    first call adds the hour type and one row, and emits ['hourTypeAdded']
    once, after one ['changed'] when the form had no unsaved change.  The
    second call is rejected: it logs the warning and changes nothing else,
    so the set of hour types, the rows and both traces are as the first
    call left them. *)
Theorem addRow_twice (w : World) (h : string) (data data' : option Entry) (rows : list EntryRow) :
  entries_body (document w) = Some rows ->
  hasHourType h w = false ->
  let w1 := addRow h data w in
  let w2 := addRow h data' w1 in
  w2 = console_push (ConsoleWarn ("Hour type " ++ h ++ " already added")) w1
  /\ addedHourTypes (TimesheetState w1) = addedHourTypes (TimesheetState w) ∪ {[h]}
  /\ addedHourTypes (TimesheetState w2) = addedHourTypes (TimesheetState w1)
  /\ TimesheetState w2 = TimesheetState w1
  /\ document w2 = document w1
  /\ calls w2 = calls w1
  /\ emitted w2 = emitted w1
  /\ emitted w2
     = (emitted w ++
        (if hasUnsavedChanges (TimesheetState w) then [] else [EvChanged true])
        ++ [EvHourTypeAdded h])%list.
Proof.
  intros Hb Hh w1 w2.
  destruct (addRow_fresh h data w rows Hh Hb) as (S1 & S2 & S3 & S4 & S5).
  fold w1 in S1, S2, S3, S4, S5.
  assert (Hp : hasHourType h w1 = true).
  { unfold hasHourType. rewrite S1. apply (hasHourType_addHourType h w). }
  assert (E2 : w2 = console_push (ConsoleWarn ("Hour type " ++ h ++ " already added")) w1).
  { unfold w2. now apply addRow_present. }
  destruct (addHourType_spec h w) as (T1 & _ & _ & _ & _ & _ & T7).
  rewrite E2. cbn. rewrite S1, S4. repeat split; assumption.
Qed.

Lemma addRow_twice_witness :
  let w1 := addRow "Work" None start in
  let w2 := addRow "Work" (Some work_entry) w1 in
  addedHourTypes (TimesheetState w2) = addedHourTypes (TimesheetState w1)
  /\ document w2 = document w1
  /\ emitted w2 = emitted w1.
Proof.
  destruct (addRow_twice start "Work" None (Some work_entry) [] eq_refl eq_refl)
    as (_ & _ & H3 & _ & H5 & _ & H7 & _).
  split; [exact H3 | split; [exact H5 | exact H7]].
Defined.

(** C3 as stated fails on the count of events: across the two calls two
    events fire on a form without unsaved changes, ['changed'] and
    ['hourTypeAdded'], both in the first call. *)
Lemma addRow_twice_two_events :
  hasUnsavedChanges (TimesheetState start) = false
  /\ emitted start = []
  /\ emitted (addRow "Work" None (addRow "Work" None start))
     = [EvChanged true; EvHourTypeAdded "Work"].
Proof. repeat split. Qed.

(** *** Read-only records *)

Lemma _buildRowHTML_read_only h data w :
  isEditable w = false -> read_only_row (_buildRowHTML h data w).
Proof.
  intros H. unfold read_only_row, _buildRowHTML. cbn [row_removeBtn row_inputs].
  rewrite H. split; [reflexivity|].
  intros i Hi. apply in_map_iff in Hi as (n & <- & _).
  unfold build_input. cbn [in_readonly]. now rewrite H.
Qed.

Lemma get_input_in r i w input :
  get_input r i w = Some input ->
  exists row, In row (default [] (entries_body (document w))) /\ In input (row_inputs row).
Proof.
  unfold get_input.
  destruct (default [] (entries_body (document w)) !! r) as [row|] eqn:Er; [|discriminate].
  intros Hi. exists row. split.
  - apply list_elem_of_In. eapply list_elem_of_lookup_2. exact Er.
  - apply list_elem_of_In. eapply list_elem_of_lookup_2. exact Hi.
Qed.

Lemma fold_col_totals_fields rows ds :
  forall w,
  let w' := fold_left
              (fun w' day =>
                 match col_totals (document w') !! day with
                 | Some _ =>
                     set_col_totals (<[day := JS.toFixed1 (columnTotal day rows)]>) w'
                 | None => w'
                 end) ds w in
  same_store w' w
  /\ UserInfo w' = UserInfo w /\ DateUtils w' = DateUtils w
  /\ entries_body (document w') = entries_body (document w)
  /\ grand_total (document w') = grand_total (document w)
  /\ hour_type_selector (document w') = hour_type_selector (document w)
  /\ add_row_controls (document w') = add_row_controls (document w).
Proof.
  induction ds as [|d ds IH]; intros w; [now repeat split|].
  cbn [fold_left]. cbv zeta.
  set (w1 := match col_totals (document w) !! d with
             | Some _ => set_col_totals _ w | None => w end).
  assert (H1 : same_store w1 w
               /\ UserInfo w1 = UserInfo w /\ DateUtils w1 = DateUtils w
               /\ entries_body (document w1) = entries_body (document w)
               /\ grand_total (document w1) = grand_total (document w)
               /\ hour_type_selector (document w1) = hour_type_selector (document w)
               /\ add_row_controls (document w1) = add_row_controls (document w)).
  { unfold w1. destruct (col_totals (document w) !! d); now repeat split. }
  destruct H1 as ((A1 & A2 & A3 & A4) & B & C & D & E & F & G).
  destruct (IH w1) as ((A1' & A2' & A3' & A4') & B' & C' & D' & E' & F' & G').
  repeat split; congruence.
Qed.

Lemma updateColumnTotals_fields w :
  let w' := updateColumnTotals w in
  same_store w' w
  /\ UserInfo w' = UserInfo w /\ DateUtils w' = DateUtils w
  /\ entries_body (document w') = entries_body (document w)
  /\ grand_total (document w') = grand_total (document w)
  /\ hour_type_selector (document w') = hour_type_selector (document w)
  /\ add_row_controls (document w') = add_row_controls (document w).
Proof.
  destruct (entries_body (document w)) as [rows|] eqn:E.
  - assert (Hw : updateColumnTotals w = fold_left
              (fun w' day =>
                 match col_totals (document w') !! day with
                 | Some _ =>
                     set_col_totals (<[day := JS.toFixed1 (columnTotal day rows)]>) w'
                 | None => w'
                 end) days w)
      by (unfold updateColumnTotals; now rewrite E).
    rewrite Hw, <- E. apply fold_col_totals_fields.
  - assert (Hw : updateColumnTotals w = w)
      by (unfold updateColumnTotals; now rewrite E).
    rewrite Hw. now repeat split.
Qed.

Lemma updateGrandTotal_fields w :
  let w' := updateGrandTotal w in
  same_store w' w
  /\ UserInfo w' = UserInfo w /\ DateUtils w' = DateUtils w
  /\ entries_body (document w') = entries_body (document w)
  /\ col_totals (document w') = col_totals (document w)
  /\ hour_type_selector (document w') = hour_type_selector (document w)
  /\ add_row_controls (document w') = add_row_controls (document w).
Proof.
  assert (Hw : updateGrandTotal w = w
               \/ exists t, updateGrandTotal w = set_grand_total t w).
  { unfold updateGrandTotal. destruct (entries_body (document w)); [|now left].
    destruct (grand_total (document w)); [right; eauto | now left]. }
  destruct Hw as [->|(t & ->)]; now repeat split.
Qed.

Lemma _checkHolidayInput_fields input w :
  let w' := _checkHolidayInput input w in
  TimesheetState w' = TimesheetState w /\ document w' = document w
  /\ emitted w' = emitted w /\ calls w' = calls w.
Proof.
  unfold _checkHolidayInput.
  destruct (String.eqb (in_date input) "" || negb (isHoliday (DateUtils w) (in_date input)));
    [now repeat split|].
  destruct (JS.gt (input_hours input) JS.pos_zero); now repeat split.
Qed.

Lemma updateRowTotal_same_store h w :
  same_store (updateRowTotal h w) w
  /\ UserInfo (updateRowTotal h w) = UserInfo w
  /\ DateUtils (updateRowTotal h w) = DateUtils w.
Proof.
  unfold updateRowTotal. destruct (find_row h w) as [row|]; [|now repeat split].
  set (w1 := set_entries_body _ w).
  destruct (updateColumnTotals_fields w1) as ((A1 & A2 & A3 & A4) & B & C & _).
  destruct (updateGrandTotal_fields (updateColumnTotals w1))
    as ((A1' & A2' & A3' & A4') & B' & C' & _).
  assert (E1 : TimesheetState w1 = TimesheetState w) by reflexivity.
  assert (E2 : console w1 = console w) by reflexivity.
  assert (E3 : emitted w1 = emitted w) by reflexivity.
  assert (E4 : calls w1 = calls w) by reflexivity.
  assert (E5 : UserInfo w1 = UserInfo w) by reflexivity.
  assert (E6 : DateUtils w1 = DateUtils w) by reflexivity.
  split; [|split]; [repeat split|..]; congruence.
Qed.

(** The ['input'] listener marks the form as changed whatever the state of
    the record: it emits ['changed'] on the transition of the flag and
    leaves the loaded record alone. *)
Lemma on_input_store h r i w :
  let w' := on_input h r i w in
  hasUnsavedChanges (TimesheetState w') = true
  /\ emitted w'
     = (emitted w ++
        if hasUnsavedChanges (TimesheetState w) then [] else [EvChanged true])%list
  /\ currentTimesheet (TimesheetState w') = currentTimesheet (TimesheetState w)
  /\ addedHourTypes (TimesheetState w') = addedHourTypes (TimesheetState w).
Proof.
  cbv zeta. unfold on_input.
  destruct (updateRowTotal_same_store h w) as ((Hst & _ & Hem & _) & _).
  destruct (markChanged_spec (updateRowTotal h w)) as (H1 & H2 & H3 & _ & _ & _ & H7).
  cbv zeta in *. rewrite Hst, Hem in *.
  set (w2 := markChanged (updateRowTotal h w)) in *.
  assert (Hfin : forall w3, TimesheetState w3 = TimesheetState w2 ->
                   emitted w3 = emitted w2 ->
                   hasUnsavedChanges (TimesheetState w3) = true
                   /\ emitted w3
                      = (emitted w ++
                         if hasUnsavedChanges (TimesheetState w) then []
                         else [EvChanged true])%list
                   /\ currentTimesheet (TimesheetState w3)
                      = currentTimesheet (TimesheetState w)
                   /\ addedHourTypes (TimesheetState w3)
                      = addedHourTypes (TimesheetState w)).
  { intros w3 E1 E2. rewrite E1, E2. now repeat split. }
  destruct (get_input r i w2) as [input|]; [|now apply Hfin].
  destruct (_checkHolidayInput_fields input w2) as (A & _ & C & _).
  now apply Hfin.
Qed.

Lemma on_input_dirty h r i w :
  hasUnsavedChanges (TimesheetState (on_input h r i w)) = true.
Proof.
  unfold on_input.
  assert (H : hasUnsavedChanges (TimesheetState (markChanged (updateRowTotal h w))) = true)
    by apply markChanged_spec.
  destruct (get_input r i (markChanged (updateRowTotal h w))) as [input|]; [|exact H].
  unfold _checkHolidayInput.
  destruct (_ || _); [exact H|]. destruct (JS.gt _ _); exact H.
Qed.

(** On a grid of read-only rows the controls a browser offers do nothing:
    it lets the user neither edit an input that has [readonly] nor click
    a button that is not there. *)
Lemma read_only_rows_inert (w : World) :
  (forall row, In row (default [] (entries_body (document w))) -> read_only_row row) ->
  forall r i text,
    user_types r i text w = w /\ user_leaves r i w = w /\ user_clicks_remove r w = w.
Proof.
  intros Hrows r i text. split; [|split].
  - unfold user_types.
    destruct (default [] (entries_body (document w)) !! r) as [row|] eqn:Er; [|reflexivity].
    destruct (get_input r i w) as [input|] eqn:Ei; [|reflexivity].
    destruct (get_input_in r i w input Ei) as (row' & Hrow & Hin).
    now rewrite (proj2 (Hrows row' Hrow) input Hin).
  - unfold user_leaves.
    destruct (get_input r i w) as [input|] eqn:Ei; [|reflexivity].
    destruct (get_input_in r i w input Ei) as (row' & Hrow & Hin).
    now rewrite (proj2 (Hrows row' Hrow) input Hin).
  - unfold user_clicks_remove.
    destruct (default [] (entries_body (document w)) !! r) as [row|] eqn:Er; [|reflexivity].
    assert (Hrow : In row (default [] (entries_body (document w)))).
    { apply list_elem_of_In. eapply list_elem_of_lookup_2. exact Er. }
    now rewrite (proj1 (Hrows row Hrow)).
Qed.

(** C1, as the code has it.  Let [isEditable()] be false.  What the grid
    does about it is to render read-only rows: for an hour type, dates and
    day values that are plain text, [_buildRowHTML] gives every hour input
    the [readonly] attribute and leaves the remove button out.  The
    operations themselves do not ask [isEditable()]: [addHourType] adds
    the hour type, [removeHourType] removes it, [markChanged] and the
    ['input'] listener of a day set the dirty flag, and each emits its
    events as in an editable state: ['changed'] on the transition of the
    flag, then ['hourTypeAdded'] or ['hourTypeRemoved'].  None of them
    changes what [isEditable()] returns. *)
Theorem read_only_is_presentational (w : World) :
  isEditable w = false ->
  (forall h data, plain_splices h data w = true ->
     read_only_row (_buildRowHTML h data w))
  /\ (forall h,
        let w' := addHourType h w in
        addedHourTypes (TimesheetState w') = addedHourTypes (TimesheetState w) ∪ {[h]}
        /\ hasUnsavedChanges (TimesheetState w') = true
        /\ emitted w'
           = (emitted w ++
              (if hasUnsavedChanges (TimesheetState w) then [] else [EvChanged true])
              ++ [EvHourTypeAdded h])%list
        /\ isEditable w' = false)
  /\ (forall h,
        let w' := removeHourType h w in
        addedHourTypes (TimesheetState w') = addedHourTypes (TimesheetState w) ∖ {[h]}
        /\ hasUnsavedChanges (TimesheetState w') = true
        /\ emitted w'
           = (emitted w ++
              (if hasUnsavedChanges (TimesheetState w) then [] else [EvChanged true])
              ++ [EvHourTypeRemoved h])%list
        /\ isEditable w' = false)
  /\ (let w' := markChanged w in
      hasUnsavedChanges (TimesheetState w') = true
      /\ emitted w'
         = (emitted w ++
            if hasUnsavedChanges (TimesheetState w) then [] else [EvChanged true])%list
      /\ isEditable w' = false)
  /\ (forall h r i,
        let w' := on_input h r i w in
        hasUnsavedChanges (TimesheetState w') = true
        /\ emitted w'
           = (emitted w ++
              if hasUnsavedChanges (TimesheetState w) then [] else [EvChanged true])%list
        /\ addedHourTypes (TimesheetState w') = addedHourTypes (TimesheetState w)
        /\ isEditable w' = false).
Proof.
  intros Hed. split; [|split; [|split; [|split]]].
  - intros h data _. now apply _buildRowHTML_read_only.
  - intros h. destruct (addHourType_spec h w) as (H1 & H2 & H3 & _ & _ & _ & H7).
    cbv zeta in *. repeat split; try assumption.
    rewrite <- Hed. now apply isEditable_same_record.
  - intros h. destruct (removeHourType_spec h w) as (H1 & H2 & H3 & _ & _ & _ & H7).
    cbv zeta in *. repeat split; try assumption.
    rewrite <- Hed. now apply isEditable_same_record.
  - destruct (markChanged_spec w) as (H1 & H2 & _ & _ & _ & _ & H7).
    cbv zeta in *. repeat split; try assumption.
    rewrite <- Hed. now apply isEditable_same_record.
  - intros h r i. destruct (on_input_store h r i w) as (H1 & H2 & H3 & H4).
    cbv zeta in *. repeat split; try assumption.
    rewrite <- Hed. now apply isEditable_same_record.
Qed.

Lemma read_only_is_presentational_witness :
  read_only_row (_buildRowHTML "Work" (Some work_entry) submitted)
  /\ hasHourType "Field" (addHourType "Field" submitted) = true.
Proof.
  destruct (read_only_is_presentational submitted eq_refl) as (H1 & H3 & _).
  split; [apply H1; reflexivity|].
  unfold hasHourType. apply bool_decide_eq_true.
  rewrite (proj1 (H3 "Field")). set_solver.
Defined.

(** C1 as stated fails: with a submitted record loaded, [addHourType],
    [addRow], [removeHourType] and [markChanged] all change the store and
    emit events. *)
Lemma read_only_not_enforced :
  isEditable submitted = false
  /\ hasUnsavedChanges (TimesheetState submitted) = false
  /\ hasHourType "Field" submitted = false
  /\ hasHourType "Field" (addHourType "Field" submitted) = true
  /\ hasUnsavedChanges (TimesheetState (addHourType "Field" submitted)) = true
  /\ emitted (addHourType "Field" submitted)
     = (emitted submitted ++ [EvChanged true; EvHourTypeAdded "Field"])%list
  /\ hasHourType "Field" (addRow "Field" None submitted) = true
  /\ hasHourType "Work" submitted = true
  /\ hasHourType "Work" (removeHourType "Work" submitted) = false
  /\ hasUnsavedChanges (TimesheetState (markChanged submitted)) = true
  /\ emitted (markChanged submitted) = (emitted submitted ++ [EvChanged true])%list.
Proof. vm_compute. repeat split. Qed.

(** *** Hour types by role *)

Lemma populateSelector_options w sel :
  hour_type_selector (document w) = Some sel ->
  exists sel',
    hour_type_selector (document (populateSelector w)) = Some sel'
    /\ sel_value sel' = ""
    /\ List.map opt_value (sel_options sel')
       = "" :: List.filter (fun h => negb (hasHourType h w)) (getAvailableHourTypes w)
    /\ forall o, In o (sel_options sel') -> opt_hidden o = false.
Proof.
  intros H. unfold populateSelector. rewrite H. eexists. split; [reflexivity|].
  cbn [sel_value sel_options List.map opt_value]. split; [reflexivity|]. split.
  - f_equal. rewrite map_map. cbn [opt_value]. apply map_id.
  - intros o [<-|Ho]; [reflexivity|].
    apply in_map_iff in Ho as (h & <- & _). reflexivity.
Qed.

(** C9, as the code has it.  For the role ['trainee']
    [getAvailableHourTypes] returns exactly [Training]; for every other
    role, and when [UserInfo] is not defined, it returns Work, Training,
    Field and Holiday.  The restriction acts on the drop-down:
    [populateSelector] offers the available hour types that are not yet
    added and nothing else, so an hour type outside the set cannot be
    picked.  [addRow] does not look at the role: called with any hour type
    that is not yet added, it adds the hour type and its row. *)
Theorem role_restriction (w : World) :
  (forall u, UserInfo w = Some u -> role u = "trainee" ->
     getAvailableHourTypes w = ["Training"])
  /\ ((forall u, UserInfo w = Some u -> role u <> "trainee") ->
      getAvailableHourTypes w = ["Work"; "Training"; "Field"; "Holiday"])
  /\ (forall sel, hour_type_selector (document w) = Some sel ->
      exists sel',
        hour_type_selector (document (populateSelector w)) = Some sel'
        /\ List.map opt_value (sel_options sel')
           = "" :: List.filter (fun h => negb (hasHourType h w)) (getAvailableHourTypes w))
  /\ (forall h, h <> "" -> ~ In h (getAvailableHourTypes w) ->
      user_picks_and_adds h (populateSelector w) = populateSelector w)
  /\ (forall h data rows,
        entries_body (document w) = Some rows ->
        hasHourType h w = false ->
        hasHourType h (addRow h data w) = true
        /\ entries_body (document (addRow h data w))
           = Some (rows ++ [_buildRowHTML h data (addHourType h w)])%list).
Proof.
  split; [|split; [|split; [|split]]].
  - intros u Hu Hr. unfold getAvailableHourTypes. rewrite Hu, Hr. reflexivity.
  - intros H. unfold getAvailableHourTypes.
    destruct (UserInfo w) as [u|]; [|reflexivity].
    destruct (String.eqb_spec (role u) "trainee") as [E|_]; [|reflexivity].
    now destruct (H u eq_refl).
  - intros sel Hsel.
    destruct (populateSelector_options w sel Hsel) as (sel' & H1 & _ & H3 & _).
    now exists sel'.
  - intros h Hne Hout. unfold user_picks_and_adds.
    destruct (hour_type_selector (document w)) as [sel|] eqn:Hsel.
    + destruct (populateSelector_options w sel Hsel) as (sel' & H1 & _ & H3 & _).
      rewrite H1.
      destruct (existsb _ (sel_options sel')) eqn:Ex; [exfalso|reflexivity].
      apply existsb_exists in Ex as (o & Ho & Hv).
      apply andb_prop in Hv as [Hv _]. apply String.eqb_eq in Hv.
      assert (Hin : In h (List.map opt_value (sel_options sel'))).
      { rewrite <- Hv. now apply in_map. }
      rewrite H3 in Hin. destruct Hin as [E|Hin]; [now apply Hne|].
      apply filter_In in Hin as [Hin _]. now apply Hout.
    + unfold populateSelector. rewrite Hsel. now rewrite Hsel.
  - intros h data rows Hb Hh.
    destruct (addRow_fresh h data w rows Hh Hb) as (S1 & S2 & _).
    split; [|exact S2].
    unfold hasHourType. rewrite S1. apply (hasHourType_addHourType h w).
Qed.

Lemma role_restriction_witness :
  getAvailableHourTypes trainee = ["Training"]
  /\ getAvailableHourTypes start = ["Work"; "Training"; "Field"; "Holiday"]
  /\ user_picks_and_adds "Work" (populateSelector trainee) = populateSelector trainee
  /\ hasHourType "Work" (addRow "Work" None trainee) = true.
Proof.
  destruct (role_restriction trainee) as (H1 & _ & _ & H4 & H5).
  destruct (role_restriction start) as (_ & H2 & _).
  split; [|split; [|split]].
  - exact (H1 {| role := "trainee" |} eq_refl eq_refl).
  - apply H2. intros u Hu. discriminate Hu.
  - apply H4; [discriminate|].
    rewrite (H1 {| role := "trainee" |} eq_refl eq_refl).
    intros [E|[]]. discriminate E.
  - exact (proj1 (H5 "Work" None [] eq_refl eq_refl)).
Defined.

(** C9 as stated fails on its last part: for a trainee, whose only
    available hour type is Training, [addRow] of Work is not rejected. *)
Lemma addRow_ignores_role :
  getAvailableHourTypes trainee = ["Training"]
  /\ hasHourType "Work" trainee = false
  /\ hasHourType "Work" (addRow "Work" None trainee) = true
  /\ List.map row_hourType
       (default [] (entries_body (document (addRow "Work" None trainee))))
     = ["Work"]
  /\ emitted (addRow "Work" None trainee) = [EvChanged true; EvHourTypeAdded "Work"]
  /\ console (addRow "Work" None trainee) = [].
Proof. vm_compute. repeat split. Qed.

(** *** Collecting the entries *)

Lemma row_entry_hour_type r : hour_type (row_entry r) = row_hourType r.
Proof.
  unfold row_entry.
  assert (H : forall l e, hour_type
            (fold_left (fun entry i => entry_set entry (in_day i) (VNum (input_hours i))) l e)
            = hour_type e).
  { induction l as [|i l IH]; intros e; [reflexivity|]. cbn [fold_left]. now rewrite IH. }
  now rewrite H.
Qed.

(** On a row with one input per day, a day passes the test of
    [collectEntries] when its input holds more than 0 hours. *)
Lemma row_entry_hasHours r :
  week_row r ->
  hasHours (row_entry r)
  = existsb (fun i => JS.gt (input_hours i) JS.pos_zero) (row_inputs r).
Proof.
  unfold week_row, row_entry. intros H.
  destruct (row_inputs r) as [|i0 [|i1 [|i2 [|i3 [|i4 [|i5 [|i6 [|i7 l]]]]]]]];
    try discriminate H.
  injection H as H0 H1 H2 H3 H4 H5 H6.
  cbn [fold_left]. rewrite H0, H1, H2, H3, H4, H5, H6.
  unfold hasHours, days, entry_get, entry_set. cbn [existsb day_fields].
  repeat (rewrite lookup_insert_eq || (rewrite lookup_insert_ne by discriminate)).
  cbn [default value_gt_zero]. now rewrite !orb_false_r.
Qed.

(** C5.  On a grid whose rows hold one input per day, [collectEntries]
    returns the entry of a row exactly when at least one of the row's
    seven day values is greater than 0; everything it returns is the entry
    of such a row; and an hour type whose rows hold only zero or empty
    days has no entry in the result.  The set of added hour types plays no
    part in this. *)
Theorem collectEntries_positive (w : World) (rows : list EntryRow) :
  entries_body (document w) = Some rows ->
  (forall r, In r rows -> week_row r) ->
  (forall r, In r rows ->
     (In (row_entry r) (collectEntries w)
      <-> exists i, In i (row_inputs r) /\ JS.gt (input_hours i) JS.pos_zero = true))
  /\ (forall e, In e (collectEntries w) ->
        exists r, In r rows /\ e = row_entry r /\ hour_type e = row_hourType r
                  /\ exists i, In i (row_inputs r) /\ JS.gt (input_hours i) JS.pos_zero = true)
  /\ (forall h,
        (forall r i, In r rows -> row_hourType r = h -> In i (row_inputs r) ->
                     JS.gt (input_hours i) JS.pos_zero = false) ->
        forall e, In e (collectEntries w) -> hour_type e <> h).
Proof.
  intros Hb Hweek. unfold collectEntries. rewrite Hb.
  assert (Hall : forall e, In e (List.filter hasHours (List.map row_entry rows)) ->
            exists r, In r rows /\ e = row_entry r /\ hour_type e = row_hourType r
              /\ exists i, In i (row_inputs r) /\ JS.gt (input_hours i) JS.pos_zero = true).
  { intros e He. apply filter_In in He as [He Hh].
    apply in_map_iff in He as (r & <- & Hr).
    exists r. split; [exact Hr|]. split; [reflexivity|].
    split; [apply row_entry_hour_type|].
    rewrite (row_entry_hasHours r (Hweek r Hr)) in Hh.
    apply existsb_exists in Hh. exact Hh. }
  split; [|split].
  - intros r Hr. rewrite filter_In, (row_entry_hasHours r (Hweek r Hr)), existsb_exists.
    split; [tauto|]. intros H. split; [now apply in_map | exact H].
  - exact Hall.
  - intros h Hzero e He Heq.
    destruct (Hall e He) as (r & Hr & _ & Hht & i & Hi & Hpos).
    rewrite (Hzero r i Hr) in Hpos; [discriminate | congruence | exact Hi].
Qed.

Lemma collectEntries_positive_witness :
  List.map hour_type (collectEntries sample_grid) = ["Work"; "Training"]
  /\ hasHourType "Work" (addRow "Work" None start) = true
  /\ collectEntries (addRow "Work" None start) = []
  /\ forall e, In e (collectEntries sample_grid) ->
       exists r, In r sample_rows /\ e = row_entry r /\ hour_type e = row_hourType r
         /\ exists i, In i (row_inputs r) /\ JS.gt (input_hours i) JS.pos_zero = true.
Proof.
  split; [reflexivity|]. split; [reflexivity|]. split; [reflexivity|].
  assert (Hw : forall r, In r sample_rows -> week_row r)
    by (intros r [<-|[<-|[]]]; reflexivity).
  exact (proj1 (proj2 (collectEntries_positive sample_grid sample_rows eq_refl Hw))).
Defined.

(** *** Committing a day value *)

Lemma get_input_on_change r i w input :
  get_input r i w = Some input ->
  get_input r i (on_change r i w) = Some (set_value (commit (in_value input)) input).
Proof.
  intros H. unfold on_change. rewrite H.
  unfold get_input in *. unfold set_input_value.
  destruct (entries_body (document w)) as [rows|] eqn:Hb; cbn in H.
  - destruct (rows !! r) as [row|] eqn:Er; [|discriminate H].
    cbn. rewrite list_lookup_alter_eq, Er.
    cbn. rewrite list_lookup_alter_eq, H. reflexivity.
  - discriminate H.
Qed.

Lemma commit_nan text :
  JS.is_nan (JS.parseFloat text) = true ->
  normalize text = JS.pos_zero /\ commit text = "".
Proof.
  intros H. unfold commit, normalize.
  destruct (JS.parseFloat text); try discriminate H. split; reflexivity.
Qed.

(** Every text is normalized to a number of half hours from 0 to 48,
    one nearest to the clamped value. *)
Lemma normalize_range text :
  exists k, 0 <= k <= 48
    /\ normalize text = JS.half k
    /\ nearest_half k (clamp (JS.or_zero (JS.parseFloat text))).
Proof.
  unfold normalize.
  destruct (clamp_cases (JS.parseFloat text) (parseFloat_valid text))
    as [->|[->|(m & e & -> & Hv & _ & He & Hm)]].
  - exists 0. split; [lia|]. split; reflexivity.
  - exists 48. split; [lia|]. split; [reflexivity|].
    rewrite of_Z_24. vm_compute. discriminate.
  - destruct (round_half_clamped m e Hv He Hm) as (k & Hk & Hr & Hn).
    exists k. split; [exact Hk|]. split; [exact Hr|].
    unfold nearest_half, JS.fraction. destruct (Z.leb_spec 0 e); [lia | exact Hn].
Qed.

Lemma truthy_half k : 0 <= k <= 48 -> JS.truthy (JS.half k) = negb (k =? 0).
Proof.
  intros Hk. apply Bool.eqb_prop.
  apply (range_forallb
           (fun k => Bool.eqb (JS.truthy (JS.half k)) (negb (k =? 0))) 49);
    [vm_compute; reflexivity | lia].
Qed.

Lemma sanitize_half k :
  1 <= k <= 48 -> sanitize (JS.toString (JS.half k)) = JS.toString (JS.half k).
Proof.
  intros Hk. apply String.eqb_eq.
  pose proof (range_forallb
           (fun k => String.eqb (sanitize (JS.toString (JS.half k))) (JS.toString (JS.half k))) 49
           ltac:(vm_compute; reflexivity) k ltac:(lia)) as H.
  exact H.
Qed.

Lemma commit_half text k :
  0 <= k <= 48 -> normalize text = JS.half k ->
  commit text = (if k =? 0 then "" else JS.toString (JS.half k))
  /\ sanitize (commit text) = commit text
  /\ JS.or_zero (JS.parseFloat (commit text)) = JS.half k.
Proof.
  intros Hk Hn. unfold commit. rewrite Hn, (truthy_half k Hk).
  destruct (Z.eqb_spec k 0) as [->|Hne]; cbn [negb].
  - repeat split.
  - split; [reflexivity|]. split; [apply sanitize_half; lia | apply toString_roundtrip; lia].
Qed.

(** C4.  The ['change'] listener reads the text of the input
    ([parseFloat(input.value) || 0]), clamps the number to [0, 24], then
    rounds it to a multiple of 0.5, and writes [value || ''] back.  For
    every text: the clamped value lies in [0, 24]; the result is [k / 2]
    for a whole [k] from 0 to 48, nearest to the clamped value; the text
    written is empty for 0 and the decimal of [k / 2] otherwise; the input
    then counts [k / 2] in the totals.  So 7.3 commits as 7.5, -2 as 0
    (shown as the empty text) and 30 as 24, and a cleared or non-numeric
    value commits as the empty text, which counts as 0. *)
Theorem commit_normalizes :
  (forall text,
     let c := clamp (JS.or_zero (JS.parseFloat text)) in
     normalize text = round_half c
     /\ JS.lt c JS.pos_zero = false /\ JS.lt (JS.of_Z 24) c = false
     /\ exists k, 0 <= k <= 48
          /\ normalize text = JS.half k
          /\ nearest_half k c
          /\ commit text = (if k =? 0 then "" else JS.toString (JS.half k))
          /\ JS.or_zero (JS.parseFloat (commit text)) = JS.half k)
  /\ (forall w r i input,
        get_input r i w = Some input ->
        exists input',
          get_input r i (on_change r i w) = Some input'
          /\ in_value input' = commit (in_value input)
          /\ quantized (input_hours input'))
  /\ (commit "7.3" = "7.5" /\ normalize "7.3" = JS.half 15)
  /\ (commit "-2" = "" /\ normalize "-2" = JS.pos_zero)
  /\ (commit "30" = "24" /\ normalize "30" = JS.of_Z 24)
  /\ (commit "" = "" /\ commit "abc" = ""
      /\ forall text, JS.is_nan (JS.parseFloat text) = true ->
           normalize text = JS.pos_zero /\ commit text = "")
  /\ JS.or_zero (JS.parseFloat "") = JS.pos_zero.
Proof.
  split; [|split].
  - intros text c. split; [reflexivity|].
    destruct (clamp_range (JS.parseFloat text) (parseFloat_valid text)) as [H0 H24].
    split; [exact H0|]. split; [exact H24|].
    destruct (normalize_range text) as (k & Hk & Hn & Hnear).
    destruct (commit_half text k Hk Hn) as (Hc & _ & Hr).
    exists k. repeat split; try assumption; lia.
  - intros w r i input Hi.
    destruct (normalize_range (in_value input)) as (k & Hk & Hn & _).
    destruct (commit_half (in_value input) k Hk Hn) as (_ & Hs & Hr).
    exists (set_value (commit (in_value input)) input).
    split; [now apply get_input_on_change|].
    unfold set_value, input_hours. cbn [in_value]. rewrite Hs.
    split; [reflexivity|]. exists k. split; [exact Hk | exact Hr].
  - repeat split; try reflexivity; now apply commit_nan.
Qed.

Lemma commit_normalizes_witness :
  let w := set_input_value 0 3 "7.3" sample_grid in
  exists input',
    get_input 0 3 (on_change 0 3 w) = Some input'
    /\ in_value input' = "7.5"
    /\ quantized (input_hours input').
Proof.
  destruct commit_normalizes as (_ & H & _).
  destruct (H (set_input_value 0 3 "7.3" sample_grid) 0%nat 3%nat
              {| in_value := "7.3"; in_day := "wed"; in_date := "undefined";
                 in_holiday := false; in_readonly := false;
                 in_readonly_field := false |} eq_refl)
    as (input' & H1 & H2 & H3).
  exists input'. split; [exact H1 | split; [exact H2 | exact H3]].
Defined.

End EntriesFacts.

(** ** The store: events, subscriptions and tracked hour types *)

Module StoreLaws.
Import State StateFacts.

Lemma fold_call_listener_console ev l :
  forall w,
  console (fold_left (call_listener ev) l w)
  = (console w ++ List.map (fun _ => listener_error ev) (List.filter cb_throws l))%list.
Proof.
  induction l as [|cb l IH]; intros w; cbn [fold_left List.filter List.map].
  - now rewrite app_nil_r.
  - rewrite IH. unfold call_listener.
    destruct (cb_throws cb); cbn [console console_push record_call List.map].
    + now rewrite <- app_assoc.
    + reflexivity.
Qed.

Lemma emit_console ev w :
  console (emit ev w)
  = (console w ++ List.map (fun _ => listener_error ev)
                    (List.filter cb_throws (listeners_of (event_name ev) w)))%list.
Proof. unfold emit. now rewrite fold_call_listener_console. Qed.

(** X1.  [emit(event, data)] calls every listener registered for the
    event exactly once, in registration order, whether or not an earlier
    one raised; each listener that raises leaves one [console.error]
    line; the store and the document are not touched. *)
Theorem emit_isolates_listeners (ev : Event) (w : World) :
  calls (emit ev w)
  = (calls w ++ List.map (fun cb => (cb, ev)) (listeners_of (event_name ev) w))%list
  /\ console (emit ev w)
     = (console w ++ List.map (fun _ => listener_error ev)
                       (List.filter cb_throws (listeners_of (event_name ev) w)))%list
  /\ emitted (emit ev w) = (emitted w ++ [ev])%list
  /\ TimesheetState (emit ev w) = TimesheetState w
  /\ document (emit ev w) = document w.
Proof.
  destruct (emit_spec ev w) as (H1 & H2 & _ & _ & H5 & H6).
  split; [exact H6|]. split; [apply emit_console|].
  split; [exact H5 | split; [exact H1 | exact H2]].
Qed.

Lemma filter_same_absent cb l :
  (forall c, In c l -> cb_id c <> cb_id cb) ->
  List.filter (fun c => negb (same_callback c cb)) l = l.
Proof.
  induction l as [|c l IH]; intros H; [reflexivity|].
  cbn [List.filter]. unfold same_callback at 1.
  destruct (Nat.eqb_spec (cb_id c) (cb_id cb)) as [E|_].
  - now destruct (H c (or_introl eq_refl)).
  - cbn [negb]. rewrite IH; [reflexivity | intros; apply H; now right].
Qed.

(** X2.  [on(event, callback)] returns for every event of the store, and
    for every name that is not one that [_listeners] merely inherits from
    [Object.prototype]; for such a name (['constructor'], ['toString'],
    ...) it throws a TypeError and registers nothing.  When it returns,
    the callback is last in the list of the event, and calling the returned
    unsubscribe function leaves the old list without the callback: a
    callback that was not registered before leaves the list as it was, one
    that was registered before (the same function, subscribed twice) loses
    every registration at once.  The lists of other events are untouched,
    and the callback is not called by a later event of that name. *)
Theorem unsubscribe_on (name : string) (cb : Callback) (w : World) :
  (on name cb w = Throw "TypeError"
   <-> inherited name = true /\ _listeners (TimesheetState w) !! name = None)
  /\ (inherited name = false -> exists w1, on name cb w = Normal w1)
  /\ (forall ev, inherited (event_name ev) = false)
  /\ (forall w1, on name cb w = Normal w1 ->
        let w' := unsubscribe name cb w1 in
        listeners_of name w1 = (listeners_of name w ++ [cb])%list
        /\ listeners_of name w'
           = List.filter (fun c => negb (same_callback c cb)) (listeners_of name w)
        /\ ((forall c, In c (listeners_of name w) -> cb_id c <> cb_id cb) ->
            listeners_of name w' = listeners_of name w)
        /\ (forall other, other <> name ->
              listeners_of other w' = listeners_of other w)
        /\ (forall ev c, event_name ev = name ->
              In (c, ev) (List.map (fun c => (c, ev)) (listeners_of (event_name ev) w')) ->
              cb_id c <> cb_id cb)).
Proof.
  split; [apply on_throws|]. split; [|split].
  - intros Hn. unfold on. rewrite Hn.
    destruct (_listeners (TimesheetState w) !! name); eauto.
  - intros []; reflexivity.
  - intros w1 Hon. destruct (on_listeners name cb w w1 Hon) as [Hl Ho].
    assert (H0 : listeners_of name w1 = (listeners_of name w ++ [cb])%list).
    { unfold listeners_of. now rewrite Hl. }
    assert (H1 : listeners_of name (unsubscribe name cb w1)
                 = List.filter (fun c => negb (same_callback c cb)) (listeners_of name w)).
    { unfold listeners_of at 1. rewrite unsubscribe_listeners. fold (listeners_of name w1).
      rewrite H0. cbn [from_option id]. rewrite List.filter_app. cbn [List.filter].
      unfold same_callback at 2. rewrite Nat.eqb_refl. cbn [negb].
      now rewrite app_nil_r. }
    cbv zeta. split; [exact H0|]. split; [exact H1|]. split; [|split].
    + intros H. rewrite H1. now apply filter_same_absent.
    + intros other Hne. unfold listeners_of. cbn.
      rewrite lookup_insert_ne by congruence. now rewrite Ho.
    + intros ev c <- Hin. rewrite H1 in Hin.
      apply in_map_iff in Hin as (c' & E & Hc). injection E as ->.
      apply filter_In in Hc as [_ Hc]. unfold same_callback in Hc.
      destruct (Nat.eqb_spec (cb_id c) (cb_id cb)); [discriminate Hc | assumption].
Qed.

Lemma unsubscribe_on_witness :
  (exists w1,
     on "changed" (listener 2)
       (set_listeners "changed" [listener 1; listener 2] start) = Normal w1
     /\ listeners_of "changed" (unsubscribe "changed" (listener 2) w1) = [listener 1])
  /\ on "constructor" (listener 1) start = Throw "TypeError".
Proof.
  split.
  - eexists. split; [reflexivity|].
    destruct (proj2 (proj2 (proj2
                (unsubscribe_on "changed" (listener 2)
                   (set_listeners "changed" [listener 1; listener 2] start)))) _ eq_refl)
      as (_ & H & _).
    exact H.
  - apply (proj1 (unsubscribe_on "constructor" (listener 1) start)).
    split; reflexivity.
Defined.

Lemma union_then_difference (S : gset string) h : (S ∪ {[h]}) ∖ {[h]} = S ∖ {[h]}.
Proof.
  apply set_eq. intros x.
  rewrite !elem_of_difference, elem_of_union, elem_of_singleton. tauto.
Qed.

Lemma difference_absent (S : gset string) h : h ∉ S -> S ∖ {[h]} = S.
Proof.
  intros H. apply set_eq. intros x.
  rewrite elem_of_difference, elem_of_singleton. split; [tauto|].
  intros Hx. split; [exact Hx | congruence].
Qed.

Lemma not_elem_of_difference_singleton (S : gset string) h : h ∉ S ∖ {[h]}.
Proof. rewrite elem_of_difference, elem_of_singleton. tauto. Qed.

(** X3.  Adding an hour type and removing it again: the set is the old one
    without the hour type, so a type that was not tracked before leaves
    the set as it was.  The form stays marked as changed; ['changed'] is
    emitted once at most, ['hourTypeAdded'] and ['hourTypeRemoved'] once
    each, in this order. *)
Theorem add_then_remove_hour_type (h : string) (w : World) :
  let w' := removeHourType h (addHourType h w) in
  addedHourTypes (TimesheetState w') = addedHourTypes (TimesheetState w) ∖ {[h]}
  /\ (hasHourType h w = false ->
      addedHourTypes (TimesheetState w') = addedHourTypes (TimesheetState w))
  /\ hasHourType h w' = false
  /\ hasUnsavedChanges (TimesheetState w') = true
  /\ emitted w'
     = (emitted w ++
        (if hasUnsavedChanges (TimesheetState w) then [] else [EvChanged true])
        ++ [EvHourTypeAdded h; EvHourTypeRemoved h])%list.
Proof.
  destruct (addHourType_spec h w) as (A1 & A2 & _ & _ & _ & _ & A7).
  destruct (removeHourType_spec h (addHourType h w)) as (R1 & R2 & _ & _ & _ & _ & R7).
  cbv zeta in *.
  assert (E : addedHourTypes (TimesheetState (removeHourType h (addHourType h w)))
              = addedHourTypes (TimesheetState w) ∖ {[h]}).
  { rewrite R1, A1. apply union_then_difference. }
  split; [exact E|]. split; [|split; [|split]].
  - intros Hh. rewrite E. unfold hasHourType in Hh.
    apply bool_decide_eq_false in Hh. now apply difference_absent.
  - unfold hasHourType. apply bool_decide_eq_false. rewrite E.
    apply not_elem_of_difference_singleton.
  - exact R2.
  - rewrite R7, A2, A7. cbn [app]. rewrite <- !app_assoc. reflexivity.
Qed.

Lemma add_then_remove_hour_type_witness :
  addedHourTypes (TimesheetState (removeHourType "Field" (addHourType "Field" submitted)))
  = addedHourTypes (TimesheetState submitted).
Proof.
  exact (proj1 (proj2 (add_then_remove_hour_type "Field" submitted)) eq_refl).
Defined.

(** The methods of the store read and write the store, the console and
    the traces only. *)
Lemma emit_same_store ev w1 w2 :
  same_store w1 w2 -> same_store (emit ev w1) (emit ev w2).
Proof.
  intros (H1 & H2 & H3 & H4).
  destruct (emit_spec ev w1) as (A4 & _ & _ & _ & A3 & A1).
  destruct (emit_spec ev w2) as (B4 & _ & _ & _ & B3 & B1).
  pose proof (emit_console ev w1) as A2.
  pose proof (emit_console ev w2) as B2.
  unfold same_store, listeners_of in *.
  now rewrite A1, A2, A3, A4, B1, B2, B3, B4, H1, H2, H3, H4.
Qed.

Lemma markChanged_same_store w1 w2 :
  same_store w1 w2 -> same_store (markChanged w1) (markChanged w2).
Proof.
  intros H. unfold markChanged. destruct H as (H1 & H2 & H3 & H4). rewrite H1.
  destruct (hasUnsavedChanges (TimesheetState w2)); cbn [negb].
  - now repeat split.
  - apply emit_same_store. unfold same_store. cbn. now rewrite H1, H2, H3, H4.
Qed.

Lemma removeHourType_same_store h w1 w2 :
  same_store w1 w2 -> same_store (removeHourType h w1) (removeHourType h w2).
Proof.
  intros (H1 & H2 & H3 & H4). unfold removeHourType.
  apply emit_same_store, markChanged_same_store.
  unfold same_store. cbn. now rewrite H1, H2, H3, H4.
Qed.

End StoreLaws.

(** ** The grid: rows, totals and the drop-down *)

Module GridLaws.
Import JS State Entries StateFacts NumberFacts RoundingFacts GridFacts EntriesFacts StoreLaws.

Lemma fold_union_hour_types (es : list Entry) :
  forall (S : gset string) h,
  h ∈ fold_left (fun acc e => acc ∪ {[hour_type e]}) es S
  <-> h ∈ S \/ exists e, In e es /\ hour_type e = h.
Proof.
  induction es as [|e es IH]; intros S h; cbn [fold_left].
  - split; [now left | intros [H|(e & [] & _)]; exact H].
  - rewrite IH. split.
    + intros [H|(e' & He' & E)].
      * apply elem_of_union in H as [H|H]; [now left|].
        apply elem_of_singleton in H. right. exists e. split; [now left | congruence].
      * right. exists e'. split; [now right | exact E].
    + intros [H|(e' & [->|He'] & E)].
      * left. apply elem_of_union. now left.
      * left. apply elem_of_union. right. now apply elem_of_singleton.
      * right. now exists e'.
Qed.

(** X4.  [loadTimesheet(timesheet)] tracks exactly the hour types of the
    record's entries, clears the dirty flag, takes over the week and the
    reimbursement items and emits ['timesheetLoaded']; it does not touch
    the document.  Hence, right after a load, [addRow] for an hour type of
    the record is rejected as a duplicate: it only logs the warning. *)
Theorem loadTimesheet_tracks_entries (t : Timesheet) (w : World) :
  let w' := loadTimesheet t w in
  (forall h, hasHourType h w' = true
             <-> exists e, In e (default [] (entries t)) /\ hour_type e = h)
  /\ currentTimesheet (TimesheetState w') = Some t
  /\ currentWeekStart (TimesheetState w') = week_start t
  /\ reimbursementItems (TimesheetState w') = default [] (reimbursement_items t)
  /\ hasUnsavedChanges (TimesheetState w') = false
  /\ _listeners (TimesheetState w') = _listeners (TimesheetState w)
  /\ document w' = document w
  /\ emitted w' = (emitted w ++ [EvTimesheetLoaded t])%list
  /\ (forall e data, In e (default [] (entries t)) ->
        addRow (hour_type e) data w'
        = console_push
            (ConsoleWarn ("Hour type " ++ hour_type e ++ " already added")) w').
Proof.
  assert (Hst : TimesheetState (loadTimesheet t w)
                = {| currentTimesheet := Some t;
                     currentWeekStart := week_start t;
                     addedHourTypes :=
                       match entries t with
                       | Some es => fold_left (fun acc e => acc ∪ {[hour_type e]}) es ∅
                       | None => ∅
                       end;
                     reimbursementItems := default [] (reimbursement_items t);
                     hasUnsavedChanges := false;
                     _form := _form (TimesheetState w);
                     _entriesBody := _entriesBody (TimesheetState w);
                     _listeners := _listeners (TimesheetState w) |}).
  { unfold loadTimesheet. now rewrite emit_state. }
  assert (Hh : forall h, hasHourType h (loadTimesheet t w) = true
             <-> exists e, In e (default [] (entries t)) /\ hour_type e = h).
  { intros h. unfold hasHourType. rewrite Hst. cbn [addedHourTypes].
    rewrite bool_decide_eq_true. destruct (entries t) as [es|]; cbn [from_option id].
    - rewrite fold_union_hour_types.
      split; [intros [H|H]; [now apply not_elem_of_empty in H | exact H] | now right].
    - split; [intros H; now apply not_elem_of_empty in H | intros (e & [] & _)]. }
  cbv zeta. rewrite Hst. cbn.
  split; [exact Hh|]. repeat split.
  - unfold loadTimesheet. now rewrite emit_document.
  - unfold loadTimesheet. now rewrite emit_emitted.
  - intros e data He. apply addRow_present. apply Hh. now exists e.
Qed.

Lemma loadTimesheet_tracks_entries_witness :
  addRow "Work" (Some work_entry) submitted
  = console_push (ConsoleWarn "Hour type Work already added") submitted.
Proof.
  destruct (loadTimesheet_tracks_entries (record_with "SUBMITTED" (Some false)) start)
    as (_ & _ & _ & _ & _ & _ & _ & _ & H).
  exact (H work_entry (Some work_entry) (or_introl eq_refl)).
Defined.

Lemma find_absent {A} (p : A -> bool) l :
  (forall x, In x l -> p x = false) -> List.find p l = None.
Proof.
  induction l as [|x l IH]; intros H; [reflexivity|]. cbn [List.find].
  rewrite (H x (or_introl eq_refl)). apply IH. intros; apply H; now right.
Qed.

Lemma find_app_last {A} (p : A -> bool) l x :
  (forall y, In y l -> p y = false) -> p x = true ->
  List.find p (l ++ [x])%list = Some x.
Proof.
  induction l as [|y l IH]; intros H Hx; cbn [app List.find].
  - now rewrite Hx.
  - rewrite (H y (or_introl eq_refl)). apply IH; [intros; apply H; now right | exact Hx].
Qed.

Lemma remove_first_app_last {A} (p : A -> bool) l x :
  (forall y, In y l -> p y = false) -> p x = true ->
  remove_first p (l ++ [x])%list = l.
Proof.
  induction l as [|y l IH]; intros H Hx; cbn [app remove_first].
  - now rewrite Hx.
  - rewrite (H y (or_introl eq_refl)). f_equal.
    apply IH; [intros; apply H; now right | exact Hx].
Qed.

Lemma removeRow_fields h w row :
  find_row h w = Some row ->
  let rows' := remove_first (fun r => String.eqb (row_id r) ("row-" ++ h))
                 (default [] (entries_body (document w))) in
  let w' := removeRow h w in
  TimesheetState w' = TimesheetState (removeHourType h w)
  /\ entries_body (document w') = Some rows'
  /\ emitted w' = emitted (removeHourType h w)
  /\ calls w' = calls (removeHourType h w).
Proof.
  intros Hf. unfold removeRow. rewrite Hf. cbv zeta.
  set (rows' := remove_first _ _).
  set (w1 := set_entries_body rows' w).
  destruct (_checkAllTypesAdded_fields (updateSelectorOptions (removeHourType h w1)))
    as (A1 & A2 & _ & _ & _ & A6 & A7).
  destruct (updateSelectorOptions_fields (removeHourType h w1))
    as (B1 & B2 & _ & _ & _ & B6 & B7).
  cbv zeta in *. rewrite A1, A2, A6, A7, B1, B2, B6, B7.
  assert (Hd : document (removeHourType h w1) = document w1) by apply removeHourType_spec.
  rewrite Hd.
  destruct (removeHourType_same_store h w1 w) as (S1 & _ & S3 & S4).
  { unfold same_store. now cbn. }
  rewrite S1, S3, S4. repeat split.
Qed.

(** X5.  [removeRow] undoes [addRow]: on a page with the entries table,
    for an hour type that is not tracked and has no row yet, adding the
    row and removing it leaves the rows and the set of hour types as they
    were.  What stays is the dirty flag, and the events of both steps
    have been emitted.  [removeRow] for an hour type without a row does
    nothing at all. *)
Theorem removeRow_undoes_addRow (w : World) (h : string) (data : option Entry)
    (rows : list EntryRow) :
  entries_body (document w) = Some rows ->
  hasHourType h w = false ->
  (forall r, In r rows -> row_id r <> "row-" ++ h) ->
  let w' := removeRow h (addRow h data w) in
  entries_body (document w') = Some rows
  /\ addedHourTypes (TimesheetState w') = addedHourTypes (TimesheetState w)
  /\ hasUnsavedChanges (TimesheetState w') = true
  /\ emitted w'
     = (emitted w ++
        (if hasUnsavedChanges (TimesheetState w) then [] else [EvChanged true])
        ++ [EvHourTypeAdded h; EvHourTypeRemoved h])%list
  /\ removeRow h w = w.
Proof.
  intros Hb Hh Hids.
  set (p := fun r => String.eqb (row_id r) ("row-" ++ h)).
  assert (Hp : forall r, In r rows -> p r = false).
  { intros r Hr. unfold p. apply String.eqb_neq. now apply Hids. }
  destruct (addRow_fresh h data w rows Hh Hb) as (S1 & S2 & _ & S4 & _).
  set (w1 := addRow h data w) in *.
  set (row := _buildRowHTML h data (addHourType h w)) in *.
  assert (Hrow : p row = true) by (unfold p, row; apply String.eqb_refl).
  assert (Hf : find_row h w1 = Some row).
  { unfold find_row. rewrite S2. cbn [from_option id]. now apply find_app_last. }
  destruct (removeRow_fields h w1 row Hf) as (R1 & R2 & R3 & _).
  cbv zeta in *.
  destruct (removeHourType_spec h w1) as (T1 & T2 & _ & _ & _ & _ & T7).
  destruct (addHourType_spec h w) as (A1 & A2 & _ & _ & _ & _ & A7).
  cbv zeta in *.
  split; [|split; [|split; [|split]]].
  - rewrite R2, S2. cbn [from_option id]. f_equal. now apply remove_first_app_last.
  - rewrite R1, T1, S1, A1. unfold hasHourType in Hh.
    apply bool_decide_eq_false in Hh.
    rewrite union_then_difference. now apply difference_absent.
  - rewrite R1. exact T2.
  - rewrite R3, T7, S1, S4, A2, A7. cbn [app]. now rewrite <- !app_assoc.
  - unfold removeRow, find_row. rewrite Hb. cbn [from_option id]. fold p.
    now rewrite (find_absent p rows Hp).
Qed.

Lemma removeRow_undoes_addRow_witness :
  entries_body (document (removeRow "Field" (addRow "Field" None sample_grid)))
  = Some sample_rows.
Proof.
  refine (proj1 (removeRow_undoes_addRow sample_grid "Field" None sample_rows
                   eq_refl eq_refl _)).
  intros r [<-|[<-|[]]]; discriminate.
Defined.

(** *** Read-only mode *)

(** The row [setReadOnly(readonly)] leaves in place of [r]. *)
Lemma setReadOnly_rows b w rows :
  entries_body (document w) = Some rows ->
  exists rows',
    entries_body (document (setReadOnly b w)) = Some rows'
    /\ length rows' = length rows
    /\ forall n r', rows' !! n = Some r' ->
         exists r, rows !! n = Some r
           /\ row_id r' = row_id r /\ row_hourType r' = row_hourType r
           /\ row_total r' = row_total r
           /\ (row_removeBtn r' = None <-> row_removeBtn r = None)
           /\ (b = true -> forall d, row_removeBtn r' = Some d -> d = "none")
           /\ List.map in_value (row_inputs r') = List.map in_value (row_inputs r)
           /\ List.map in_day (row_inputs r') = List.map in_day (row_inputs r)
           /\ (forall i, In i (row_inputs r') -> in_readonly i = b).
Proof.
  intros Hb. unfold setReadOnly. rewrite Hb.
  set (f := fun r : EntryRow => _).
  exists (List.map f rows). split.
  - destruct (add_row_controls _); reflexivity.
  - split; [apply length_map|].
    intros n r' Hn. rewrite list_lookup_fmap in Hn.
    destruct (rows !! n) as [r|]; [|discriminate Hn].
    injection Hn as <-. exists r. split; [reflexivity|].
    unfold f. cbn [row_id row_hourType row_total row_removeBtn row_inputs].
    rewrite !map_map. cbn [in_value in_day].
    repeat split.
    + destruct (row_removeBtn r); [discriminate | reflexivity].
    + intros ->. reflexivity.
    + intros -> d. destruct (row_removeBtn r); [|discriminate].
      intros H. now injection H as <-.
    + intros i Hi. apply in_map_iff in Hi as (i0 & <- & _). reflexivity.
Qed.

Lemma row_entry_ext r r' :
  row_hourType r' = row_hourType r ->
  List.map in_value (row_inputs r') = List.map in_value (row_inputs r) ->
  List.map in_day (row_inputs r') = List.map in_day (row_inputs r) ->
  row_entry r' = row_entry r /\ rowTotal r' = rowTotal r.
Proof.
  intros Hh Hv Hd. unfold row_entry, rowTotal. rewrite Hh.
  generalize {| hour_type := row_hourType r; day_fields := ∅ |} as e.
  generalize JS.pos_zero as t.
  revert Hv Hd. generalize (row_inputs r) as l. generalize (row_inputs r') as l'.
  induction l' as [|i' l' IH]; intros [|i l] Hv Hd t e; try discriminate.
  - split; reflexivity.
  - cbn [List.map] in Hv, Hd. injection Hv as Hv0 Hv. injection Hd as Hd0 Hd.
    assert (Hi : input_hours i' = input_hours i)
      by (unfold input_hours; now rewrite Hv0).
    cbn [fold_left]. rewrite Hi, Hd0.
    apply (IH l Hv Hd).
Qed.

(** X6.  [setReadOnly(readonly)] only changes how the rows look: the store,
    the console and the traces stay as they are (nothing is emitted), every
    input of the table gets [readonly] set as asked, and the values, the
    total cells and the entries that [collectEntries] returns are the same
    as before.  After [setReadOnly(true)] the user can no longer type into
    a day, commit a day or remove a row. *)
Theorem setReadOnly_keeps_data (b : bool) (w : World) :
  let w' := setReadOnly b w in
  same_store w' w
  /\ collectEntries w' = collectEntries w
  /\ List.map row_total (default [] (entries_body (document w')))
     = List.map row_total (default [] (entries_body (document w)))
  /\ List.map rowTotal (default [] (entries_body (document w')))
     = List.map rowTotal (default [] (entries_body (document w)))
  /\ (forall r i input, get_input r i w' = Some input -> in_readonly input = b)
  /\ (b = true -> forall r i text,
        user_types r i text w' = w' /\ user_leaves r i w' = w'
        /\ user_clicks_remove r w' = w').
Proof.
  cbv zeta.
  assert (Hs : same_store (setReadOnly b w) w).
  { unfold setReadOnly. destruct (entries_body (document w)); [|now repeat split].
    destruct (add_row_controls _); now repeat split. }
  split; [exact Hs|].
  destruct (entries_body (document w)) as [rows|] eqn:Hb.
  2:{ assert (E : setReadOnly b w = w) by (unfold setReadOnly; now rewrite Hb).
      rewrite E, Hb. repeat split.
      - intros r i input. unfold get_input. rewrite Hb. cbn. now rewrite lookup_nil.
      - unfold user_types, get_input. rewrite Hb. cbn. now rewrite lookup_nil.
      - unfold user_leaves, get_input. rewrite Hb. cbn. now rewrite lookup_nil.
      - unfold user_clicks_remove. rewrite Hb. cbn. now rewrite lookup_nil. }
  destruct (setReadOnly_rows b w rows Hb) as (rows' & Hb' & Hlen & Hrows).
  assert (Hext : forall n r', rows' !! n = Some r' ->
            exists r, rows !! n = Some r /\ row_entry r' = row_entry r
                      /\ rowTotal r' = rowTotal r /\ row_total r' = row_total r).
  { intros n r' Hn. destruct (Hrows n r' Hn) as (r & Hr & _ & Hh & Ht & _ & _ & Hv & Hd & _).
    exists r. split; [exact Hr|].
    destruct (row_entry_ext r r' Hh Hv Hd) as [E1 E2]. now repeat split. }
  assert (Hmap : forall (A : Type) (g : EntryRow -> A),
            (forall n r', rows' !! n = Some r' ->
               exists r, rows !! n = Some r /\ g r' = g r) ->
            List.map g rows' = List.map g rows).
  { intros A g Hg. apply list_eq. intros n.
    change (List.map g rows') with (g <$> rows').
    change (List.map g rows) with (g <$> rows).
    rewrite !list_lookup_fmap.
    destruct (rows' !! n) as [r'|] eqn:En.
    - destruct (Hg n r' En) as (r & -> & E). cbn. now rewrite E.
    - apply lookup_ge_None in En. rewrite Hlen in En.
      apply lookup_ge_None in En. now rewrite En. }
  rewrite Hb'. cbn [from_option id].
  split; [|split; [|split; [|split]]].
  - unfold collectEntries. rewrite Hb', Hb. f_equal. apply Hmap.
    intros n r' Hn. destruct (Hext n r' Hn) as (r & Hr & E & _). now exists r.
  - apply Hmap. intros n r' Hn. destruct (Hext n r' Hn) as (r & Hr & _ & _ & E). now exists r.
  - apply Hmap. intros n r' Hn. destruct (Hext n r' Hn) as (r & Hr & _ & E & _). now exists r.
  - intros r i input. unfold get_input. rewrite Hb'. cbn [from_option id].
    destruct (rows' !! r) as [r'|] eqn:En; [|discriminate].
    intros Hi. destruct (Hrows r r' En) as (r0 & _ & _ & _ & _ & _ & _ & _ & _ & Hro).
    apply Hro. apply list_elem_of_In. eapply list_elem_of_lookup_2. exact Hi.
  - intros -> r i text.
    assert (Hin : forall input, get_input r i (setReadOnly true w) = Some input ->
                    in_readonly input = true).
    { intros input. unfold get_input. rewrite Hb'. cbn [from_option id].
      destruct (rows' !! r) as [r'|] eqn:En; [|discriminate].
      intros Hi. destruct (Hrows r r' En) as (r0 & _ & _ & _ & _ & _ & _ & _ & _ & Hro).
      apply Hro. apply list_elem_of_In. eapply list_elem_of_lookup_2. exact Hi. }
    split; [|split].
    + unfold user_types. rewrite Hb'. cbn [from_option id].
      destruct (rows' !! r) as [r'|]; [|reflexivity].
      destruct (get_input r i (setReadOnly true w)) as [input|] eqn:Ei; [|reflexivity].
      now rewrite (Hin input eq_refl).
    + unfold user_leaves.
      destruct (get_input r i (setReadOnly true w)) as [input|] eqn:Ei; [|reflexivity].
      now rewrite (Hin input eq_refl).
    + unfold user_clicks_remove. rewrite Hb'. cbn [from_option id].
      destruct (rows' !! r) as [r'|] eqn:En; [|reflexivity].
      destruct (Hrows r r' En) as (r0 & _ & _ & _ & _ & _ & Hbtn & _).
      destruct (row_removeBtn r') as [d|]; [|reflexivity].
      now rewrite (Hbtn eq_refl d eq_refl).
Qed.

Lemma setReadOnly_keeps_data_witness :
  user_types 0 1 "9" (setReadOnly true sample_grid) = setReadOnly true sample_grid
  /\ collectEntries (setReadOnly true sample_grid) = collectEntries sample_grid.
Proof.
  destruct (setReadOnly_keeps_data true sample_grid) as (_ & H2 & _ & _ & _ & H6).
  split; [exact (proj1 (H6 eq_refl 0%nat 1%nat "9")) | exact H2].
Defined.

(** *** Clearing the table *)

Lemma filter_all {A} (p : A -> bool) l :
  (forall x, p x = true) -> List.filter p l = l.
Proof.
  intros Hp. induction l as [|x l IH]; [reflexivity|].
  cbn [List.filter]. now rewrite Hp, IH.
Qed.

Lemma clearAll_store w :
  TimesheetState (clearAll w)
  = TimesheetState (set_addedHourTypes (fun _ => ∅) w)
  /\ console (clearAll w) = console w
  /\ emitted (clearAll w) = emitted w
  /\ calls (clearAll w) = calls w
  /\ UserInfo (clearAll w) = UserInfo w
  /\ entries_body (document (clearAll w))
     = match entries_body (document w) with Some _ => Some [] | None => None end.
Proof.
  unfold clearAll, populateSelector.
  destruct w as [st doc con ui du em cs].
  destruct doc as [form body sel ctl cols grand].
  destruct body, sel, ctl; cbn; repeat split; reflexivity.
Qed.

(** X7.  [clearAll()] empties the table and forgets every tracked hour
    type, so [collectEntries] returns nothing and every hour type can be
    added again; it does so silently: no event is emitted, no listener
    runs, the console is not written and the unsaved-changes flag and the
    loaded record stay as they were.  The drop-down, when the page has one,
    is rebuilt to the placeholder followed by every hour type the user may
    pick, none hidden, and the add controls are shown. *)
Theorem clearAll_resets (w : World) :
  let w' := clearAll w in
  (forall h, hasHourType h w' = false)
  /\ collectEntries w' = []
  /\ hasUnsavedChanges (TimesheetState w') = hasUnsavedChanges (TimesheetState w)
  /\ currentTimesheet (TimesheetState w') = currentTimesheet (TimesheetState w)
  /\ _listeners (TimesheetState w') = _listeners (TimesheetState w)
  /\ console w' = console w /\ emitted w' = emitted w /\ calls w' = calls w
  /\ (forall sel, hour_type_selector (document w) = Some sel ->
        exists sel',
          hour_type_selector (document w') = Some sel'
          /\ sel_value sel' = ""
          /\ List.map opt_value (sel_options sel') = "" :: getAvailableHourTypes w
          /\ forall o, In o (sel_options sel') -> opt_hidden o = false)
  /\ (forall d, add_row_controls (document w) = Some d ->
        add_row_controls (document w') = Some "flex")
  /\ (forall rows h data, entries_body (document w) = Some rows ->
        entries_body (document (addRow h data w'))
        = Some [_buildRowHTML h data (addHourType h w')]).
Proof.
  cbv zeta.
  destruct (clearAll_store w) as (Hst & Hcon & Hem & Hcs & Hui & Hbody).
  assert (Hno : forall h, hasHourType h (clearAll w) = false).
  { intros h. unfold hasHourType. rewrite Hst. cbn.
    apply bool_decide_eq_false_2, not_elem_of_empty. }
  split; [exact Hno|].
  split; [unfold collectEntries; rewrite Hbody;
          now destruct (entries_body (document w))|].
  rewrite Hst. do 3 (split; [reflexivity|]).
  do 3 (split; [assumption|]).
  split; [|split].
  - intros sel Hsel.
    set (w1 := match entries_body (document w) with
               | Some _ => set_entries_body [] w | None => w end).
    set (w2 := set_addedHourTypes (fun _ => ∅) w1).
    assert (Hsel2 : hour_type_selector (document w2) = Some sel).
    { unfold w2, w1. now destruct (entries_body (document w)). }
    destruct (populateSelector_options w2 sel Hsel2) as (sel' & Hs' & Hv & Ho & Hh).
    exists sel'. split; [|split; [exact Hv|split; [|exact Hh]]].
    + unfold clearAll. fold w1. fold w2.
      now destruct (add_row_controls (document (populateSelector w2))).
    + rewrite Ho. f_equal.
      assert (Ha : getAvailableHourTypes w2 = getAvailableHourTypes w).
      { unfold w2, w1, getAvailableHourTypes.
        now destruct (entries_body (document w)). }
      rewrite Ha. apply filter_all. intros h.
      unfold hasHourType, w2. cbn.
      rewrite bool_decide_eq_false_2; [reflexivity | apply not_elem_of_empty].
  - intros d Hd. unfold clearAll, populateSelector.
    destruct w as [st doc con ui du em cs].
    destruct doc as [form body sel ctl cols grand]. cbn in Hd. subst ctl.
    destruct body, sel; reflexivity.
  - intros rows h data Hrows.
    assert (Hb : entries_body (document (clearAll w)) = Some []).
    { rewrite Hbody. now rewrite Hrows. }
    destruct (addRow_fresh h data (clearAll w) [] (Hno h) Hb) as (_ & E & _).
    exact E.
Qed.

Lemma clearAll_resets_witness :
  entries_body (document (addRow "Work" None (clearAll sample_grid)))
  = Some [_buildRowHTML "Work" None (addHourType "Work" (clearAll sample_grid))]
  /\ emitted (clearAll sample_grid) = emitted sample_grid.
Proof.
  destruct (clearAll_resets sample_grid) as (_ & _ & _ & _ & _ & _ & He & _ & _ & _ & Ha).
  split; [exact (Ha sample_rows "Work" None eq_refl) | exact He].
Defined.

(** *** Rows built from a record *)

Lemma dayName_days : List.map dayName (seq 0 7) = days.
Proof. reflexivity. Qed.

Lemma fold_left_ext_in {A B} (f g : A -> B -> A) l :
  (forall a x, In x l -> f a x = g a x) ->
  forall a, fold_left f l a = fold_left g l a.
Proof.
  induction l as [|x l IH]; intros H a; [reflexivity|].
  cbn [fold_left]. rewrite (H a x (or_introl eq_refl)).
  apply IH. intros a' y Hy. apply H. now right.
Qed.

Lemma build_input_hours w e i :
  renders_as_number (entry_get e (dayName i)) ->
  input_hours (build_input w (Some e) i)
  = JS.or_zero (parseFloat_value (entry_get e (dayName i))).
Proof.
  unfold renders_as_number, input_hours, build_input, day_text, parseFloat_value.
  cbn [in_value]. generalize (entry_get e (dayName i)) as v. intros v H.
  destruct (value_truthy v) eqn:Ht.
  - now rewrite (H eq_refl).
  - destruct v as [| |n|s]; cbn in Ht.
    + reflexivity.
    + reflexivity.
    + destruct n; try discriminate Ht; reflexivity.
    + destruct s; [reflexivity | discriminate Ht].
Qed.

Lemma build_input_blank w i : input_hours (build_input w None i) = JS.pos_zero.
Proof. reflexivity. Qed.

Lemma week_row_entry r :
  week_row r ->
  forall n d, days !! n = Some d ->
  exists i, row_inputs r !! n = Some i /\ in_day i = d
            /\ entry_get (row_entry r) d = VNum (input_hours i).
Proof.
  unfold week_row, row_entry. intros H.
  destruct (row_inputs r) as [|i0 [|i1 [|i2 [|i3 [|i4 [|i5 [|i6 [|i7 l]]]]]]]];
    try discriminate H.
  injection H as H0 H1 H2 H3 H4 H5 H6.
  cbn [fold_left]. rewrite H0, H1, H2, H3, H4, H5, H6.
  unfold entry_get, entry_set. cbn [day_fields].
  intros n d Hn.
  do 7 (destruct n as [|n];
        [injection Hn as <-; eexists; split; [reflexivity|]; split; [assumption|];
         repeat (rewrite lookup_insert_eq || (rewrite lookup_insert_ne by discriminate));
         reflexivity|]).
  discriminate Hn.
Qed.

Lemma half_hour_value_renders v : half_hour_value v -> renders_as_number v.
Proof.
  intros [->|(k & Hk & ->)] Ht; [discriminate Ht|].
  cbn in Ht. rewrite (truthy_half k Hk) in Ht.
  assert (Hk1 : 1 <= k <= 48).
  { destruct (Z.eqb_spec k 0); [discriminate Ht | lia]. }
  cbn [value_to_string]. now apply sanitize_half.
Qed.

Lemma half_hour_value_hours v :
  half_hour_value v -> quantized (JS.or_zero (parseFloat_value v)).
Proof.
  intros [->|(k & Hk & ->)].
  - exists 0. split; [lia | reflexivity].
  - exists k. split; [exact Hk|].
    unfold parseFloat_value. cbn [value_to_string].
    destruct (Z.eq_dec k 0) as [->|Hne]; [reflexivity|].
    apply toString_roundtrip. lia.
Qed.

Lemma buildRow_week h data w : week_row (_buildRowHTML h data w).
Proof.
  unfold week_row, _buildRowHTML. cbn [row_inputs]. rewrite map_map. reflexivity.
Qed.

Lemma buildRow_hours data w :
  (forall e d, data = Some e -> In d days -> renders_as_number (entry_get e d)) ->
  forall i, In i (seq 0 7) ->
  input_hours (build_input w data i)
  = match data with
    | Some e => JS.or_zero (parseFloat_value (entry_get e (dayName i)))
    | None => JS.pos_zero
    end.
Proof.
  intros Hdata i Hi. destruct data as [e|]; [|apply build_input_blank].
  apply build_input_hours. apply (Hdata e _ eq_refl).
  rewrite <- dayName_days. now apply in_map.
Qed.

Lemma buildRow_total h data w :
  (forall e d, data = Some e -> In d days -> renders_as_number (entry_get e d)) ->
  row_total (_buildRowHTML h data w) = JS.toFixed1 (rowTotal (_buildRowHTML h data w)).
Proof.
  intros Hdata.
  unfold _buildRowHTML, rowTotal. cbn [row_total row_inputs]. f_equal.
  rewrite fold_left_map.
  destruct data as [e|]; [|reflexivity].
  rewrite <- dayName_days, fold_left_map.
  apply fold_left_ext_in. intros a i Hi.
  now rewrite (buildRow_hours (Some e) w Hdata i Hi).
Qed.

Lemma buildRow_entry h data w :
  (forall e d, data = Some e -> In d days -> renders_as_number (entry_get e d)) ->
  forall d, In d days ->
  entry_get (row_entry (_buildRowHTML h data w)) d
  = VNum (match data with
          | Some e => JS.or_zero (parseFloat_value (entry_get e d))
          | None => JS.pos_zero
          end).
Proof.
  intros Hdata d Hd. apply In_nth_error in Hd as (n & Hn).
  assert (Hn' : days !! n = Some d).
  { revert Hn. generalize days. induction n as [|n IH]; intros [|x l]; cbn;
      try discriminate; [tauto | apply IH]. }
  destruct (week_row_entry _ (buildRow_week h data w) n d Hn') as (i & Hi & _ & ->).
  f_equal. unfold _buildRowHTML in Hi. cbn [row_inputs] in Hi.
  change (List.map (build_input w data) (seq 0 7))
    with (build_input w data <$> seq 0 7) in Hi.
  rewrite list_lookup_fmap in Hi.
  destruct (seq 0 7 !! n) as [j|] eqn:Ej; [|discriminate Hi].
  injection Hi as <-.
  assert (Hj : In j (seq 0 7)).
  { apply list_elem_of_In. eapply list_elem_of_lookup_2. exact Ej. }
  rewrite (buildRow_hours data w Hdata j Hj).
  assert (Hd' : dayName j = d).
  { assert (E : (dayName <$> seq 0 7) !! n = Some (dayName j))
      by (rewrite list_lookup_fmap, Ej; reflexivity).
    change (dayName <$> seq 0 7) with days in E. congruence. }
  now rewrite Hd'.
Qed.

(** X8.  Let the hour type, the dates and the day values that
    [_buildRowHTML] splices into the markup be plain text.  The row it
    builds has one input per day, Sunday to Saturday.  When every day value
    of the record is rendered as a text the number input keeps (a valid
    floating-point number that reads as a finite number), each input counts
    for the hours the record holds for its day (0 for a falsy or absent
    value), the total cell agrees with the inputs, and the entry that
    [collectEntries] reads back from the row holds, for every day, that
    number of hours under the hour type of the row. *)
Theorem buildRow_round_trip (h : string) (data : option Entry) (w : World) :
  plain_splices h data w = true ->
  (forall e d, data = Some e -> In d days -> renders_as_number (entry_get e d)) ->
  let row := _buildRowHTML h data w in
  week_row row
  /\ row_id row = "row-" ++ h /\ row_hourType row = h
  /\ row_total row = JS.toFixed1 (rowTotal row)
  /\ hour_type (row_entry row) = h
  /\ forall d, In d days ->
       entry_get (row_entry row) d
       = VNum (match data with
               | Some e => JS.or_zero (parseFloat_value (entry_get e d))
               | None => JS.pos_zero
               end).
Proof.
  intros _ Hdata row.
  pose proof (buildRow_week h data w) as Hweek. fold row in Hweek.
  split; [exact Hweek|]. split; [reflexivity|]. split; [reflexivity|].
  split; [apply (buildRow_total h data w Hdata)|].
  split; [apply row_entry_hour_type|].
  apply (buildRow_entry h data w Hdata).
Qed.

Lemma buildRow_round_trip_witness :
  entry_get (row_entry (_buildRowHTML "Training" (Some training_entry) start)) "fri"
  = VNum (JS.of_Z 4).
Proof.
  assert (H : forall e d, Some training_entry = Some e -> In d days ->
                renders_as_number (entry_get e d)).
  { intros e d [= <-] Hd Ht.
    cbn in Hd.
    destruct Hd as [<-|[<-|[<-|[<-|[<-|[<-|[<-|[]]]]]]]]; vm_compute in Ht |- *;
      first [reflexivity | discriminate Ht]. }
  destruct (buildRow_round_trip "Training" (Some training_entry) start eq_refl H)
    as (_ & _ & _ & _ & _ & Hd).
  exact (Hd "fri" ltac:(cbn; tauto)).
Defined.

(** A day value whose text only starts with a number, or reads as an
    infinity, is counted by the total cell but not by the input, which the
    browser empties. *)
Lemma buildRow_total_disagrees :
  let data v := {| hour_type := "Work"; day_fields := <["mon" := VStr v]> ∅ |} in
  let row v := _buildRowHTML "Work" (Some (data v)) start in
  (row_total (row "8h") = "8.0" /\ JS.toFixed1 (rowTotal (row "8h")) = "0.0")
  /\ (row_total (row "1e400") = "Infinity"
      /\ JS.toFixed1 (rowTotal (row "1e400")) = "0.0").
Proof. vm_compute. repeat split. Qed.

(** *** The table invariant *)

Lemma grid_ok_app rows row :
  grid_ok rows ->
  week_row row -> row_total row = JS.toFixed1 (rowTotal row) ->
  (forall i, In i (row_inputs row) -> quantized (input_hours i)) ->
  grid_ok (rows ++ [row]).
Proof.
  intros Hg Hw Ht Hq r Hr. apply in_app_or in Hr as [Hr|[<-|[]]].
  - now apply Hg.
  - now repeat split.
Qed.

(** X9.  [addRow] keeps the table in the state that the totals rely on:
    when the rows satisfy [grid_ok], the hour type is not yet tracked, the
    hour type and the dates spliced into the markup are plain text and
    every day value of the data is absent or a number of half hours between
    0 and 24 hours, the table gains one row for the hour type, placed last,
    and satisfies [grid_ok] again.  The row then collects to the hours of
    the data. *)
Theorem addRow_keeps_grid (h : string) (data : option Entry) (w : World)
    (rows : list EntryRow) :
  entries_body (document w) = Some rows ->
  hasHourType h w = false ->
  grid_ok rows ->
  plain_splices h data (addHourType h w) = true ->
  (forall e d, data = Some e -> In d days -> half_hour_value (entry_get e d)) ->
  exists row,
    entries_body (document (addRow h data w)) = Some (rows ++ [row])%list
    /\ row_hourType row = h
    /\ grid_ok (rows ++ [row])
    /\ forall e d, data = Some e -> In d days ->
         entry_get e d = VUndefined /\ entry_get (row_entry row) d = VNum JS.pos_zero
         \/ entry_get (row_entry row) d = entry_get e d.
Proof.
  intros Hb Hfresh Hg _ Hdata.
  destruct (addRow_fresh h data w rows Hfresh Hb) as (_ & Hrows & _).
  set (w1 := addHourType h w) in *.
  set (row := _buildRowHTML h data w1) in *.
  assert (Hren : forall e d, data = Some e -> In d days ->
            renders_as_number (entry_get e d)).
  { intros e d He Hd. apply half_hour_value_renders. now apply (Hdata e d). }
  pose proof (buildRow_week h data w1) as Hweek. fold row in Hweek.
  assert (Hq : forall i, In i (row_inputs row) -> quantized (input_hours i)).
  { intros i Hi. unfold row, _buildRowHTML in Hi. cbn [row_inputs] in Hi.
    apply in_map_iff in Hi as (j & <- & Hj).
    rewrite (buildRow_hours data w1 Hren j Hj).
    destruct data as [e|].
    - apply half_hour_value_hours. apply (Hdata e _ eq_refl).
      rewrite <- dayName_days. now apply in_map.
    - exists 0. split; [lia | reflexivity]. }
  exists row. split; [exact Hrows|]. split; [reflexivity|].
  split; [apply grid_ok_app; [exact Hg | exact Hweek | | exact Hq];
          apply (buildRow_total h data w1 Hren)|].
  intros e d -> Hd.
  assert (Hget : entry_get (row_entry row) d
                 = VNum (JS.or_zero (parseFloat_value (entry_get e d)))).
  { apply (buildRow_entry h (Some e) w1 Hren d Hd). }
  rewrite Hget.
  destruct (Hdata e d eq_refl Hd) as [E|(k & Hk & E)]; rewrite E.
  - left. split; reflexivity.
  - right. f_equal. unfold parseFloat_value. cbn [value_to_string].
    destruct (Z.eq_dec k 0) as [->|Hne]; [reflexivity|].
    apply toString_roundtrip. lia.
Qed.

Lemma addRow_keeps_grid_witness :
  exists row,
    entries_body (document (addRow "Work" (Some work_entry) start)) = Some ([] ++ [row])%list
    /\ grid_ok ([] ++ [row]).
Proof.
  destruct (addRow_keeps_grid "Work" (Some work_entry) start [] eq_refl eq_refl)
    as (row & H1 & _ & H3 & _).
  - intros r [].
  - reflexivity.
  - intros e d [= <-] Hd. cbn in Hd.
    destruct Hd as [<-|[<-|[<-|[<-|[<-|[<-|[<-|[]]]]]]]];
      first [left; reflexivity | right; exists 16; split; [lia | reflexivity]].
  - exists row. split; assumption.
Defined.

(** *** Leaving an input *)

Lemma set_input_value_rows r i v w rows :
  entries_body (document w) = Some rows ->
  exists rows',
    entries_body (document (set_input_value r i v w)) = Some rows'
    /\ length rows' = length rows
    /\ List.map row_total rows' = List.map row_total rows
    /\ List.map row_id rows' = List.map row_id rows
    /\ List.map row_hourType rows' = List.map row_hourType rows
    /\ (forall n, n <> r -> rows' !! n = rows !! n)
    /\ (forall row, rows !! r = Some row ->
          exists row', rows' !! r = Some row'
            /\ row_id row' = row_id row /\ row_hourType row' = row_hourType row
            /\ row_total row' = row_total row
            /\ row_removeBtn row' = row_removeBtn row
            /\ row_inputs row' = alter (set_value v) i (row_inputs row)).
Proof.
  intros Hb. unfold set_input_value. rewrite Hb.
  set (f := fun row : EntryRow => _).
  exists (alter f r rows). split; [reflexivity|].
  split; [apply length_alter|].
  assert (Hmap : forall (A : Type) (g : EntryRow -> A),
            (forall x, g (f x) = g x) ->
            List.map g (alter f r rows) = List.map g rows).
  { intros A g Hg. apply list_eq. intros n.
    change (List.map g (alter f r rows)) with (g <$> alter f r rows).
    change (List.map g rows) with (g <$> rows).
    rewrite !list_lookup_fmap.
    destruct (Nat.eq_dec n r) as [->|Hn].
    - rewrite list_lookup_alter_eq. destruct (rows !! r); cbn; [f_equal; apply Hg | reflexivity].
    - now rewrite list_lookup_alter_ne by congruence. }
  split; [now apply Hmap|]. split; [now apply Hmap|]. split; [now apply Hmap|].
  split.
  - intros n Hn. now rewrite list_lookup_alter_ne by congruence.
  - intros row Hr. exists (f row). rewrite list_lookup_alter_eq, Hr.
    now repeat split.
Qed.

Lemma set_input_value_fields r i v w :
  let w' := set_input_value r i v w in
  same_store w' w
  /\ UserInfo w' = UserInfo w /\ DateUtils w' = DateUtils w
  /\ col_totals (document w') = col_totals (document w)
  /\ grand_total (document w') = grand_total (document w)
  /\ hour_type_selector (document w') = hour_type_selector (document w)
  /\ add_row_controls (document w') = add_row_controls (document w).
Proof.
  unfold set_input_value. destruct (entries_body (document w));
    now repeat split.
Qed.

(** X10.  The ['change'] listener rewrites the text of its own input and
    nothing else: no other input changes, the row totals, the column totals
    and the grand total keep the text they had, the store stays as it was
    (so the form is not marked as changed by the correction), no event is
    emitted and the console is not written. *)
Theorem on_change_only_value (r i : nat) (w : World) :
  let w' := on_change r i w in
  same_store w' w
  /\ col_totals (document w') = col_totals (document w)
  /\ grand_total (document w') = grand_total (document w)
  /\ List.map row_total (default [] (entries_body (document w')))
     = List.map row_total (default [] (entries_body (document w)))
  /\ List.map row_hourType (default [] (entries_body (document w')))
     = List.map row_hourType (default [] (entries_body (document w)))
  /\ (forall r' i', (r', i') <> (r, i) -> get_input r' i' w' = get_input r' i' w)
  /\ (forall input, get_input r i w = Some input ->
        get_input r i w' = Some (set_value (commit (in_value input)) input)).
Proof.
  cbv zeta.
  destruct (get_input r i w) as [input|] eqn:Hin.
  2:{ assert (E : on_change r i w = w) by (unfold on_change; now rewrite Hin).
      rewrite E. repeat split; discriminate. }
  assert (E : on_change r i w = set_input_value r i (commit (in_value input)) w)
    by (unfold on_change; now rewrite Hin).
  destruct (set_input_value_fields r i (commit (in_value input)) w)
    as (Hs & _ & _ & Hc & Hg & _ & _).
  rewrite <- E in Hs, Hc, Hg.
  split; [exact Hs|]. split; [exact Hc|]. split; [exact Hg|].
  destruct (entries_body (document w)) as [rows|] eqn:Hb.
  2:{ unfold get_input in Hin. rewrite Hb in Hin. cbn in Hin.
      rewrite lookup_nil in Hin. discriminate Hin. }
  destruct (set_input_value_rows r i (commit (in_value input)) w rows Hb)
    as (rows' & Hb' & _ & Ht & _ & Hh & Hother & Hrow).
  rewrite <- E in Hb'. rewrite Hb'. cbn [from_option id].
  split; [exact Ht|]. split; [exact Hh|]. split.
  - intros r' i' Hne. unfold get_input. rewrite Hb', Hb. cbn [from_option id].
    destruct (Nat.eq_dec r' r) as [->|Hr]; [|now rewrite (Hother r' Hr)].
    destruct (rows !! r) as [row|] eqn:Er.
    + destruct (Hrow row eq_refl) as (row' & -> & _ & _ & _ & _ & ->).
      apply list_lookup_alter_ne. congruence.
    + unfold get_input in Hin. rewrite Hb in Hin. cbn [from_option id] in Hin.
      rewrite Er in Hin. discriminate Hin.
  - intros input0 [= <-]. now apply get_input_on_change.
Qed.

(** After "7.3" is typed into Monday and the input is left, the input reads
    7.5 while the row total and the grand total still read 7.3. *)
Lemma on_change_stale_totals :
  let w := user_leaves 0 1 (user_types 0 1 "7.3" (addRow "Work" None start)) in
  option_map in_value (get_input 0 1 w) = Some "7.5"
  /\ List.map row_total (default [] (entries_body (document w))) = ["7.3"]
  /\ grand_total (document w) = Some "7.3".
Proof. vm_compute. repeat split. Qed.

Lemma on_change_only_value_witness :
  get_input 0 0 (on_change 0 1 sample_grid) = get_input 0 0 sample_grid.
Proof.
  destruct (on_change_only_value 0 1 sample_grid) as (_ & _ & _ & _ & _ & H & _).
  apply H. intros E. discriminate E.
Defined.

(** *** Refreshing the totals *)

Lemma first_match {A} (p : A -> bool) (l : list A) :
  forall n x, l !! n = Some x -> p x = true ->
  (forall m y, (m < n)%nat -> l !! m = Some y -> p y = false) ->
  List.find p l = Some x /\ forall g, update_first p g l = <[n := g x]> l.
Proof.
  induction l as [|a l IH]; intros n x Hn Hx Hfirst; [discriminate Hn|].
  destruct n as [|n].
  - injection Hn as ->. cbn. rewrite Hx. split; reflexivity.
  - cbn in Hn. cbn. rewrite (Hfirst 0%nat a ltac:(lia) eq_refl).
    destruct (IH n x Hn Hx) as [Hf Hu].
    { intros m y Hm Hy. apply (Hfirst (S m) y); [lia | exact Hy]. }
    split; [exact Hf|]. intros g. now rewrite Hu.
Qed.

Lemma no_match {A} (p : A -> bool) (l : list A) :
  (forall x, In x l -> p x = false) -> List.find p l = None.
Proof.
  induction l as [|a l IH]; intros H; [reflexivity|].
  cbn. rewrite (H a (or_introl eq_refl)). apply IH. intros x Hx. apply H. now right.
Qed.

Lemma columnTotal_inputs d rows rows' :
  List.map row_inputs rows' = List.map row_inputs rows ->
  columnTotal d rows' = columnTotal d rows.
Proof. unfold columnTotal, day_inputs. now intros ->. Qed.

Lemma refreshed_totals w rows :
  entries_body (document w) = Some rows ->
  let w' := updateGrandTotal (updateColumnTotals w) in
  same_store w' w
  /\ UserInfo w' = UserInfo w /\ DateUtils w' = DateUtils w
  /\ entries_body (document w') = Some rows
  /\ (forall d, In d days -> is_Some (col_totals (document w) !! d) ->
        col_totals (document w') !! d = Some (JS.toFixed1 (columnTotal d rows)))
  /\ (forall d, col_totals (document w) !! d = None ->
        col_totals (document w') !! d = None)
  /\ (is_Some (grand_total (document w)) ->
        grand_total (document w') = Some (JS.toFixed1 (grandTotal rows)))
  /\ (grand_total (document w) = None -> grand_total (document w') = None).
Proof.
  intros Hb.
  destruct (updateColumnTotals_fields w) as ((A1 & A2 & A3 & A4) & B & C & D & E & _).
  destruct (updateGrandTotal_fields (updateColumnTotals w))
    as ((A1' & A2' & A3' & A4') & B' & C' & D' & E' & _).
  cbv zeta.
  split; [repeat split; congruence|].
  split; [congruence|]. split; [congruence|]. split; [congruence|].
  split; [|split; [|split]].
  - intros d Hd Hs. rewrite E'. unfold updateColumnTotals. rewrite Hb.
    apply updateColumnTotals_cell; [exact Hb | right; now split].
  - intros d Hd. rewrite E'. unfold updateColumnTotals. rewrite Hb.
    revert Hd. generalize days as ds. intros ds. clear. revert w.
    induction ds as [|d0 ds IH]; intros w Hd; [exact Hd|].
    cbn [fold_left]. apply IH.
    destruct (col_totals (document w) !! d0) eqn:E0; [|exact Hd].
    cbn. rewrite lookup_insert_ne; [exact Hd | congruence].
  - intros [g Hg]. unfold updateGrandTotal. rewrite D, Hb, E, Hg.
    reflexivity.
  - intros Hg. unfold updateGrandTotal. rewrite D, Hb, E, Hg. now rewrite E.
Qed.

Lemma updateRowTotal_found h w rows n row :
  entries_body (document w) = Some rows ->
  rows !! n = Some row -> row_id row = "row-" ++ h ->
  (forall m y, (m < n)%nat -> rows !! m = Some y -> row_id y <> "row-" ++ h) ->
  let w' := updateRowTotal h w in
  let rows' := <[n := set_row_total (JS.toFixed1 (rowTotal row)) row]> rows in
  entries_body (document w') = Some rows'
  /\ List.map row_inputs rows' = List.map row_inputs rows
  /\ same_store w' w
  /\ (UserInfo w' = UserInfo w /\ DateUtils w' = DateUtils w)
  /\ (forall d, In d days -> is_Some (col_totals (document w) !! d) ->
        col_totals (document w') !! d = Some (JS.toFixed1 (columnTotal d rows)))
  /\ (is_Some (grand_total (document w)) ->
        grand_total (document w') = Some (JS.toFixed1 (grandTotal rows'))).
Proof.
  intros Hb Hn Hid Hfirst w' rows'.
  set (p := fun r : EntryRow => String.eqb (row_id r) ("row-" ++ h)).
  destruct (first_match p rows n row Hn) as [Hfind Hupd].
  { unfold p. now apply String.eqb_eq. }
  { intros m y Hm Hy. unfold p. apply String.eqb_neq. now apply (Hfirst m y). }
  assert (Hw' : w' = updateGrandTotal (updateColumnTotals (set_entries_body rows' w))).
  { unfold w', updateRowTotal, find_row. rewrite Hb. cbn [from_option id].
    fold p. rewrite Hfind, Hupd. reflexivity. }
  assert (Hin : List.map row_inputs rows' = List.map row_inputs rows).
  { unfold rows'. apply list_eq. intros m.
    change (List.map row_inputs ?l) with (row_inputs <$> l).
    rewrite !list_lookup_fmap.
    destruct (Nat.eq_dec m n) as [->|Hm].
    - rewrite list_lookup_insert_eq by (eapply lookup_lt_Some; exact Hn).
      now rewrite Hn.
    - now rewrite list_lookup_insert_ne by congruence. }
  destruct (refreshed_totals (set_entries_body rows' w) rows' eq_refl)
    as (Hs & Hu & Hd & Hb' & Hc & _ & Hg & _).
  rewrite <- Hw' in Hs, Hu, Hd, Hb', Hc, Hg.
  split; [exact Hb'|]. split; [exact Hin|].
  split; [destruct Hs as (? & ? & ? & ?); now repeat split|].
  split; [split; [exact Hu | exact Hd]|].
  split.
  - intros d Hd0 Hsome. rewrite <- (columnTotal_inputs d rows rows' Hin).
    now apply Hc.
  - exact Hg.
Qed.

(** X11.  [updateRowTotal(hourType)] refreshes the cells and nothing else.
    When no row has the id of the hour type, nothing at all is updated,
    the column totals and the grand total included.  Otherwise the first
    row with that id gets the total of its inputs written into its total
    cell, no input and no other row changes, every column total cell of the
    page shows the total of its day and the grand total cell shows the sum
    read from the row total cells; the store, the console and the traces
    are untouched. *)
Theorem updateRowTotal_refreshes (h : string) (w : World) (rows : list EntryRow) :
  entries_body (document w) = Some rows ->
  ((forall r, In r rows -> row_id r <> "row-" ++ h) -> updateRowTotal h w = w)
  /\ (forall n row,
        rows !! n = Some row -> row_id row = "row-" ++ h ->
        (forall m y, (m < n)%nat -> rows !! m = Some y -> row_id y <> "row-" ++ h) ->
        let w' := updateRowTotal h w in
        let rows' := <[n := set_row_total (JS.toFixed1 (rowTotal row)) row]> rows in
        entries_body (document w') = Some rows'
        /\ List.map row_inputs rows' = List.map row_inputs rows
        /\ same_store w' w
        /\ (forall d, In d days -> is_Some (col_totals (document w) !! d) ->
              col_totals (document w') !! d = Some (JS.toFixed1 (columnTotal d rows)))
        /\ (is_Some (grand_total (document w)) ->
              grand_total (document w') = Some (JS.toFixed1 (grandTotal rows')))).
Proof.
  intros Hb. split.
  - intros Hnone. unfold updateRowTotal, find_row. rewrite Hb. cbn [from_option id].
    rewrite no_match; [reflexivity|].
    intros x Hx. apply String.eqb_neq. now apply Hnone.
  - intros n row Hn Hid Hfirst.
    destruct (updateRowTotal_found h w rows n row Hb Hn Hid Hfirst)
      as (H1 & H2 & H3 & _ & H5 & H6).
    cbv zeta. split; [exact H1|]. split; [exact H2|]. split; [exact H3|].
    split; [exact H5 | exact H6].
Qed.

Lemma updateRowTotal_refreshes_witness :
  updateRowTotal "Field" sample_grid = sample_grid.
Proof.
  apply (proj1 (updateRowTotal_refreshes "Field" sample_grid sample_rows eq_refl)).
  intros r [<-|[<-|[]]]; discriminate.
Defined.

(** *** Typing into an input *)

(** X12.  Typing into an input that is not read-only keeps what the page
    shows current.  For the input at position [i] of the row at position
    [r], when the row carries the id of its hour type and is the first row
    with that id: the typed text (sanitised as the browser does for a
    number input) is the value of that input, the row's total cell is the
    total of the row's inputs, no other row changes, every column total
    cell of the page and the grand total cell are recomputed from the new
    table, the form is marked as changed, and ['changed'] is emitted only
    if the form was not marked before. *)
Theorem typing_refreshes_totals (r i : nat) (text : string) (w : World)
    (rows : list EntryRow) (row : EntryRow) (input : HourInput) :
  entries_body (document w) = Some rows ->
  rows !! r = Some row ->
  row_inputs row !! i = Some input ->
  in_readonly input = false ->
  row_id row = "row-" ++ row_hourType row ->
  (forall m y, (m < r)%nat -> rows !! m = Some y -> row_id y <> row_id row) ->
  let w' := user_types r i text w in
  exists row',
    entries_body (document w') = Some (<[r := row']> rows)
    /\ row_inputs row' = <[i := set_value text input]> (row_inputs row)
    /\ row_total row' = JS.toFixed1 (rowTotal row')
    /\ row_id row' = row_id row /\ row_hourType row' = row_hourType row
    /\ hasUnsavedChanges (TimesheetState w') = true
    /\ emitted w'
       = (emitted w ++
          if hasUnsavedChanges (TimesheetState w) then [] else [EvChanged true])%list
    /\ (forall d, In d days -> is_Some (col_totals (document w) !! d) ->
          col_totals (document w') !! d
          = Some (JS.toFixed1 (columnTotal d (<[r := row']> rows))))
    /\ (is_Some (grand_total (document w)) ->
          grand_total (document w')
          = Some (JS.toFixed1 (grandTotal (<[r := row']> rows)))).
Proof.
  intros Hb Hr Hi Hro Hid Hfirst w'.
  assert (Hget : get_input r i w = Some input).
  { unfold get_input. rewrite Hb. cbn [from_option id]. now rewrite Hr. }
  set (w0 := set_input_value r i text w).
  set (h := row_hourType row).
  assert (Hw' : w' = on_input h r i w0).
  { unfold w', user_types. rewrite Hb. cbn [from_option id].
    now rewrite Hr, Hget, Hro. }
  destruct (set_input_value_rows r i text w rows Hb)
    as (rows0 & Hb0 & Hlen0 & _ & Hids & _ & Hother & Hrow).
  destruct (Hrow row Hr) as (row0 & Hr0 & Hid0 & Hh0 & _ & _ & Hin0).
  fold w0 in Hb0.
  assert (Hrows0 : rows0 = <[r := row0]> rows).
  { apply list_eq. intros m. destruct (Nat.eq_dec m r) as [->|Hm].
    - rewrite list_lookup_insert_eq by (eapply lookup_lt_Some; exact Hr). exact Hr0.
    - rewrite list_lookup_insert_ne by congruence. now apply Hother. }
  assert (Hfirst0 : forall m y, (m < r)%nat -> rows0 !! m = Some y ->
                      row_id y <> "row-" ++ h).
  { intros m y Hm Hy. rewrite Hother in Hy by lia.
    unfold h. rewrite <- Hid. now apply (Hfirst m y). }
  assert (Hid0' : row_id row0 = "row-" ++ h) by (rewrite Hid0; exact Hid).
  destruct (updateRowTotal_found h w0 rows0 r row0 Hb0 Hr0 Hid0' Hfirst0)
    as (Hb1 & _ & (Hst1 & _ & Hem1 & _) & _ & Hc1 & Hg1).
  set (w1 := updateRowTotal h w0) in *.
  set (row' := set_row_total (JS.toFixed1 (rowTotal row0)) row0) in *.
  assert (Hrows1 : <[r := row']> rows0 = <[r := row']> rows).
  { rewrite Hrows0. apply list_insert_insert_eq. }
  rewrite Hrows1 in Hb1, Hg1.
  destruct (set_input_value_fields r i text w)
    as ((Hst0 & _ & Hem0 & _) & _ & _ & Hc0 & Hg0 & _).
  fold w0 in Hst0, Hem0, Hc0, Hg0.
  destruct (markChanged_spec w1) as (Hd2 & _ & _ & _ & Hdoc2 & _ & Hem2).
  set (w2 := markChanged w1) in *.
  assert (Hfin : TimesheetState w' = TimesheetState w2 /\ document w' = document w2
                 /\ emitted w' = emitted w2).
  { rewrite Hw'. unfold on_input. fold w1. fold w2.
    destruct (get_input r i w2) as [inp|]; [|now repeat split].
    destruct (_checkHolidayInput_fields inp w2) as (A & B & C & _). now repeat split. }
  destruct Hfin as (Hst3 & Hdoc3 & Hem3).
  exists row'. rewrite Hst3, Hdoc3, Hem3, Hdoc2.
  split; [exact Hb1|].
  split.
  { unfold row'. cbn [set_row_total row_inputs]. rewrite Hin0.
    clear -Hi. revert i Hi. generalize (row_inputs row).
    induction l as [|a l IH]; intros [|i] Hi; try discriminate Hi.
    - injection Hi as ->. reflexivity.
    - cbn. f_equal. now apply IH. }
  split; [reflexivity|].
  split; [exact Hid0|]. split; [exact Hh0|].
  split; [exact Hd2|].
  split; [rewrite Hem2, Hem1, Hem0, Hst1, Hst0; reflexivity|].
  split.
  - intros d Hd Hs. rewrite <- Hc0 in Hs. rewrite (Hc1 d Hd Hs).
    do 2 f_equal. apply columnTotal_inputs.
    rewrite Hrows0. apply list_eq. intros m.
    change (List.map row_inputs ?l) with (row_inputs <$> l).
    rewrite !list_lookup_fmap.
    destruct (Nat.eq_dec m r) as [->|Hm].
    + rewrite !list_lookup_insert_eq by (eapply lookup_lt_Some; exact Hr).
      reflexivity.
    + now rewrite !list_lookup_insert_ne by congruence.
  - intros Hs. rewrite <- Hg0 in Hs. exact (Hg1 Hs).
Qed.

(** A typed text that is a valid number but reads as an infinity is not
    kept by the input: the value is empty and the totals count 0 for it. *)
Lemma typing_overflow_is_dropped :
  let w := user_types 0 1 "1e400" (addRow "Work" None start) in
  option_map in_value (get_input 0 1 w) = Some ""
  /\ List.map row_total (default [] (entries_body (document w))) = ["0.0"]
  /\ grand_total (document w) = Some "0.0".
Proof. vm_compute. repeat split. Qed.

Lemma typing_refreshes_totals_witness :
  exists row',
    entries_body (document (user_types 0 1 "7.3" sample_grid))
    = Some (<[0%nat := row']> sample_rows)
    /\ row_total row' = JS.toFixed1 (rowTotal row').
Proof.
  destruct (typing_refreshes_totals 0 1 "7.3" sample_grid sample_rows
              (_buildRowHTML "Work" (Some work_entry) start)
              (build_input start (Some work_entry) 1)
              eq_refl eq_refl eq_refl eq_refl eq_refl)
    as (row' & H1 & _ & H3 & _).
  - intros m y Hm. lia.
  - exists row'. split; assumption.
Defined.

(** *** Field hours *)

Lemma gt_half k : 0 <= k < 2 ^ 53 -> JS.gt (JS.half k) JS.pos_zero = (0 <? k).
Proof.
  intros Hk. destruct (Z.eq_dec k 0) as [->|Hne]; [reflexivity|].
  destruct (half_repr k) as (q & E & _ & ->); [lia|].
  destruct (Z.ltb_spec 0 k); [reflexivity | lia].
Qed.

Lemma zsum_pos {A} (u : A -> Z) (l : list A) :
  (forall x, In x l -> 0 <= u x) ->
  (0 <? zsum u l) = existsb (fun x => 0 <? u x) l.
Proof.
  induction l as [|a l IH]; intros H; [reflexivity|].
  cbn [zsum fold_right existsb]. fold (zsum u l).
  pose proof (H a (or_introl eq_refl)) as Ha.
  pose proof (zsum_nonneg u l (fun x Hx => H x (or_intror Hx))) as Hl.
  rewrite <- IH by (intros x Hx; apply H; now right).
  destruct (Z.ltb_spec 0 (u a)), (Z.ltb_spec 0 (zsum u l)), (Z.ltb_spec 0 (u a + zsum u l));
    cbn; try reflexivity; lia.
Qed.

Lemma rowTotal_positive row :
  week_row row ->
  (forall i, In i (row_inputs row) -> quantized (input_hours i)) ->
  JS.gt (rowTotal row) JS.pos_zero = hasHours (row_entry row).
Proof.
  intros Hweek Hq.
  assert (Hw1 : forall r, In r [row] -> week_row r) by (intros r [<-|[]]; exact Hweek).
  assert (Hq1 : forall r i, In r [row] -> In i (row_inputs r) -> quantized (input_hours i))
    by (intros r i [<-|[]]; apply Hq).
  rewrite (rowTotal_half [row] Hw1 Hq1 row (or_introl eq_refl)).
  pose proof (row_units_bounds [row] Hw1 Hq1 row (or_introl eq_refl)) as Hb.
  rewrite gt_half by lia.
  rewrite (row_entry_hasHours row Hweek). unfold row_units.
  rewrite zsum_pos by (intros i Hi; apply (quantized_units i (Hq i Hi))).
  clear Hb Hw1 Hq1 Hweek.
  induction (row_inputs row) as [|a l IH]; [reflexivity|].
  cbn [existsb]. rewrite IH by (intros i Hi; apply Hq; now right).
  destruct (quantized_units a (Hq a (or_introl eq_refl))) as [E Hb].
  rewrite E. now rewrite gt_half by lia.
Qed.

(** X13.  [hasFieldHours()] and [collectEntries()] agree on a Field row that
    holds one input per day with half hours between 0 and 24: when 'Field'
    is tracked, [hasFieldHours()] is true exactly when the entry of the
    first row with id [row-Field] is among the collected entries.  It is
    false whenever 'Field' is not tracked or the table has no such row,
    whatever the inputs hold. *)
Theorem hasFieldHours_collect (w : World) (rows : list EntryRow) :
  entries_body (document w) = Some rows ->
  (hasHourType "Field" w = false -> hasFieldHours w = false)
  /\ ((forall r, In r rows -> row_id r <> "row-Field") -> hasFieldHours w = false)
  /\ (forall n row,
        rows !! n = Some row -> row_id row = "row-Field" ->
        (forall m y, (m < n)%nat -> rows !! m = Some y -> row_id y <> "row-Field") ->
        week_row row ->
        (forall i, In i (row_inputs row) -> quantized (input_hours i)) ->
        hasHourType "Field" w = true ->
        (hasFieldHours w = true <-> In (row_entry row) (collectEntries w))).
Proof.
  intros Hb.
  set (p := fun r : EntryRow => String.eqb (row_id r) ("row-" ++ "Field")).
  split; [|split].
  - intros H. unfold hasFieldHours. now rewrite H.
  - intros Hnone. unfold hasFieldHours, find_row. rewrite Hb. cbn [from_option id].
    fold p. rewrite (no_match p rows).
    + now destruct (negb (hasHourType "Field" w)).
    + intros x Hx. unfold p. apply String.eqb_neq. now apply Hnone.
  - intros n row Hn Hid Hfirst Hweek Hq Htracked.
    destruct (first_match p rows n row Hn) as [Hfind _].
    { unfold p. now apply String.eqb_eq. }
    { intros m y Hm Hy. unfold p. apply String.eqb_neq. now apply (Hfirst m y). }
    assert (E : hasFieldHours w = hasHours (row_entry row)).
    { unfold hasFieldHours, find_row. rewrite Htracked, Hb. cbn [negb from_option id].
      fold p. rewrite Hfind. now apply rowTotal_positive. }
    rewrite E. unfold collectEntries. rewrite Hb, filter_In.
    split; [|tauto]. intros H. split; [|exact H].
    apply in_map. apply list_elem_of_In. eapply list_elem_of_lookup_2. exact Hn.
Qed.

Lemma hasFieldHours_collect_witness :
  let w := addRow "Field" (Some {| hour_type := "Field";
                                   day_fields := <["mon" := VNum (JS.of_Z 8)]> ∅ |}) start in
  hasFieldHours w = true
  <-> In (row_entry (_buildRowHTML "Field"
                       (Some {| hour_type := "Field";
                                day_fields := <["mon" := VNum (JS.of_Z 8)]> ∅ |})
                       (addHourType "Field" start)))
         (collectEntries w).
Proof.
  cbv zeta.
  set (e := {| hour_type := "Field"; day_fields := <["mon" := VNum (JS.of_Z 8)]> ∅ |}).
  apply (proj2 (proj2 (hasFieldHours_collect (addRow "Field" (Some e) start)
                         [_buildRowHTML "Field" (Some e) (addHourType "Field" start)]
                         eq_refl)) 0%nat).
  - reflexivity.
  - reflexivity.
  - intros m y Hm. lia.
  - reflexivity.
  - intros i Hi. cbn in Hi.
    destruct Hi as [<-|[<-|[<-|[<-|[<-|[<-|[<-|[]]]]]]]];
      first [ exists 0; split; [lia | reflexivity]
            | exists 16; split; [lia | reflexivity] ].
  - reflexivity.
Defined.

(** *** A new session over an old table *)

(** X14.  [init] resets the store but not the page: the document, and with
    it the rows of the table and the entries that [collectEntries] returns,
    are those from before the call; the cached references tell whether the
    page has the form and the table body.  Since no hour type is tracked
    afterwards, [addRow] accepts every hour type again and appends its row
    to the rows that were left, also when a row with the same id is still
    among them. *)
Theorem init_keeps_table (weekStart : option string) (w : World) :
  let w' := init weekStart w in
  document w' = document w
  /\ collectEntries w' = collectEntries w
  /\ _form (TimesheetState w') = timesheet_form (document w)
  /\ (_entriesBody (TimesheetState w') = true <-> entries_body (document w) <> None)
  /\ (forall h, hasHourType h w' = false)
  /\ isEditable w' = true
  /\ (forall rows h data,
        entries_body (document w) = Some rows ->
        entries_body (document (addRow h data w'))
        = Some (rows ++ [_buildRowHTML h data (addHourType h w')])%list
        /\ row_id (_buildRowHTML h data (addHourType h w')) = "row-" ++ h).
Proof.
  cbv zeta. unfold init.
  set (w1 := with_state _ w).
  destruct (emit_spec (EvInit weekStart) (_cacheDOMReferences w1))
    as (Hst & Hdoc & _).
  assert (Hdoc' : document (emit (EvInit weekStart) (_cacheDOMReferences w1)) = document w)
    by (rewrite Hdoc; reflexivity).
  assert (Hno : forall h, hasHourType h (emit (EvInit weekStart) (_cacheDOMReferences w1))
                          = false).
  { intros h. unfold hasHourType. rewrite Hst. cbn.
    apply bool_decide_eq_false_2, not_elem_of_empty. }
  split; [exact Hdoc'|].
  split; [unfold collectEntries; now rewrite Hdoc'|].
  split; [now rewrite Hst|].
  split.
  { rewrite Hst. cbn. rewrite bool_decide_eq_true.
    destruct (entries_body (document w)) as [rows|].
    - split; [discriminate | eauto].
    - split; [intros H; now apply is_Some_None in H | congruence]. }
  split; [exact Hno|].
  split; [unfold isEditable; now rewrite Hst|].
  intros rows h data Hb. split; [|reflexivity].
  assert (Hb' : entries_body (document (emit (EvInit weekStart) (_cacheDOMReferences w1)))
                = Some rows) by (now rewrite Hdoc').
  destruct (addRow_fresh h data _ rows (Hno h) Hb') as (_ & E & _).
  exact E.
Qed.

Lemma init_keeps_table_witness :
  List.map row_id
    (default [] (entries_body (document
       (addRow "Work" None (init (Some "2026-01-11") sample_grid)))))
  = ["row-Work"; "row-Training"; "row-Work"].
Proof.
  destruct (init_keeps_table (Some "2026-01-11") sample_grid)
    as (_ & _ & _ & _ & _ & _ & H).
  destruct (H sample_rows "Work" None eq_refl) as [-> _]. reflexivity.
Defined.

(** *** The drop-down *)

Lemma updateSelectorOptions_selector w :
  match hour_type_selector (document (updateSelectorOptions w)) with
  | Some sel =>
      sel_value sel = ""
      /\ forall o, In o (sel_options sel) -> opt_value o <> "" ->
           opt_hidden o = hasHourType (opt_value o) w
  | None => hour_type_selector (document w) = None
  end.
Proof.
  unfold updateSelectorOptions.
  destruct (hour_type_selector (document w)) as [sel|] eqn:E; [|now rewrite E].
  cbn. split; [reflexivity|].
  intros o Ho Hv. apply in_map_iff in Ho as (o0 & <- & _).
  destruct (String.eqb (opt_value o0) "") eqn:Eo; cbn [negb].
  - apply String.eqb_eq in Eo. cbn in Hv. contradiction.
  - reflexivity.
Qed.

(** X15.  After [addRow] has added a row for an hour type, the drop-down no
    longer lets the user add that type: the selection is back on the
    placeholder, every option with a value is hidden exactly when its hour
    type is tracked, so picking the added type and pressing the add button
    changes nothing, and neither does pressing the add button with the
    placeholder selected. *)
Theorem dropdown_hides_added (w : World) (h : string) (data : option Entry)
    (rows : list EntryRow) :
  entries_body (document w) = Some rows ->
  hasHourType h w = false ->
  h <> "" ->
  let w' := addRow h data w in
  (forall sel, hour_type_selector (document w') = Some sel ->
     sel_value sel = ""
     /\ forall o, In o (sel_options sel) -> opt_value o <> "" ->
          opt_hidden o = hasHourType (opt_value o) w')
  /\ user_picks_and_adds h w' = w'
  /\ on_add_click w' = w'.
Proof.
  intros Hb Hfresh Hne w'.
  assert (Hw' : exists w2, w' = _checkAllTypesAdded (updateSelectorOptions w2)
                           /\ TimesheetState w2 = TimesheetState (addHourType h w)).
  { unfold w', addRow. rewrite Hfresh, Hb. eexists. split; reflexivity. }
  destruct Hw' as (w2 & Hw' & Hst2).
  destruct (_checkAllTypesAdded_fields (updateSelectorOptions w2))
    as (Hst3 & _ & Hsel3 & _).
  destruct (updateSelectorOptions_fields w2) as (Hst2' & _).
  rewrite <- Hw' in Hst3, Hsel3.
  assert (Hhas : forall x, hasHourType x w' = hasHourType x w2).
  { intros x. unfold hasHourType. now rewrite Hst3, Hst2'. }
  assert (Hsel : forall sel, hour_type_selector (document w') = Some sel ->
            sel_value sel = ""
            /\ forall o, In o (sel_options sel) -> opt_value o <> "" ->
                 opt_hidden o = hasHourType (opt_value o) w').
  { intros sel Hs. rewrite Hsel3 in Hs.
    pose proof (updateSelectorOptions_selector w2) as H. rewrite Hs in H.
    destruct H as [Hv Ho]. split; [exact Hv|].
    intros o Hin Hval. rewrite Hhas. now apply Ho. }
  assert (Htracked : hasHourType h w' = true).
  { rewrite Hhas. unfold hasHourType. rewrite Hst2.
    apply (hasHourType_addHourType h w). }
  split; [exact Hsel|]. split.
  - unfold user_picks_and_adds.
    destruct (hour_type_selector (document w')) as [sel|] eqn:Es; [|reflexivity].
    destruct (Hsel sel eq_refl) as [_ Ho].
    destruct (existsb _ (sel_options sel)) eqn:Ex; [|reflexivity].
    exfalso. apply existsb_exists in Ex as (o & Hin & Hp).
    apply andb_true_iff in Hp as [Hv Hh].
    apply String.eqb_eq in Hv.
    rewrite (Ho o Hin) in Hh by (rewrite Hv; exact Hne).
    rewrite Hv, Htracked in Hh. discriminate Hh.
  - unfold on_add_click.
    destruct (hour_type_selector (document w')) as [sel|] eqn:Es; [|reflexivity].
    destruct (Hsel sel eq_refl) as [-> _]. reflexivity.
Qed.

Lemma dropdown_hides_added_witness :
  user_picks_and_adds "Work" (addRow "Work" None (populateSelector start))
  = addRow "Work" None (populateSelector start).
Proof.
  assert (Hb : entries_body (document (populateSelector start)) = Some [])
    by (vm_compute; reflexivity).
  assert (Hf : hasHourType "Work" (populateSelector start) = false)
    by (vm_compute; reflexivity).
  assert (Hne : "Work" <> "") by discriminate.
  exact (proj1 (proj2 (dropdown_hides_added (populateSelector start) "Work" None []
                         Hb Hf Hne))).
Defined.

(** *** Read-only mode and later rows *)

Lemma _checkAllTypesAdded_controls w :
  add_row_controls (document (_checkAllTypesAdded w))
  = match add_row_controls (document w) with
    | Some _ =>
        Some (if forallb (fun t => hasHourType t w) (getAvailableHourTypes w)
              then "none" else "flex")
    | None => None
    end.
Proof.
  unfold _checkAllTypesAdded.
  destruct (add_row_controls (document w)) eqn:E; [reflexivity | exact E].
Qed.

Lemma setReadOnly_fields b w :
  let w' := setReadOnly b w in
  same_store w' w /\ UserInfo w' = UserInfo w /\ DateUtils w' = DateUtils w
  /\ add_row_controls (document w')
     = match entries_body (document w), add_row_controls (document w) with
       | Some _, Some _ => Some (if b then "none" else "flex")
       | _, c => c
       end.
Proof.
  unfold setReadOnly.
  destruct (entries_body (document w)) eqn:Eb; [|now repeat split].
  cbn. destruct (add_row_controls (document w)) eqn:Ec; cbn; rewrite ?Ec; now repeat split.
Qed.

(** X16.  Read-only mode is not remembered.  A row that [addRow] appends
    after [setReadOnly(true)] is rendered by [isEditable()] alone: on an
    editable record, for an hour type, dates and day values that are plain
    text, its inputs accept typing and it has a remove button.
    The add controls, which [setReadOnly(true)] had hidden, are shown again
    unless every hour type the user may pick is then tracked. *)
Theorem setReadOnly_not_remembered (w : World) (h : string) (data : option Entry)
    (rows : list EntryRow) :
  entries_body (document w) = Some rows ->
  hasHourType h w = false ->
  let w' := addRow h data (setReadOnly true w) in
  exists rows0 row,
    entries_body (document (setReadOnly true w)) = Some rows0
    /\ entries_body (document w') = Some (rows0 ++ [row])%list
    /\ row_hourType row = h
    /\ (isEditable w = true ->
        plain_splices h data (addHourType h (setReadOnly true w)) = true ->
          row_removeBtn row = Some ""
          /\ forall i, In i (row_inputs row) -> in_readonly i = false)
    /\ (forall d, add_row_controls (document w) = Some d ->
          add_row_controls (document (setReadOnly true w)) = Some "none"
          /\ add_row_controls (document w')
             = Some (if forallb (fun t => hasHourType t w || String.eqb t h)
                          (getAvailableHourTypes w)
                     then "none" else "flex")).
Proof.
  intros Hb Hfresh w'.
  destruct (setReadOnly_rows true w rows Hb) as (rows0 & Hb0 & _).
  destruct (setReadOnly_fields true w) as ((Hst0 & _) & Hui0 & _ & Hc0).
  set (w0 := setReadOnly true w) in *.
  assert (Hfresh0 : hasHourType h w0 = false)
    by (unfold hasHourType; rewrite Hst0; exact Hfresh).
  destruct (addRow_fresh h data w0 rows0 Hfresh0 Hb0) as (_ & Hrows & _).
  fold w' in Hrows.
  destruct (addHourType_spec h w0) as (Hadd & _ & Hcur & _ & Hdoc1 & Hui1 & _).
  set (w1 := addHourType h w0) in *.
  exists rows0, (_buildRowHTML h data w1).
  split; [exact Hb0|]. split; [exact Hrows|]. split; [reflexivity|].
  split.
  - intros Hed _.
    assert (Hed1 : isEditable w1 = true).
    { unfold isEditable in *. now rewrite Hcur, Hst0. }
    unfold _buildRowHTML. cbn [row_removeBtn row_inputs]. rewrite Hed1.
    split; [reflexivity|].
    intros i Hi. apply in_map_iff in Hi as (j & <- & _).
    unfold build_input. cbn [in_readonly]. now rewrite Hed1.
  - intros d Hd. rewrite Hb, Hd in Hc0. split; [exact Hc0|].
    assert (Hw' : exists w2, w' = _checkAllTypesAdded (updateSelectorOptions w2)
                   /\ TimesheetState w2 = TimesheetState w1
                   /\ UserInfo w2 = UserInfo w1
                   /\ add_row_controls (document w2) = add_row_controls (document w1)).
    { unfold w', addRow. rewrite Hfresh0, Hb0. eexists. now repeat split. }
    destruct Hw' as (w2 & -> & Hst2 & Hui2 & Hc2).
    destruct (updateSelectorOptions_fields w2) as (Hst3 & _ & Hc3 & Hui3 & _).
    rewrite _checkAllTypesAdded_controls, Hc3, Hc2, Hdoc1, Hc0. f_equal.
    assert (Hav : getAvailableHourTypes (updateSelectorOptions w2)
                  = getAvailableHourTypes w).
    { unfold getAvailableHourTypes. now rewrite Hui3, Hui2, Hui1, Hui0. }
    rewrite Hav.
    assert (Hext : forall t, hasHourType t (updateSelectorOptions w2)
                             = hasHourType t w || String.eqb t h).
    { intros t. unfold hasHourType. rewrite Hst3, Hst2, Hadd, Hst0.
      destruct (String.eqb_spec t h) as [->|Hne].
      - rewrite orb_true_r. apply bool_decide_eq_true_2.
        apply elem_of_union_r. now apply elem_of_singleton.
      - rewrite orb_false_r. apply bool_decide_ext.
        rewrite elem_of_union, elem_of_singleton. tauto. }
    assert (Hfa : forallb (fun t => hasHourType t (updateSelectorOptions w2))
                    (getAvailableHourTypes w)
                  = forallb (fun t => hasHourType t w || String.eqb t h)
                      (getAvailableHourTypes w)).
    { clear -Hext. generalize (getAvailableHourTypes w) as l.
      induction l as [|t l IH]; [reflexivity|].
      cbn [forallb]. now rewrite Hext, IH. }
    now rewrite Hfa.
Qed.

Lemma setReadOnly_not_remembered_witness :
  add_row_controls (document (addRow "Field" None (setReadOnly true sample_grid)))
  = Some "flex"
  /\ option_map in_readonly
       (get_input 2 0 (addRow "Field" None (setReadOnly true sample_grid)))
     = Some false.
Proof.
  destruct (setReadOnly_not_remembered sample_grid "Field" None sample_rows
              eq_refl eq_refl) as (rows0 & row & H0 & H1 & _ & _ & H4).
  split; [exact (proj2 (H4 "flex" eq_refl)) | reflexivity].
Defined.

End GridLaws.

(** ** The reimbursement total *)

Module AmountLaws.


Import JS State StateFacts NumberFacts RoundingFacts.

(** *** Signs and zeros of a sum *)

Lemma shr_fexp_pos m e l :
  0 < m -> -1074 <= e ->
  0 < shr_m (fst (shr_fexp prec emax m e l)) /\ -1074 <= snd (shr_fexp prec emax m e l).
Proof.
  intros Hm He. unfold shr_fexp.
  assert (Hm0 : shr_m (shr_record_of_loc m l) = m)
    by (destruct l as [|[| |]]; reflexivity).
  pose proof (shr_value (shr_record_of_loc m l) e
                (fexp prec emax (Zdigits2 m + e) - e)) as S1.
  rewrite Hm0 in S1. destruct (S1 ltac:(lia)) as [-> ->]. clear S1.
  rewrite fexp_spec. split; [|lia].
  pose proof (Zdigits2_bounds m Hm) as [Lo _].
  pose proof (Zdigits2_ge1 m Hm) as Hd.
  set (d := Zdigits2 m) in *.
  set (n := Z.max 0 (Z.max (d + e - 53) (-1074) - e)).
  assert (Hn : 0 <= n <= d - 1) by (unfold n; lia).
  assert (Hp : 0 < 2 ^ n) by (apply Z.pow_pos_nonneg; lia).
  assert (Hle : 2 ^ n <= m).
  { apply Z.le_trans with (2 ^ (d - 1)); [|exact Lo]. apply Z.pow_le_mono_r; lia. }
  assert (1 <= m / 2 ^ n) by (apply Z.div_le_lower_bound; lia).
  lia.
Qed.

Lemma round_aux_signed s mx ex lx :
  0 < mx -> -1074 <= ex -> signed s (binary_round_aux prec emax s mx ex lx).
Proof.
  intros Hmx Hex. unfold binary_round_aux.
  destruct (shr_fexp_pos mx ex lx Hmx Hex) as [H1 H2].
  destruct (shr_fexp prec emax mx ex lx) as [mrs' e']. cbn [fst snd] in H1, H2.
  cbv beta iota.
  pose proof (round_nearest_even_range (shr_m mrs') (loc_of_shr_record mrs')) as R.
  set (m1 := round_nearest_even (shr_m mrs') (loc_of_shr_record mrs')) in *.
  destruct (shr_fexp_pos m1 e' loc_Exact ltac:(lia) H2) as [H3 _].
  destruct (shr_fexp prec emax m1 e' loc_Exact) as [mrs'' e'']. cbn [fst] in H3.
  cbv beta iota.
  destruct (shr_m mrs'') as [|m|m]; try lia.
  destruct (e'' <=? emax - prec); reflexivity.
Qed.

Lemma binary_round_signed s p e :
  -1074 <= e -> signed s (binary_round prec emax s p e).
Proof.
  intros He. unfold binary_round.
  set (F := fexp prec emax (Zpos (digits2_pos p) + e)).
  assert (HF : -1074 <= F) by (unfold F; rewrite fexp_spec; lia).
  destruct (shl_align p e F) as [mz ez] eqn:Hal.
  apply round_aux_signed; [lia|].
  unfold shl_align in Hal.
  destruct (F - e) as [|d|d] eqn:Hd; injection Hal as <- <-; lia.
Qed.

Lemma valid_exponent s m e :
  valid_binary prec emax (S754_finite s m e) = true -> -1074 <= e.
Proof.
  intros H. destruct (valid_finite s m e H) as [Hf _].
  rewrite fexp_spec in Hf. lia.
Qed.

Lemma add_finite sx mx ex sy my ey :
  valid_binary prec emax (S754_finite sx mx ex) = true ->
  valid_binary prec emax (S754_finite sy my ey) = true ->
  let z := add (S754_finite sx mx ex) (S754_finite sy my ey) in
  valid_binary prec emax z = true
  /\ (z = pos_zero \/ signed false z \/ signed true z).
Proof.
  intros Hx Hy. apply valid_exponent in Hx, Hy.
  unfold add. cbn [SFadd]. unfold binary_normalize.
  set (ez := Z.min ex ey).
  destruct (_ + _) as [|m|m].
  - split; [reflexivity | now left].
  - split; [apply binary_round_valid|]. right. left.
    apply binary_round_signed. unfold ez. lia.
  - split; [apply binary_round_valid|]. right. right.
    apply binary_round_signed. unfold ez. lia.
Qed.

Lemma add_valid x y :
  valid_binary prec emax x = true -> valid_binary prec emax y = true ->
  valid_binary prec emax (add x y) = true.
Proof.
  intros Hx Hy.
  destruct x as [sx|sx| |sx mx ex], y as [sy|sy| |sy my ey];
    try exact (proj1 (add_finite _ _ _ _ _ _ Hx Hy));
    try (destruct sx, sy; reflexivity); first [reflexivity | assumption].
Qed.

(** A sum is -0 only when both operands are. *)
Lemma add_neg_zero x y :
  valid_binary prec emax x = true -> valid_binary prec emax y = true ->
  add x y = S754_zero true -> x = S754_zero true /\ y = S754_zero true.
Proof.
  intros Hx Hy.
  destruct x as [sx|sx| |sx mx ex], y as [sy|sy| |sy my ey];
    try (unfold add; cbn [SFadd]; discriminate);
    try (destruct sx, sy; unfold add; cbn; intros H; try discriminate H;
         split; reflexivity).
  intros E. destruct (add_finite sx mx ex sy my ey Hx Hy) as [_ H].
  cbv zeta in H. rewrite E in H. destruct H as [H|[H|H]]; [discriminate H | | ];
    contradiction H.
Qed.

Lemma add_zero_r x : x <> S754_zero true -> add x pos_zero = x.
Proof.
  destruct x as [[|]| | |]; intros H; try reflexivity. now contradiction H.
Qed.

(** A sum of numbers is NaN only when an operand is NaN or both are
    infinite. *)
Lemma add_nan x y :
  valid_binary prec emax x = true -> valid_binary prec emax y = true ->
  add x y = NaN ->
  x = NaN \/ y = NaN \/ (exists sx sy, x = S754_infinity sx /\ y = S754_infinity sy).
Proof.
  intros Hx Hy.
  destruct x as [sx|sx| |sx mx ex], y as [sy|sy| |sy my ey];
    try (now left); try (now right; left);
    try (intros _; right; right; eauto; fail);
    try (unfold add; cbn [SFadd]; discriminate);
    try (destruct sx, sy; unfold add; cbn; discriminate).
  intros E. destruct (add_finite sx mx ex sy my ey Hx Hy) as [_ H].
  cbv zeta in H. unfold NaN in E. rewrite E in H.
  destruct H as [H|[H|H]]; [discriminate H | | ]; contradiction H.
Qed.


(** *** The reimbursement total *)

Lemma or_zero_facts x :
  valid_binary prec emax x = true ->
  valid_binary prec emax (or_zero x) = true
  /\ or_zero x <> S754_zero true
  /\ or_zero x <> NaN
  /\ (truthy x = false -> or_zero x = pos_zero)
  /\ (truthy x = true -> or_zero x = x).
Proof.
  intros Hx. unfold or_zero.
  destruct x as [s|s| |s m e]; cbn; repeat split; try discriminate; try assumption;
    try reflexivity.
Qed.

Lemma total_skips items :
  forall acc,
  valid_binary prec emax acc = true -> acc <> S754_zero true ->
  fold_left
    (fun sum item => add sum (or_zero (parseFloat_value (item_amount item))))
    (List.filter counts items) acc
  = fold_left
      (fun sum item => add sum (or_zero (parseFloat_value (item_amount item))))
      items acc.
Proof.
  induction items as [|item items IH]; intros acc Hv Hz; [reflexivity|].
  cbn [List.filter fold_left].
  destruct (or_zero_facts (parseFloat_value (item_amount item))
              (parseFloat_valid _)) as (Hov & Hoz & _ & Hf & Ht).
  unfold counts at 1.
  destruct (truthy (parseFloat_value (item_amount item))) eqn:E.
  - cbn [fold_left]. apply IH; [now apply add_valid|].
    intros H. apply add_neg_zero in H as [_ H]; [contradiction | assumption | assumption].
  - rewrite (Hf eq_refl), add_zero_r by assumption. now apply IH.
Qed.

Lemma total_not_nan items :
  (forall item s, In item items ->
     parseFloat_value (item_amount item) <> S754_infinity s) ->
  forall acc,
  valid_binary prec emax acc = true -> acc <> NaN ->
  fold_left
    (fun sum item => add sum (or_zero (parseFloat_value (item_amount item))))
    items acc <> NaN.
Proof.
  induction items as [|item items IH]; intros Hfin acc Hv Hn; [exact Hn|].
  cbn [fold_left].
  destruct (or_zero_facts (parseFloat_value (item_amount item))
              (parseFloat_valid _)) as (Hov & _ & Hon & Hf & Ht).
  apply IH.
  - intros i s Hi. apply Hfin. now right.
  - now apply add_valid.
  - intros H. apply add_nan in H as [H|[H|(sx & sy & _ & H)]]; try assumption;
      try contradiction.
    destruct (truthy (parseFloat_value (item_amount item))) eqn:E.
    + rewrite (Ht eq_refl) in H. apply (Hfin item sy (or_introl eq_refl) H).
    + rewrite (Hf eq_refl) in H. discriminate H.
Qed.

(** X17.  [getReimbursementTotal()] counts an item only when [parseFloat]
    reads a number other than zero from its amount: the total is the one of
    the store without the other items (a fresh item with amount [null],
    an empty or a non-numeric text), it is +0 when no item counts, it is
    never -0, and it is not NaN as long as no amount reads as an infinity. *)
Theorem reimbursement_total_skips (w : World) :
  (forall w',
     reimbursementItems (TimesheetState w')
     = List.filter counts (reimbursementItems (TimesheetState w)) ->
     getReimbursementTotal w' = getReimbursementTotal w)
  /\ ((forall item, In item (reimbursementItems (TimesheetState w)) ->
         counts item = false) ->
      getReimbursementTotal w = pos_zero)
  /\ getReimbursementTotal w <> S754_zero true
  /\ ((forall item s, In item (reimbursementItems (TimesheetState w)) ->
         parseFloat_value (item_amount item) <> S754_infinity s) ->
      getReimbursementTotal w <> NaN).
Proof.
  unfold getReimbursementTotal.
  assert (Hskip := total_skips (reimbursementItems (TimesheetState w)) pos_zero
                     eq_refl ltac:(discriminate)).
  split; [|split; [|split]].
  - intros w' ->. exact Hskip.
  - intros Hnone. rewrite <- Hskip.
    assert (E : List.filter counts (reimbursementItems (TimesheetState w)) = []).
    { revert Hnone. generalize (reimbursementItems (TimesheetState w)) as l.
      induction l as [|i l IH]; intros Hnone; [reflexivity|].
      cbn [List.filter]. rewrite (Hnone i (or_introl eq_refl)).
      apply IH. intros x Hx. apply Hnone. now right. }
    now rewrite E.
  - generalize (reimbursementItems (TimesheetState w)) as items.
    assert (H : forall items acc,
              valid_binary prec emax acc = true -> acc <> S754_zero true ->
              fold_left
                (fun sum item => add sum (or_zero (parseFloat_value (item_amount item))))
                items acc <> S754_zero true).
    { induction items as [|item items IH]; intros acc Hv Hz; [exact Hz|].
      cbn [fold_left].
      destruct (or_zero_facts (parseFloat_value (item_amount item))
                  (parseFloat_valid _)) as (Hov & Hoz & _).
      apply IH; [now apply add_valid|].
      intros E. apply add_neg_zero in E as [_ E]; [contradiction | assumption | assumption]. }
    intros items. apply H; [reflexivity | discriminate].
  - intros Hfin. apply total_not_nan; [exact Hfin | reflexivity | discriminate].
Qed.

(** White space before the number does not keep an amount from counting,
    also when it is not ASCII: a no-break space (U+00A0) before "5". *)
Lemma amount_after_no_break_space :
  let amount := String (ascii_of_nat 194) (String (ascii_of_nat 160) "5") in
  parseFloat amount = of_Z 5
  /\ counts {| item_id := "item-1"; item_description := "";
               item_amount := VStr amount; item_category := "Other" |} = true.
Proof. vm_compute. split; reflexivity. Qed.

Lemma reimbursement_total_skips_witness :
  let item a := {| item_id := "item-1"; item_description := "";
                   item_amount := a; item_category := "Other" |} in
  let record items :=
    {| ts_id := None; week_start := None; status := "NEW";
       pay_period_confirmed := None; entries := None;
       reimbursement_items := Some items |} in
  getReimbursementTotal (loadTimesheet (record [item (VStr "12.5")]) start)
  = getReimbursementTotal
      (loadTimesheet (record [item VNull; item (VStr "12.5"); item (VStr "abc")]) start).
Proof.
  cbv zeta.
  apply (proj1 (reimbursement_total_skips _)). reflexivity.
Defined.

End AmountLaws.
